(** * Wallet manager: key derivation, balance lookup and the 1-ADA transfer

    A shallow embedding of the wallet manager ([createTestnetWallet],
    [fetchBalance], [saveWalletsToFile], [loadWalletsFromFile],
    [getPrivateKeyFromMnemonic], [sendAda], [balanceCheckAndTransfer],
    [manageWallets]) and the properties its design document states.

    Conventions of the embedding.

    - The libraries the program calls (bip39, the Cardano serialization
      library, JSON) are interfaces: type classes whose operations are
      arbitrary functions.  Operations that can throw return a sum.
    - The collaborators (Blockfrost, the random source behind
      [generateMnemonic]) are oracles of an environment [Env]; every answer
      may depend on the whole history of the run.
    - Asynchronous functions are awaited one after the other in the source,
      so they are sequential computations of one monad [M]: state (the trace
      of events and the wallet file) plus JavaScript exceptions.
    - Quantities.  Blockfrost reports a quantity as a decimal numeral; the
      model stores the integer the numeral denotes.  Two readings of the
      arithmetic are given.  In [sendAda] numbers that carry lovelace are
      integers ([Z]) and ADA amounts are rationals ([Q]); this is the
      arithmetic of the program as long as every number is a double that
      holds its value exactly.  In [sendAda_js] every number is an IEEE
      double: [parseInt], the sums, the differences and the product with
      1,000,000 round to the nearest double, and [BigNum.from_str] reads the
      digits [toString] prints.  The properties of value (conservation,
      first fit) are stated of [sendAda_js].
    - The file system.  [readFileSync] reads what the state holds;
      [writeFileSync] may fail, as the environment decides, and then leaves
      what the environment says.
    - What [JSON.parse] returns is an array of wallet objects, a falsy
      value, a truthy value that cannot be iterated, or some other value
      that can; what the program does with the last kind is given by the
      environment, within what the control flow allows. *)

From Stdlib Require Import ZArith QArith Qround List String Ascii Bool Lia.
From Stdlib Require Import Permutation Sorted Lqa DecimalString.
Import ListNotations.

Local Open Scope string_scope.
Local Open Scope list_scope.
Local Open Scope Z_scope.

(** ** JavaScript values *)

Definition Bytes := list Byte.byte.

(** A thrown value.  Blockfrost errors carry [status_code]; on every other
    error the property is [undefined]. *)
Inductive JsError : Type :=
| BlockfrostError (status_code : Z) (message : string)
| LibraryError (message : string).

Definition status_code (e : JsError) : option Z :=
  match e with
  | BlockfrostError c _ => Some c
  | LibraryError _ => None
  end.

(** [e.status_code === c] *)
Definition has_status_code (e : JsError) (c : Z) : bool :=
  match status_code e with
  | Some c' => c' =? c
  | None => false
  end.

(** [!s] for a string that may be [null]/[undefined]. *)
Definition falsy (s : option string) : bool :=
  match s with
  | None => true
  | Some s => (s =? EmptyString)%string
  end.

(** [s || d] on such a string. *)
Definition or_default (s : option string) (d : string) : string :=
  match s with
  | None => d
  | Some s => if (s =? EmptyString)%string then d else s
  end.

Definition hex_digit (c : ascii) : option N :=
  let n := N_of_ascii c in
  if ((48 <=? n) && (n <=? 57))%N then Some (n - 48)%N
  else if ((97 <=? n) && (n <=? 102))%N then Some (n - 87)%N
  else if ((65 <=? n) && (n <=? 70))%N then Some (n - 55)%N
  else None.

Definition byte_of_N (n : N) : Byte.byte :=
  match Byte.of_N n with
  | Some b => b
  | None => Byte.x00
  end.

(** [Buffer.from(s, 'hex')]: decodes pairs of hexadecimal digits and stops
    at the first pair that is not one. *)
Fixpoint Buffer_from_hex (s : string) : Bytes :=
  match s with
  | String h (String l rest) =>
      match hex_digit h, hex_digit l with
      | Some a, Some b => byte_of_N (16 * a + b) :: Buffer_from_hex rest
      | _, _ => []
      end
  | _ => []
  end.

(** ** The libraries *)

(** bip39.  [mnemonicToEntropy] throws on a phrase that fails the word-list
    or checksum test; the empty phrase has no words and is rejected. *)
Class Bip39 : Type := {
  mnemonicToEntropy : string -> JsError + string;
  mnemonicToEntropy_empty : forall e, mnemonicToEntropy EmptyString <> inr e
}.

(** The opaque values of the Cardano serialization library. *)
Class CardanoTypes : Type := {
  Bip32PrivateKey : Type;
  Bip32PublicKey : Type;
  PrivateKey : Type;
  PublicKey : Type;
  Ed25519KeyHash : Type;
  Address : Type;
  TransactionHash : Type;
  Vkeywitness : Type
}.

Section Containers.
Context {CT : CardanoTypes}.

Record NetworkInfo : Type := {
  network_id : Z;
  protocol_magic : Z
}.

Definition NetworkInfo_testnet : NetworkInfo :=
  {| network_id := 0; protocol_magic := 1097911063 |}.

Definition NetworkInfo_mainnet : NetworkInfo :=
  {| network_id := 1; protocol_magic := 764824073 |}.

Inductive StakeCredential : Type :=
| from_keyhash (hash : Ed25519KeyHash).

Record BaseAddress : Type := {
  base_network : Z;
  payment_cred : StakeCredential;
  stake_cred : StakeCredential
}.

Definition BaseAddress_new (network : Z) (payment stake : StakeCredential)
  : BaseAddress :=
  {| base_network := network; payment_cred := payment; stake_cred := stake |}.

Record TransactionInput : Type := {
  transaction_id : TransactionHash;
  input_index : Z
}.

(** [BigNum]: an unsigned 64-bit integer. *)
Definition BigNum := Z.

Record Value : Type := { coin : BigNum }.

Record TransactionOutput : Type := {
  output_address : Address;
  output_amount : Value
}.

Record TransactionBody : Type := {
  inputs : list TransactionInput;
  outputs : list TransactionOutput;
  fee : BigNum;
  ttl : option Z
}.

Record TransactionWitnessSet : Type := {
  vkeys : option (list Vkeywitness)
}.

Record Transaction : Type := {
  body : TransactionBody;
  witness_set : TransactionWitnessSet;
  auxiliary_data : option Bytes
}.

End Containers.

(** The operations of the Cardano serialization library the program uses. *)
Class CardanoWasm {CT : CardanoTypes} : Type := {
  from_bip39_entropy : Bytes -> Bytes -> Bip32PrivateKey;
  derive : Bip32PrivateKey -> Z -> Bip32PrivateKey;
  to_public : Bip32PrivateKey -> Bip32PublicKey;
  to_raw_key : Bip32PrivateKey -> PrivateKey;
  public_to_raw_key : Bip32PublicKey -> PublicKey;
  hash : PublicKey -> Ed25519KeyHash;
  to_address : BaseAddress -> Address;
  to_bech32 : Address -> string;
  from_bech32 : string -> JsError + Address;
  TransactionHash_from_bytes : Bytes -> JsError + TransactionHash;
  hash_transaction : TransactionBody -> TransactionHash;
  make_vkey_witness : TransactionHash -> PrivateKey -> Vkeywitness;
  to_bytes : Transaction -> Bytes
}.

(** [BigNum.from_str(n.toString())]: throws unless the numeral is an
    unsigned 64-bit integer. *)
Definition BigNum_from_str (n : Z) : JsError + BigNum :=
  if (0 <=? n) && (n <? 2 ^ 64) then inr n
  else inl (LibraryError "BigNum.from_str").

(** ** Data of the program and of its collaborators *)

(** A wallet object; [name] is absent on what [createTestnetWallet]
    returns and is added by the caller. *)
Record Wallet : Type := {
  name : option string;
  address : string;
  mnemonic : string;
  type : string
}.

(** An entry of a Blockfrost [amount] array. *)
Record AmountEntry : Type := {
  unit_ : string;
  quantity : Z
}.

Record AddressInfo : Type := {
  info_amount : list AmountEntry
}.

Record Utxo : Type := {
  tx_hash : string;
  output_index : Z;
  utxo_amount : list AmountEntry
}.

Record Block : Type := {
  slot : Z;
  epoch : Z
}.

Record ProtocolParams : Type := {
  min_fee_a : Z;
  min_fee_b : Z
}.

(** What [fetchBalance] returns: the two numerals, as the numbers they
    denote. *)
Record Balance : Type := {
  ada : Q;
  lovelace : Z
}.

Record WalletWithBalance : Type := {
  wallet : Wallet;
  balance : Balance
}.

(** What [JSON.parse] can make of the wallet file when it does not throw:
    a falsy value ([null], [false], [0], the empty string); the array of
    wallet objects; a truthy value that cannot be iterated (an object such
    as [{}], a number other than 0, [true]); or another value that can be
    iterated, a string or an array that holds other things than wallet
    objects, given by its text. *)
Inductive JsValue : Type :=
| JsFalsy
| JsWallets (ws : list Wallet)
| JsNotIterable
| JsOther (text : string).

Class Json : Type := {
  JSON_stringify : list Wallet -> string;
  JSON_parse : string -> JsError + JsValue
}.

(** ** Events, environment and state *)

(** The lines the program prints, one constructor per [console.log] or
    [console.error] call of the source, with the values it interpolates. *)
Inductive Message : Type :=
| ErrorCreatingTestnetWallet (error : JsError)
| SkippingBalanceLookup
| ErrorFetchingBalance (address : string) (error : JsError)
| WalletsSaved
| ErrorSavingWallets (error : JsError)
| ErrorLoadingWallets (error : JsError)
| ErrorGettingPrivateKey (error : JsError)
| AttemptingToSend (amountAda : Q) (sender : option string) (receiver : string)
| NoUtxosFound (address : string)
| NotEnoughFunds (required available : Q)
| SubmittingTransaction
| TransactionSubmitted
| TransactionHashLine (submittedTxHash : string)
| ErrorSendingAda (error : JsError)
| NeedAtLeastTwoWallets
| HasMoreAda (first : option string) (firstAda : Q)
    (second : option string) (secondAda : Q)
| SuccessfullySent (first second : option string)
| FailedToSend (first second : option string)
| NoTransferNeeded (first : option string) (firstAda : Q)
    (second : option string) (secondAda : Q)
| ErrorCheckingBalances (error : JsError)
| CheckingWalletFile
| FoundExistingWallets
| WalletLine (name : string)
| AddressLine (address : string)
| BalanceLine (balance : Balance)
| NoExistingWallets
| CreatedNewWallet (name : option string)
| SeedPhraseLine (mnemonic : string)
| NewWalletBalanceLine
| FundThemFirst.

(** What a run does to the outside world. *)
Inductive Event : Type :=
| ConsoleLog (m : Message)
| ConsoleError (m : Message)
| GenerateMnemonic (strength : Z)
| BlockfrostAddresses (address : string)
| BlockfrostAddressesUtxos (address : string)
| BlockfrostBlocksLatest
| BlockfrostEpochsParameters (epoch : Z)
| BlockfrostTxSubmit (tx : Bytes)
| WriteFile (data : string).

(** Events that neither draw a mnemonic nor write the wallet file. *)
Definition keeps_wallets (ev : Event) : Prop :=
  match ev with
  | GenerateMnemonic _ | WriteFile _ => False
  | _ => True
  end.

(** The events of the loop that shows the wallets found: its three lines
    and what a balance lookup does. *)
Definition display_event (ev : Event) : Prop :=
  match ev with
  | ConsoleLog (WalletLine _)
  | ConsoleLog (AddressLine _)
  | ConsoleLog (BalanceLine _)
  | ConsoleLog SkippingBalanceLookup
  | ConsoleError (ErrorFetchingBalance _ _)
  | BlockfrostAddresses _ => True
  | _ => False
  end.

(** The process environment and the collaborators.  An oracle receives the
    events so far, most recent first.

    [writeFileSync_answer] says how a write of the wallet file ends:
    [None] when it succeeds, the error thrown and the file it leaves
    behind when it fails.

    [display_answer] and [check_answer] stand for what the program does
    with a parsed value that can be iterated and is not an array of wallet
    objects.  The program hands the fields of its elements, whatever they
    are, to the libraries, and what these make of an argument that is not
    a string is not in the program.  The code that runs is that of the
    loop that shows the wallets and that of [balanceCheckAndTransfer]: the
    first prints its lines, looks balances up and may throw; the second
    prints, calls Blockfrost and returns a boolean, since it catches what
    is thrown.  The answers are the events added, most recent first, with
    the error thrown, if any, and the boolean returned. *)
Record Env : Type := {
  NETWORK : option string;
  BLOCKFROST_API_KEY : option string;
  random_mnemonic : list Event -> Z -> string;
  addresses_answer : list Event -> string -> JsError + AddressInfo;
  addressesUtxos_answer : list Event -> string -> JsError + list Utxo;
  blocksLatest_answer : list Event -> JsError + Block;
  epochsParameters_answer : list Event -> Z -> JsError + ProtocolParams;
  txSubmit_answer : list Event -> Bytes -> JsError + string;
  writeFileSync_answer :
    list Event -> string -> option (JsError * option string);
  display_answer :
    list Event -> string ->
    list {ev : Event | display_event ev} * option JsError;
  check_answer :
    list Event -> string -> list {ev : Event | keeps_wallets ev} * bool
}.

(** The trace (most recent event first) and the content of [wallets.txt],
    [None] when the file does not exist. *)
Record State : Type := {
  trace : list Event;
  wallet_file : option string
}.

(** ** The monad of the program *)

Inductive Outcome (A : Type) : Type :=
| Return (a : A)
| Throw (e : JsError).

Arguments Return {A} a.
Arguments Throw {A} e.

Definition M (A : Type) : Type := State -> Outcome A * State.

Definition ret {A} (a : A) : M A := fun s => (Return a, s).

Definition throw {A} (e : JsError) : M A := fun s => (Throw e, s).

Definition bind {A B} (m : M A) (k : A -> M B) : M B :=
  fun s =>
    match m s with
    | (Return a, s') => k a s'
    | (Throw e, s') => (Throw e, s')
    end.

(** [try { m } catch (error) { handler }] *)
Definition try_catch {A} (m : M A) (handler : JsError -> M A) : M A :=
  fun s =>
    match m s with
    | (Return a, s') => (Return a, s')
    | (Throw e, s') => handler e s'
    end.

(** A library call that throws or returns. *)
Definition lift {A} (r : JsError + A) : M A :=
  match r with
  | inl e => throw e
  | inr a => ret a
  end.

Definition emit (ev : Event) : M unit :=
  fun s =>
    (Return tt, {| trace := ev :: trace s; wallet_file := wallet_file s |}).

(** A collaborator call: the call is recorded, the oracle answers from the
    history before the call. *)
Definition ask {A} (ev : Event) (answer : list Event -> JsError + A) : M A :=
  fun s =>
    let s' := {| trace := ev :: trace s; wallet_file := wallet_file s |} in
    match answer (trace s) with
    | inl e => (Throw e, s')
    | inr a => (Return a, s')
    end.

Declare Scope js_scope.
Delimit Scope js_scope with js.
Notation "x <- m ;; k" := (bind m (fun x => k))
  (at level 100, m at next level, right associativity) : js_scope.
Notation "m ;; k" := (bind m (fun _ => k))
  (at level 100, right associativity) : js_scope.
Local Open Scope js_scope.

Definition console_log (m : Message) : M unit := emit (ConsoleLog m).
Definition console_error (m : Message) : M unit := emit (ConsoleError m).

(** [for (const x of xs) { body }] without [break]. *)
Fixpoint for_of {A} (xs : list A) (body : A -> M unit) : M unit :=
  match xs with
  | [] => ret tt
  | x :: rest => body x ;; for_of rest body
  end.

(** [fs.existsSync(WALLET_FILE)], [fs.readFileSync(WALLET_FILE, 'utf8')] and
    [fs.writeFileSync(WALLET_FILE, data)]. *)
Definition existsSync : M bool :=
  fun s =>
    match wallet_file s with
    | Some _ => (Return true, s)
    | None => (Return false, s)
    end.

Definition readFileSync : M string :=
  fun s =>
    match wallet_file s with
    | Some data => (Return data, s)
    | None => (Throw (LibraryError "ENOENT"), s)
    end.

Definition writeFileSync (env : Env) (data : string) : M unit :=
  fun s =>
    match writeFileSync_answer env (trace s) data with
    | None =>
        (Return tt,
         {| trace := WriteFile data :: trace s; wallet_file := Some data |})
    | Some (error, remains) =>
        (Throw error,
         {| trace := WriteFile data :: trace s; wallet_file := remains |})
    end.

(** ** The program *)

Section Program.
Context {B39 : Bip39} {CT : CardanoTypes} {CW : CardanoWasm} {J : Json}.
Variable env : Env.

(** [const network = process.env.NETWORK || 'preprod'] *)
Definition network : string := or_default (NETWORK env) "preprod".

(** [blockfrostAPI.projectId], set from
    [process.env.BLOCKFROST_API_KEY || '']. *)
Definition projectId : string :=
  or_default (BLOCKFROST_API_KEY env) EmptyString.

(** [bip39.generateMnemonic(strength)] *)
Definition generateMnemonic (strength : Z) : M string :=
  ask (GenerateMnemonic strength)
      (fun history => inr (random_mnemonic env history strength)).

Definition blockfrost_addresses (a : string) : M AddressInfo :=
  ask (BlockfrostAddresses a) (fun history => addresses_answer env history a).

Definition blockfrost_addressesUtxos (a : string) : M (list Utxo) :=
  ask (BlockfrostAddressesUtxos a)
      (fun history => addressesUtxos_answer env history a).

Definition blockfrost_blocksLatest : M Block :=
  ask BlockfrostBlocksLatest (blocksLatest_answer env).

Definition blockfrost_epochsParameters (e : Z) : M ProtocolParams :=
  ask (BlockfrostEpochsParameters e)
      (fun history => epochsParameters_answer env history e).

Definition blockfrost_txSubmit (tx : Bytes) : M string :=
  ask (BlockfrostTxSubmit tx) (fun history => txSubmit_answer env history tx).

(** The hardened index [i + 0x80000000]. *)
Definition hardened (i : Z) : Z := i + 2147483648.

Definition createTestnetWallet (mnemonic : option string) : M Wallet :=
  try_catch
    (mnemonic <- (if falsy mnemonic then generateMnemonic 256
                  else ret (or_default mnemonic EmptyString)) ;;
     seed <- lift (mnemonicToEntropy mnemonic) ;;
     let rootKey := from_bip39_entropy (Buffer_from_hex seed) [] in
     let accountKey :=
       derive (derive (derive rootKey (hardened 1852)) (hardened 1815))
              (hardened 0) in
     let stakeKey := to_public (derive (derive accountKey 2) 0) in
     let spendingKey := to_public (derive (derive accountKey 0) 0) in
     let baseAddr :=
       BaseAddress_new (network_id NetworkInfo_testnet)
         (from_keyhash (hash (public_to_raw_key spendingKey)))
         (from_keyhash (hash (public_to_raw_key stakeKey))) in
     let address := to_bech32 (to_address baseAddr) in
     ret {| name := None; mnemonic := mnemonic; address := address;
            type := "Testnet Address" |})
    (fun error =>
       console_error (ErrorCreatingTestnetWallet error) ;; throw error).

Definition zero_balance : Balance := {| ada := 0; lovelace := 0 |}.

(** [amount.find(a => a.unit === 'lovelace')?.quantity || '0'], read as a
    number. *)
Definition lovelace_of (amount : list AmountEntry) : Z :=
  match find (fun a => (unit_ a =? "lovelace")%string) amount with
  | Some a => quantity a
  | None => 0
  end.

(** The field [ada] holds the quotient [parseInt(lovelace) / 1000000] as
    a rational.  The program keeps the text [toFixed(6)] makes of the
    quotient, and [balanceCheckAndTransfer] reads it back with
    [parseFloat]; below [2 ^ 33] ADA the numbers read back compare as the
    quotients do. *)
Definition fetchBalance (address : string) : M Balance :=
  try_catch
    (if falsy (Some projectId) || (projectId =? EmptyString)%string then
       console_log SkippingBalanceLookup ;;
       ret zero_balance
     else
       try_catch
         (addressInfo <- blockfrost_addresses address ;;
          let lovelace := lovelace_of (info_amount addressInfo) in
          let adaAmount := (inject_Z lovelace / 1000000)%Q in
          ret {| lovelace := lovelace; ada := adaAmount |})
         (fun error =>
            if has_status_code error 404 then ret zero_balance
            else throw error))
    (fun error =>
       console_error (ErrorFetchingBalance address error) ;;
       ret zero_balance).

Definition saveWalletsToFile (wallets : list Wallet) : M unit :=
  try_catch
    (let walletsData :=
       map (fun wallet =>
              {| name := name wallet; address := address wallet;
                 mnemonic := mnemonic wallet; type := type wallet |})
           wallets in
     writeFileSync env (JSON_stringify walletsData) ;;
     console_log WalletsSaved)
    (fun error => console_error (ErrorSavingWallets error)).

(** Returns [JsFalsy] for [null]. *)
Definition loadWalletsFromFile : M JsValue :=
  try_catch
    (present <- existsSync ;;
     if present then
       walletsData <- readFileSync ;;
       lift (JSON_parse walletsData)
     else ret JsFalsy)
    (fun error =>
       console_error (ErrorLoadingWallets error) ;;
       ret JsFalsy).

Definition getPrivateKeyFromMnemonic (mnemonic : string) : M Bip32PrivateKey :=
  try_catch
    (seed <- lift (mnemonicToEntropy mnemonic) ;;
     let rootKey := from_bip39_entropy (Buffer_from_hex seed) [] in
     let accountKey :=
       derive (derive (derive rootKey (hardened 1852)) (hardened 1815))
              (hardened 0) in
     ret accountKey)
    (fun error =>
       console_error (ErrorGettingPrivateKey error) ;; throw error).

(** Fee buffer in lovelace: 0.2 ADA. *)
Definition feeBuffer : Z := 200000.

(** [Math.floor(amountAda * 1000000)] *)
Definition to_lovelace (amountAda : Q) : Z := Qfloor (amountAda * 1000000).

(** The input loop of [sendAda]: every UTXO visited becomes an input and
    adds its lovelace to the total; the loop breaks as soon as the total
    reaches [threshold].  [TransactionHash.from_bytes] may throw. *)
Fixpoint select_inputs (utxos : list Utxo) (txInputs : list TransactionInput)
    (totalInputAmount threshold : Z) : JsError + (list TransactionInput * Z) :=
  match utxos with
  | [] => inr (txInputs, totalInputAmount)
  | utxo :: rest =>
      match TransactionHash_from_bytes (Buffer_from_hex (tx_hash utxo)) with
      | inl error => inl error
      | inr h =>
          let txInput :=
            {| transaction_id := h; input_index := output_index utxo |} in
          let txInputs := txInputs ++ [txInput] in
          let lovelace := lovelace_of (utxo_amount utxo) in
          let totalInputAmount := totalInputAmount + lovelace in
          if totalInputAmount >=? threshold
          then inr (txInputs, totalInputAmount)
          else select_inputs rest txInputs totalInputAmount threshold
      end
  end.

Definition sendAda (senderWallet : Wallet) (receiverAddress : string)
    (amountAda : Q) : M bool :=
  try_catch
    (console_log
       (AttemptingToSend amountAda (name senderWallet) receiverAddress) ;;
     accountKey <- getPrivateKeyFromMnemonic (mnemonic senderWallet) ;;
     let spendingKey := to_public (derive (derive accountKey 0) 0) in
     let stakeKey := to_public (derive (derive accountKey 2) 0) in
     let amountLovelace := to_lovelace amountAda in
     utxos <- blockfrost_addressesUtxos (address senderWallet) ;;
     match utxos with
     | [] =>
         console_log (NoUtxosFound (address senderWallet)) ;;
         ret false
     | _ :: _ =>
         selected <-
           lift (select_inputs utxos [] 0 (amountLovelace + feeBuffer)) ;;
         let txInputs := fst selected in
         let totalInputAmount := snd selected in
         if totalInputAmount <? amountLovelace + feeBuffer then
           console_log
             (NotEnoughFunds
                (inject_Z (amountLovelace + feeBuffer) / 1000000)%Q
                (inject_Z totalInputAmount / 1000000)%Q) ;;
           ret false
         else
           recipientAddress <- lift (from_bech32 receiverAddress) ;;
           recipientCoin <- lift (BigNum_from_str amountLovelace) ;;
           let recipientOutput :=
             {| output_address := recipientAddress;
                output_amount := {| coin := recipientCoin |} |} in
           let txOutputs := [recipientOutput] in
           let changeAmount := totalInputAmount - amountLovelace - feeBuffer in
           txOutputs <-
             (if changeAmount >? 0 then
                senderAddress <- lift (from_bech32 (address senderWallet)) ;;
                changeCoin <- lift (BigNum_from_str changeAmount) ;;
                let changeOutput :=
                  {| output_address := senderAddress;
                     output_amount := {| coin := changeCoin |} |} in
                ret (txOutputs ++ [changeOutput])
              else ret txOutputs) ;;
           latestBlock <- blockfrost_blocksLatest ;;
           let latestSlot := slot latestBlock in
           protocolParams <- blockfrost_epochsParameters (epoch latestBlock) ;;
           feeCoin <- lift (BigNum_from_str feeBuffer) ;;
           let txBody :=
             {| inputs := txInputs; outputs := txOutputs; fee := feeCoin;
                ttl := Some (latestSlot + 10000) |} in
           let txBodyHash := hash_transaction txBody in
           let spendingPrivateKey := derive (derive accountKey 0) 0 in
           let vkeyWitness :=
             make_vkey_witness txBodyHash (to_raw_key spendingPrivateKey) in
           let vkeyWitnesses := [vkeyWitness] in
           let witnesses := {| vkeys := Some vkeyWitnesses |} in
           let transaction :=
             {| body := txBody; witness_set := witnesses;
                auxiliary_data := None |} in
           let txBytes := to_bytes transaction in
           console_log SubmittingTransaction ;;
           submittedTxHash <- blockfrost_txSubmit txBytes ;;
           console_log TransactionSubmitted ;;
           console_log (TransactionHashLine submittedTxHash) ;;
           ret true
     end)
    (fun error => console_error (ErrorSendingAda error) ;; ret false).

(** The balance loop of [balanceCheckAndTransfer]; [parseFloat] reads the
    ADA numeral back as the number it denotes. *)
Fixpoint fetch_balances (wallets : list Wallet)
    (walletsWithBalance : list WalletWithBalance)
  : M (list WalletWithBalance) :=
  match wallets with
  | [] => ret walletsWithBalance
  | w :: rest =>
      b <- fetchBalance (address w) ;;
      fetch_balances rest
        (walletsWithBalance ++
           [{| wallet := w;
               balance := {| ada := ada b; lovelace := lovelace b |} |}])
  end.

(** [(a, b) => b.balance.ada - a.balance.ada] *)
Definition compareFn (a b : WalletWithBalance) : Q :=
  (ada (balance b) - ada (balance a))%Q.

(** [Array.prototype.sort] is stable; with a comparator that is a total
    preorder its result is the stable ordering, which insertion from the
    right end computes. *)
Fixpoint sort_insert (x : WalletWithBalance) (l : list WalletWithBalance)
  : list WalletWithBalance :=
  match l with
  | [] => [x]
  | y :: rest =>
      if Qle_bool (compareFn x y) 0 then x :: y :: rest
      else y :: sort_insert x rest
  end.

Definition sort (l : list WalletWithBalance) : list WalletWithBalance :=
  fold_right sort_insert [] l.

(** [x > y] on numbers. *)
Definition Qgtb (x y : Q) : bool := negb (Qle_bool x y).

Definition balanceCheckAndTransfer (wallets : list Wallet) : M bool :=
  try_catch
    (if (Z.of_nat (List.length wallets) <? 2) then
       console_log NeedAtLeastTwoWallets ;;
       ret false
     else
       walletsWithBalance <- fetch_balances wallets [] ;;
       let walletsWithBalance := sort walletsWithBalance in
       match walletsWithBalance with
       | first :: second :: _ =>
           if Qgtb (ada (balance first)) (ada (balance second)) then
             console_log
               (HasMoreAda (name (wallet first)) (ada (balance first))
                  (name (wallet second)) (ada (balance second))) ;;
             success <- sendAda (wallet first) (address (wallet second)) 1 ;;
             (if success : bool then
                console_log
                  (SuccessfullySent (name (wallet first))
                     (name (wallet second)))
              else
                console_log
                  (FailedToSend (name (wallet first))
                     (name (wallet second)))) ;;
             ret success
           else
             console_log
               (NoTransferNeeded (name (wallet first)) (ada (balance first))
                  (name (wallet second)) (ada (balance second))) ;;
             ret false
       | _ =>
           (* [walletsWithBalance[1]] is [undefined] *)
           throw (LibraryError "TypeError")
       end)
    (fun error => console_error (ErrorCheckingBalances error) ;; ret false).

(** The loop of [manageWallets] over the wallets found in the file. *)
Definition show_wallet (w : Wallet) : M unit :=
  console_log (WalletLine (or_default (name w) "Unnamed wallet")) ;;
  console_log (AddressLine (address w)) ;;
  b <- fetchBalance (address w) ;;
  console_log (BalanceLine b).

(** The loop of [manageWallets] over the wallets it has created. *)
Definition show_created (w : Wallet) : M unit :=
  console_log (CreatedNewWallet (name w)) ;;
  console_log (AddressLine (address w)) ;;
  console_log (SeedPhraseLine (mnemonic w)) ;;
  console_log NewWalletBalanceLine.

(** [{ ...w, name: n }] *)
Definition with_name (w : Wallet) (n : string) : Wallet :=
  {| name := Some n; address := address w; mnemonic := mnemonic w;
     type := type w |}.

(** [for (const wallet of existingWallets)] on a value that cannot be
    iterated. *)
Definition not_iterable : JsError :=
  LibraryError "TypeError: existingWallets is not iterable".

(** The loop that shows the wallets, on a value that can be iterated and
    is not an array of wallet objects. *)
Definition show_other (text : string) : M unit :=
  fun s =>
    let (events, error) := display_answer env (trace s) text in
    let s' :=
      {| trace := map (@proj1_sig Event display_event) events ++ trace s;
         wallet_file := wallet_file s |} in
    match error with
    | Some e => (Throw e, s')
    | None => (Return tt, s')
    end.

(** [balanceCheckAndTransfer] on such a value. *)
Definition check_other (text : string) : M bool :=
  fun s =>
    let (events, success) := check_answer env (trace s) text in
    (Return success,
     {| trace := map (@proj1_sig Event keeps_wallets) events ++ trace s;
        wallet_file := wallet_file s |}).

(** [manageWallets] with the transfer step. *)
Definition manageWallets : M unit :=
  console_log CheckingWalletFile ;;
  existingWallets <- loadWalletsFromFile ;;
  match existingWallets with
  | JsWallets existingWallets =>
      console_log FoundExistingWallets ;;
      for_of existingWallets show_wallet ;;
      balanceCheckAndTransfer existingWallets ;;
      ret tt
  | JsNotIterable =>
      console_log FoundExistingWallets ;;
      throw not_iterable
  | JsOther text =>
      console_log FoundExistingWallets ;;
      show_other text ;;
      check_other text ;;
      ret tt
  | JsFalsy =>
      console_log NoExistingWallets ;;
      w1 <- createTestnetWallet None ;;
      w2 <- createTestnetWallet None ;;
      let wallets := [with_name w1 "Wallet 1"; with_name w2 "Wallet 2"] in
      saveWalletsToFile wallets ;;
      for_of wallets show_created ;;
      console_log FundThemFirst
  end.

(** [manageWallets] of [wallet_manager.js]: no transfer step. *)
Definition wallet_manager_manageWallets : M unit :=
  console_log CheckingWalletFile ;;
  existingWallets <- loadWalletsFromFile ;;
  match existingWallets with
  | JsWallets existingWallets =>
      console_log FoundExistingWallets ;;
      for_of existingWallets show_wallet
  | JsNotIterable =>
      console_log FoundExistingWallets ;;
      throw not_iterable
  | JsOther text =>
      console_log FoundExistingWallets ;;
      show_other text
  | JsFalsy =>
      console_log NoExistingWallets ;;
      w1 <- createTestnetWallet None ;;
      w2 <- createTestnetWallet None ;;
      let wallets := [with_name w1 "Wallet 1"; with_name w2 "Wallet 2"] in
      saveWalletsToFile wallets ;;
      for_of wallets show_created
  end.

End Program.

(** ** Lovelace in the numbers of JavaScript

    The program keeps lovelace in JavaScript numbers, which are doubles:
    [parseInt] reads a quantity as the nearest double, and every sum and
    difference is rounded to the nearest double.  Up to [2 ^ 53] nothing
    is lost; above, the definitions of the section [Program], which carry
    lovelace as exact integers, and the program part.  What follows is the
    transfer with the arithmetic of the program.  A number that holds an
    integer is written as that integer; neither overflow (from [2 ^ 1024]
    on) nor [NaN] is modelled. *)

(** [n / d] rounded to the nearest integer, ties to the even one. *)
Definition round_half_even (n d : Z) : Z :=
  let q := n / d in
  let r := n mod d in
  if 2 * r <? d then q
  else if d <? 2 * r then q + 1
  else if Z.even q then q
  else q + 1.

(** The double nearest to the integer [z]: [z] itself up to [2 ^ 53] in
    absolute value, [z] rounded to 53 significant bits above. *)
Definition Number_of_Z (z : Z) : Z :=
  let a := Z.abs z in
  if a <=? 2 ^ 53 then z
  else
    let ulp := 2 ^ (Z.log2 a - 52) in
    Z.sgn z * (round_half_even a ulp * ulp).

(** [parseInt(quantity)] *)
Definition parseInt (quantity : Z) : Z := Number_of_Z quantity.

(** [a + b] and [a - b] on numbers that hold integers. *)
Definition Number_add (a b : Z) : Z := Number_of_Z (a + b).

Definition Number_sub (a b : Z) : Z := Number_of_Z (a - b).

Definition pow2 (e : Z) : Z := 2 ^ Z.max 0 e.

(** The double nearest to the rational [x] (subnormals are not
    modelled). *)
Definition Number_of_Q (x : Q) : Q :=
  let n := Z.abs (Qnum x) in
  let d := Z.pos (Qden x) in
  if n =? 0 then 0%Q
  else
    let k := Z.log2 n - Z.log2 d in
    let fl := if d * pow2 k <=? n * pow2 (- k) then k else k - 1 in
    let e := fl - 52 in
    let m := round_half_even (n * pow2 (- e)) (d * pow2 e) in
    (inject_Z (Z.sgn (Qnum x) * m * pow2 e) / inject_Z (pow2 (- e)))%Q.

(** [Math.floor(amountAda * 1000000)]: the amount is a double, the
    product is rounded to a double, and that is floored. *)
Definition to_lovelace_js (amountAda : Q) : Z :=
  Qfloor (Number_of_Q (Number_of_Q amountAda * 1000000)).

Fixpoint decimal_length (fuel : nat) (x : Z) : Z :=
  match fuel with
  | O => 0
  | S fuel' => if x <? 10 then 1 else 1 + decimal_length fuel' (x / 10)
  end.

(** The digits of [x.toString()] above [2 ^ 53], where [x] has [n]
    digits: the decimal of fewest significant digits, [k] of them or more,
    that reads back as [x]; of two such the nearer to [x], of two equally
    near the even one; the digits after are zeros. *)
Fixpoint shortest_digits (fuel : nat) (k : Z) (x n : Z) : Z :=
  match fuel with
  | O => x
  | S fuel' =>
      let p := 10 ^ (n - k) in
      let lo := (x / p) * p in
      let hi := lo + p in
      let ok_lo := (Number_of_Z lo =? x) && (10 ^ (n - 1) <=? lo) in
      let ok_hi := (Number_of_Z hi =? x) && (hi <? 10 ^ n) in
      if ok_lo && ok_hi then
        if x - lo <? hi - x then lo
        else if hi - x <? x - lo then hi
        else if Z.even (lo / p) then lo
        else hi
      else if ok_lo then lo
      else if ok_hi then hi
      else shortest_digits fuel' (k + 1) x n
  end.

(** The integer that [x.toString()] spells, for a number [x] that holds an
    integer: [x] up to [2 ^ 53]; above, the shortest digits, which may
    spell another integer (36028797018963970 for [2 ^ 55]).  There is none
    for a negative number (a sign is no digit) and from [10 ^ 21] on (the
    text has an exponent). *)
Definition Number_digits (x : Z) : option Z :=
  if x <? 0 then None
  else if 10 ^ 21 <=? x then None
  else if x <=? 2 ^ 53 then Some x
  else Some (shortest_digits 21 1 x (decimal_length 400 x)).

(** [BigNum.from_str(x.toString())] *)
Definition BigNum_from_Number (x : Z) : JsError + BigNum :=
  match Number_digits x with
  | Some n => BigNum_from_str n
  | None => inl (LibraryError "BigNum.from_str")
  end.

Section Numbers.
Context {B39 : Bip39} {CT : CardanoTypes} {CW : CardanoWasm}.
Variable env : Env.

(** The input loop of [sendAda], in numbers:
    [totalInputAmount += parseInt(lovelace)]. *)
Fixpoint select_inputs_js (utxos : list Utxo)
    (txInputs : list TransactionInput) (totalInputAmount threshold : Z)
  : JsError + (list TransactionInput * Z) :=
  match utxos with
  | [] => inr (txInputs, totalInputAmount)
  | utxo :: rest =>
      match TransactionHash_from_bytes (Buffer_from_hex (tx_hash utxo)) with
      | inl error => inl error
      | inr h =>
          let txInput :=
            {| transaction_id := h; input_index := output_index utxo |} in
          let txInputs := txInputs ++ [txInput] in
          let lovelace := lovelace_of (utxo_amount utxo) in
          let totalInputAmount :=
            Number_add totalInputAmount (parseInt lovelace) in
          if totalInputAmount >=? threshold
          then inr (txInputs, totalInputAmount)
          else select_inputs_js rest txInputs totalInputAmount threshold
      end
  end.

(** [sendAda], in numbers. *)
Definition sendAda_js (senderWallet : Wallet) (receiverAddress : string)
    (amountAda : Q) : M bool :=
  try_catch
    (console_log
       (AttemptingToSend amountAda (name senderWallet) receiverAddress) ;;
     accountKey <- getPrivateKeyFromMnemonic (mnemonic senderWallet) ;;
     let spendingKey := to_public (derive (derive accountKey 0) 0) in
     let stakeKey := to_public (derive (derive accountKey 2) 0) in
     let amountLovelace := to_lovelace_js amountAda in
     utxos <- blockfrost_addressesUtxos env (address senderWallet) ;;
     match utxos with
     | [] =>
         console_log (NoUtxosFound (address senderWallet)) ;;
         ret false
     | _ :: _ =>
         selected <-
           lift (select_inputs_js utxos [] 0
                   (Number_add amountLovelace feeBuffer)) ;;
         let txInputs := fst selected in
         let totalInputAmount := snd selected in
         if totalInputAmount <? Number_add amountLovelace feeBuffer then
           console_log
             (NotEnoughFunds
                (Number_of_Q
                   (inject_Z (Number_add amountLovelace feeBuffer) / 1000000))
                (Number_of_Q (inject_Z totalInputAmount / 1000000))) ;;
           ret false
         else
           recipientAddress <- lift (from_bech32 receiverAddress) ;;
           recipientCoin <- lift (BigNum_from_Number amountLovelace) ;;
           let recipientOutput :=
             {| output_address := recipientAddress;
                output_amount := {| coin := recipientCoin |} |} in
           let txOutputs := [recipientOutput] in
           let changeAmount :=
             Number_sub (Number_sub totalInputAmount amountLovelace)
               feeBuffer in
           txOutputs <-
             (if changeAmount >? 0 then
                senderAddress <- lift (from_bech32 (address senderWallet)) ;;
                changeCoin <- lift (BigNum_from_Number changeAmount) ;;
                let changeOutput :=
                  {| output_address := senderAddress;
                     output_amount := {| coin := changeCoin |} |} in
                ret (txOutputs ++ [changeOutput])
              else ret txOutputs) ;;
           latestBlock <- blockfrost_blocksLatest env ;;
           let latestSlot := slot latestBlock in
           protocolParams <-
             blockfrost_epochsParameters env (epoch latestBlock) ;;
           feeCoin <- lift (BigNum_from_Number feeBuffer) ;;
           let txBody :=
             {| inputs := txInputs; outputs := txOutputs; fee := feeCoin;
                ttl := Some (Number_add latestSlot 10000) |} in
           let txBodyHash := hash_transaction txBody in
           let spendingPrivateKey := derive (derive accountKey 0) 0 in
           let vkeyWitness :=
             make_vkey_witness txBodyHash (to_raw_key spendingPrivateKey) in
           let vkeyWitnesses := [vkeyWitness] in
           let witnesses := {| vkeys := Some vkeyWitnesses |} in
           let transaction :=
             {| body := txBody; witness_set := witnesses;
                auxiliary_data := None |} in
           let txBytes := to_bytes transaction in
           console_log SubmittingTransaction ;;
           submittedTxHash <- blockfrost_txSubmit env txBytes ;;
           console_log TransactionSubmitted ;;
           console_log (TransactionHashLine submittedTxHash) ;;
           ret true
     end)
    (fun error => console_error (ErrorSendingAda error) ;; ret false).

End Numbers.

(** ** A reference instance of the libraries and of the collaborators

    Small executable stand-ins, used to run the program on concrete
    inputs.  Keys, hashes and addresses are the strings that spell how they
    were obtained. *)

Module Reference.

Definition string_of_Z (z : Z) : string :=
  DecimalString.NilZero.string_of_int (Z.to_int z).

Definition hex_char (n : N) : ascii :=
  if (n <? 10)%N then ascii_of_N (48 + n) else ascii_of_N (87 + n).

Fixpoint hex_of_string (s : string) : string :=
  match s with
  | EmptyString => EmptyString
  | String c rest =>
      let n := N_of_ascii c in
      String (hex_char (n / 16))
        (String (hex_char (n mod 16)) (hex_of_string rest))
  end.

Definition string_of_bytes (b : Bytes) : string :=
  string_of_list_ascii (map ascii_of_byte b).

Fixpoint contains (c : ascii) (s : string) : bool :=
  match s with
  | EmptyString => false
  | String d rest => Ascii.eqb c d || contains c rest
  end.

(** A phrase is accepted when it is not empty and has no question mark; its
    entropy is its hexadecimal spelling. *)
Definition reference_mnemonicToEntropy (m : string) : JsError + string :=
  if (m =? EmptyString)%string || contains "?"%char m
  then inl (LibraryError "Invalid mnemonic")
  else inr (hex_of_string m).

Definition reference_mnemonicToEntropy_empty (e : string)
  : reference_mnemonicToEntropy EmptyString <> inr e :=
  fun H =>
    match H in _ = y return match y with inl _ => True | inr _ => False end with
    | eq_refl => I
    end.

Definition bip39 : Bip39 :=
  {| mnemonicToEntropy := reference_mnemonicToEntropy;
     mnemonicToEntropy_empty := reference_mnemonicToEntropy_empty |}.

Definition types : CardanoTypes :=
  {| Bip32PrivateKey := string;
     Bip32PublicKey := string;
     PrivateKey := string;
     PublicKey := string;
     Ed25519KeyHash := string;
     Address := string;
     TransactionHash := Bytes;
     Vkeywitness := Bytes * string |}.

Definition credential_text (c : @StakeCredential types) : string :=
  match c with
  | from_keyhash h => h
  end.

Definition reference_to_address (b : @BaseAddress types) : string :=
  (if base_network b =? 1 then "addr1" else "addr_test1") ++
  "[" ++ credential_text (payment_cred b) ++ "," ++
  credential_text (stake_cred b) ++ "]".

Definition reference_from_bech32 (s : string) : JsError + string :=
  if String.prefix "addr" s then inr s
  else inl (LibraryError "Invalid bech32 address").

Definition reference_from_bytes (b : Bytes) : JsError + Bytes :=
  if (List.length b =? 32)%nat then inr b
  else inl (LibraryError "Invalid hash length").

Definition reference_hash_transaction (b : @TransactionBody types) : Bytes :=
  List.concat (map (@transaction_id types) (inputs b)) ++
  map (fun o => byte_of_N (Z.to_N (coin (output_amount o) mod 256)))
      (outputs b).

Definition wasm : @CardanoWasm types :=
  @Build_CardanoWasm types
    (fun e _ => "root(" ++ string_of_bytes e ++ ")")%string
    (fun k i => k ++ "/" ++ string_of_Z i)%string
    (fun k => "pub:" ++ k)%string
    (fun k => "raw:" ++ k)%string
    (fun k => "raw:" ++ k)%string
    (fun k => "hash(" ++ k ++ ")")%string
    reference_to_address
    (fun a => a)
    reference_from_bech32
    reference_from_bytes
    reference_hash_transaction
    (fun h k => (h, k))
    (fun t => reference_hash_transaction (body t)).

Definition wallet_text (w : Wallet) : string :=
  ("{" ++ or_default (name w) EmptyString ++ ";" ++ address w ++ ";" ++
   mnemonic w ++ ";" ++ type w ++ "}")%string.

Definition reference_stringify (ws : list Wallet) : string :=
  ("[" ++ String.concat "," (map wallet_text ws) ++ "]")%string.

(** A wallet file written from these two wallets. *)
Definition stored_wallets : list Wallet :=
  [ {| name := Some "Wallet 1"; address := "addr_test1[a,b]";
       mnemonic := "abandon ability"; type := "Testnet Address" |};
    {| name := Some "Wallet 2"; address := "addr_test1[c,d]";
       mnemonic := "zone zoo"; type := "Testnet Address" |} ].

(** [JSON.parse] returns [null] on the text [null], the empty array on
    [[]], an object on [{}], an array that holds [null] on [[null]], and
    reads back the file written from the stored wallets; on every other
    text, the empty one included, it throws. *)
Definition reference_parse (s : string) : JsError + JsValue :=
  if (s =? "null")%string then inr JsFalsy
  else if (s =? "[]")%string then inr (JsWallets [])
  else if (s =? "{}")%string then inr JsNotIterable
  else if (s =? "[null]")%string then inr (JsOther "[null]")
  else if (s =? reference_stringify stored_wallets)%string
       then inr (JsWallets stored_wallets)
  else inl (LibraryError "SyntaxError: Unexpected end of JSON input").

Definition json : Json :=
  {| JSON_stringify := reference_stringify; JSON_parse := reference_parse |}.

(** Sixty-four hexadecimal digits: a transaction hash. *)
Definition hash64 (c : ascii) : string :=
  string_of_list_ascii (repeat c 64).

Definition utxo_of (c : ascii) (i q : Z) : Utxo :=
  {| tx_hash := hash64 c; output_index := i;
     utxo_amount := [{| unit_ := "lovelace"; quantity := q |}] |}.

Definition count_generated (history : list Event) : nat :=
  List.length
    (filter
       (fun ev => match ev with GenerateMnemonic _ => true | _ => false end)
       history).

(** Reading a property of [null]: what the loop that shows the wallets
    throws on the array [[null]]. *)
Definition null_element : JsError :=
  LibraryError "TypeError: Cannot read properties of null (reading 'name')".

(** A funded first wallet (three UTXOs of 700,000, 800,000 and 3,500,000
    lovelace), an address that was never used, and a network at slot
    5,000,000. *)
Definition funded : Env :=
  {| NETWORK := Some "mainnet";
     BLOCKFROST_API_KEY := Some "preprodKey";
     random_mnemonic := fun history _ =>
       if (count_generated history =? 0)%nat then "abandon ability"
       else "zone zoo";
     addresses_answer := fun _ a =>
       if (a =? "addr_test1[a,b]")%string
       then inr {| info_amount :=
                     [{| unit_ := "lovelace"; quantity := 5000000 |}] |}
       else if (a =? "addr_test1[c,d]")%string
       then inl (BlockfrostError 404 "Not Found")
       else inl (BlockfrostError 500 "Internal Server Error");
     addressesUtxos_answer := fun _ a =>
       if (a =? "addr_test1[a,b]")%string
       then inr [utxo_of "a" 0 700000; utxo_of "b" 1 800000;
                 utxo_of "c" 0 3500000]
       else inl (BlockfrostError 404 "Not Found");
     blocksLatest_answer := fun _ => inr {| slot := 5000000; epoch := 120 |};
     epochsParameters_answer := fun _ _ =>
       inr {| min_fee_a := 44; min_fee_b := 155381 |};
     txSubmit_answer := fun _ _ => inr "txhash";
     writeFileSync_answer := fun _ _ => None;
     display_answer := fun _ _ => ([], Some null_element);
     check_answer := fun _ _ => ([], false) |}.

Definition initial (file : option string) : State :=
  {| trace := []; wallet_file := file |}.

(** Three starts of a run: no wallet file, an empty wallet file, and the
    file written from the two stored wallets. *)
Definition no_file : State := initial None.

Definition empty_file : State := initial (Some EmptyString).

Definition stored_file : State :=
  initial (Some (reference_stringify stored_wallets)).

Definition small_utxos : list Utxo :=
  [utxo_of "a" 0 300000; utxo_of "b" 1 200000].

(** The same network where the first wallet holds 500,000 lovelace in two
    UTXOs. *)
Definition underfunded : Env :=
  {| NETWORK := None;
     BLOCKFROST_API_KEY := Some "preprodKey";
     random_mnemonic := random_mnemonic funded;
     addresses_answer := addresses_answer funded;
     addressesUtxos_answer := fun _ a =>
       if (a =? "addr_test1[a,b]")%string
       then inr small_utxos
       else inl (BlockfrostError 404 "Not Found");
     blocksLatest_answer := blocksLatest_answer funded;
     epochsParameters_answer := epochsParameters_answer funded;
     txSubmit_answer := txSubmit_answer funded;
     writeFileSync_answer := writeFileSync_answer funded;
     display_answer := display_answer funded;
     check_answer := check_answer funded |}.

Definition sender : Wallet :=
  {| name := Some "Wallet 1"; address := "addr_test1[a,b]";
     mnemonic := "abandon ability"; type := "Testnet Address" |}.

Definition receiver : string := "addr_test1[c,d]".

(** The bytes submitted when [sender] sends 1 ADA to [receiver] on the
    funded network. *)
Definition submitted_bytes : Bytes :=
  Eval vm_compute in
    match
      nth_error
        (trace (snd (@sendAda bip39 types wasm funded sender receiver 1
                       no_file))) 2
    with
    | Some (BlockfrostTxSubmit b) => b
    | _ => []
    end.

End Reference.

(** ** Runs: the events a computation adds, and computations that return *)

(** The events of [s'] that are not in [s], most recent first, when [s']
    was reached from [s]. *)
Definition since (s s' : State) : list Event :=
  firstn (List.length (trace s') - List.length (trace s)) (trace s').

(** [emits P m]: a run of [m] leaves the wallet file alone and adds only
    events that satisfy [P]. *)
Definition emits {A} (P : Event -> Prop) (m : M A) : Prop :=
  forall s, wallet_file (snd (m s)) = wallet_file s /\
            exists d, trace (snd (m s)) = d ++ trace s /\ Forall P d.

(** [returns m]: no run of [m] ends in an exception. *)
Definition returns {A} (m : M A) : Prop :=
  forall s, exists a, fst (m s) = Return a.

(** The lovelace carried by a list of UTXOs. *)
Definition sum_lovelace (utxos : list Utxo) : Z :=
  fold_right (fun utxo acc => lovelace_of (utxo_amount utxo) + acc) 0 utxos.

(** The coins of a list of outputs. *)
Definition sum_coins {CT : CardanoTypes} (outs : list TransactionOutput) : Z :=
  fold_right (fun o acc => coin (output_amount o) + acc) 0 outs.

(** [i] is the transaction input [sendAda] makes of the UTXO [u]. *)
Definition input_of {CT : CardanoTypes} {CW : CardanoWasm}
    (u : Utxo) (i : TransactionInput) : Prop :=
  TransactionHash_from_bytes (Buffer_from_hex (tx_hash u))
    = inr (transaction_id i) /\
  input_index i = output_index u.

(** The environment [env] with another value of [NETWORK]. *)
Definition set_NETWORK (env : Env) (n : option string) : Env :=
  {| NETWORK := n;
     BLOCKFROST_API_KEY := BLOCKFROST_API_KEY env;
     random_mnemonic := random_mnemonic env;
     addresses_answer := addresses_answer env;
     addressesUtxos_answer := addressesUtxos_answer env;
     blocksLatest_answer := blocksLatest_answer env;
     epochsParameters_answer := epochsParameters_answer env;
     txSubmit_answer := txSubmit_answer env;
     writeFileSync_answer := writeFileSync_answer env;
     display_answer := display_answer env;
     check_answer := check_answer env |}.

(** The mnemonic a call of [createTestnetWallet] works with: the argument,
    or a fresh one when the argument is [null] or empty. *)
Definition mnemonic_used (env : Env) (mnemonic : option string) (s : State)
  : string :=
  if falsy mnemonic then random_mnemonic env (trace s) 256
  else or_default mnemonic EmptyString.

(** The hash of the UTXO is one [TransactionHash.from_bytes] accepts. *)
Definition well_formed_hash {CT : CardanoTypes} {CW : CardanoWasm} (u : Utxo)
  : Prop :=
  exists h, TransactionHash_from_bytes (Buffer_from_hex (tx_hash u)) = inr h.

(** Events of a run that has not gone past input selection: no query for
    the latest block or the protocol parameters, no submission. *)
Definition before_building (ev : Event) : Prop :=
  match ev with
  | BlockfrostBlocksLatest | BlockfrostEpochsParameters _
  | BlockfrostTxSubmit _ => False
  | _ => True
  end.

(** The events of a balance lookup. *)
Definition lookup_event (ev : Event) : Prop :=
  match ev with
  | ConsoleLog SkippingBalanceLookup
  | ConsoleError (ErrorFetchingBalance _ _)
  | BlockfrostAddresses _ => True
  | _ => False
  end.

(** Every event but the line [sendAda] prints first. *)
Definition not_attempt (ev : Event) : Prop :=
  match ev with
  | ConsoleLog (AttemptingToSend _ _ _) => False
  | _ => True
  end.

(** Balances in descending order. *)
Definition descending (l : list WalletWithBalance) : Prop :=
  StronglySorted (fun a b => (ada (balance b) <= ada (balance a))%Q) l.

(** The state after a mnemonic of strength 256 has been drawn. *)
Definition drawn (s : State) : State :=
  {| trace := GenerateMnemonic 256 :: trace s; wallet_file := wallet_file s |}.

(** Every mnemonic the random source hands out is one bip39 accepts. *)
Definition valid_generator {B39 : Bip39} (env : Env) : Prop :=
  forall history,
    exists seed, mnemonicToEntropy (random_mnemonic env history 256) = inr seed.

(** The four lines [manageWallets] prints for a wallet it has created, most
    recent first. *)
Definition created_lines (w : Wallet) : list Event :=
  [ConsoleLog NewWalletBalanceLine;
   ConsoleLog (SeedPhraseLine (mnemonic w));
   ConsoleLog (AddressLine (address w));
   ConsoleLog (CreatedNewWallet (name w))].

(** ** The entry point and further vocabulary *)

(** The line [main.js] prints last: the completion line on the console, or
    the error line on the error console. *)
Inductive MainLine : Type :=
| WalletManagementCompleted
| ErrorRunningWalletManager (error : JsError).

(** [manageWallets().then(() => console.log(...)).catch(error =>
    console.error(..., error))] of [main.js], which imports the
    [manageWallets] of [wallet_manager.js]: the state the manager leaves and
    the line printed after it. *)
Definition main {B39 : Bip39} {CT : CardanoTypes} {CW : CardanoWasm}
    {J : Json} (env : Env) (s : State) : State * MainLine :=
  match wallet_manager_manageWallets env s with
  | (Return _, s') => (s', WalletManagementCompleted)
  | (Throw error, s') => (s', ErrorRunningWalletManager error)
  end.

Definition is_submission (ev : Event) : bool :=
  match ev with
  | BlockfrostTxSubmit _ => true
  | _ => false
  end.

(** Events of a run of [sendAda] that has not got to submit. *)
Definition before_submitting (ev : Event) : Prop :=
  match ev with
  | BlockfrostTxSubmit _
  | ConsoleLog SubmittingTransaction
  | ConsoleLog TransactionSubmitted
  | ConsoleLog (TransactionHashLine _) => False
  | _ => True
  end.

(** The addresses whose balance was asked for, most recent first. *)
Definition address_queries (d : list Event) : list string :=
  flat_map (fun ev => match ev with
                      | BlockfrostAddresses a => [a]
                      | _ => []
                      end) d.

(** What [sendAda] has done when it gets to submit: the UTXO query, the
    two network queries and the lines printed, most recent first. *)
Definition before_submission (w : Wallet) (recv : string) (amt : Q)
    (latestBlock : Block) : list Event :=
  [ConsoleLog SubmittingTransaction;
   BlockfrostEpochsParameters (epoch latestBlock);
   BlockfrostBlocksLatest;
   BlockfrostAddressesUtxos (address w);
   ConsoleLog (AttemptingToSend amt (name w) recv)].


(** The events a run of [sendAda] can add. *)
Definition transfer_event (ev : Event) : Prop :=
  match ev with
  | ConsoleLog (AttemptingToSend _ _ _)
  | ConsoleLog (NoUtxosFound _)
  | ConsoleLog (NotEnoughFunds _ _)
  | ConsoleLog SubmittingTransaction
  | ConsoleLog TransactionSubmitted
  | ConsoleLog (TransactionHashLine _)
  | ConsoleError (ErrorGettingPrivateKey _)
  | ConsoleError (ErrorSendingAda _)
  | BlockfrostAddressesUtxos _
  | BlockfrostBlocksLatest
  | BlockfrostEpochsParameters _
  | BlockfrostTxSubmit _ => True
  | _ => False
  end.

(** What [saveWalletsToFile] adds to the trace, most recent first, and the
    wallet file it leaves: the wallets when the write succeeds; when it
    fails, the error on the error console and what the failed write left
    of the file. *)
Definition save_lines {J : Json} (env : Env) (history : list Event)
    (wallets : list Wallet) : list Event :=
  match writeFileSync_answer env history (JSON_stringify wallets) with
  | None =>
      [ConsoleLog WalletsSaved; WriteFile (JSON_stringify wallets)]
  | Some (error, _) =>
      [ConsoleError (ErrorSavingWallets error);
       WriteFile (JSON_stringify wallets)]
  end.

Definition saved_file {J : Json} (env : Env) (history : list Event)
    (wallets : list Wallet) : option string :=
  match writeFileSync_answer env history (JSON_stringify wallets) with
  | None => Some (JSON_stringify wallets)
  | Some (_, remains) => remains
  end.

(** What [loadWalletsFromFile] makes of the wallet file: the value its text
    parses to, [null] when the file is absent or its text does not
    parse. *)
Definition file_value {J : Json} (file : option string) : JsValue :=
  match file with
  | None => JsFalsy
  | Some data =>
      match JSON_parse data with
      | inl _ => JsFalsy
      | inr v => v
      end
  end.

(** What [loadWalletsFromFile] prints: the parse error, if any. *)
Definition load_lines {J : Json} (file : option string) : list Event :=
  match file with
  | None => []
  | Some data =>
      match JSON_parse data with
      | inl e => [ConsoleError (ErrorLoadingWallets e)]
      | inr _ => []
      end
  end.

(** The state once the manager has looked for the wallet file. *)
Definition loaded {J : Json} (s : State) : State :=
  {| trace := load_lines (wallet_file s)
                ++ ConsoleLog CheckingWalletFile :: trace s;
     wallet_file := wallet_file s |}.

(** The step the manager of [part_000] has and the one of
    [wallet_manager.js] has not: the transfer after the balances of the
    wallets found, the last line after the creation of new ones. *)
Definition transfer_step {B39 : Bip39} {CT : CardanoTypes} {CW : CardanoWasm}
    (env : Env) (existingWallets : JsValue) : M unit :=
  match existingWallets with
  | JsWallets existingWallets =>
      balanceCheckAndTransfer env existingWallets ;; ret tt
  | JsNotIterable =>
      (* not reached: the loop before has thrown; [wallets.length] is
         [undefined], the loop of [balanceCheckAndTransfer] throws and its
         handler prints *)
      console_error
        (ErrorCheckingBalances
           (LibraryError "TypeError: wallets is not iterable")) ;;
      ret tt
  | JsOther text => check_other env text ;; ret tt
  | JsFalsy => console_log FundThemFirst
  end.

(** Events of a run without transfer: no UTXO, block or parameter query,
    no submission, no "attempting to send" line. *)
Definition no_transfer (ev : Event) : Prop :=
  match ev with
  | BlockfrostAddressesUtxos _ | BlockfrostBlocksLatest
  | BlockfrostEpochsParameters _ | BlockfrostTxSubmit _
  | ConsoleLog (AttemptingToSend _ _ _) => False
  | _ => True
  end.


(** ** Further scenarios on the reference instance *)

Module Scenarios.
Import Reference.

(** A random source whose phrases bip39 rejects. *)
Definition broken_generator : Env :=
  {| NETWORK := NETWORK funded;
     BLOCKFROST_API_KEY := BLOCKFROST_API_KEY funded;
     random_mnemonic := fun _ _ => "abandon ?";
     addresses_answer := addresses_answer funded;
     addressesUtxos_answer := addressesUtxos_answer funded;
     blocksLatest_answer := blocksLatest_answer funded;
     epochsParameters_answer := epochsParameters_answer funded;
     txSubmit_answer := txSubmit_answer funded;
     writeFileSync_answer := writeFileSync_answer funded;
     display_answer := display_answer funded;
     check_answer := check_answer funded |}.

(** The funded network when the protocol parameters cannot be had. *)
Definition no_parameters : Env :=
  {| NETWORK := NETWORK funded;
     BLOCKFROST_API_KEY := BLOCKFROST_API_KEY funded;
     random_mnemonic := random_mnemonic funded;
     addresses_answer := addresses_answer funded;
     addressesUtxos_answer := addressesUtxos_answer funded;
     blocksLatest_answer := blocksLatest_answer funded;
     epochsParameters_answer := fun _ _ =>
       inl (BlockfrostError 500 "Internal Server Error");
     txSubmit_answer := txSubmit_answer funded;
     writeFileSync_answer := writeFileSync_answer funded;
     display_answer := display_answer funded;
     check_answer := check_answer funded |}.

(** A hash that is not hexadecimal, on a UTXO of 800,000 lovelace. *)
Definition malformed_utxo : Utxo :=
  {| tx_hash := "not a hash"; output_index := 1;
     utxo_amount := [{| unit_ := "lovelace"; quantity := 800000 |}] |}.

(** The funded network where the second UTXO of the first wallet has that
    hash. *)
Definition malformed : Env :=
  {| NETWORK := NETWORK funded;
     BLOCKFROST_API_KEY := BLOCKFROST_API_KEY funded;
     random_mnemonic := random_mnemonic funded;
     addresses_answer := addresses_answer funded;
     addressesUtxos_answer := fun _ a =>
       if (a =? "addr_test1[a,b]")%string
       then inr [utxo_of "a" 0 700000; malformed_utxo; utxo_of "c" 0 3500000]
       else inl (BlockfrostError 404 "Not Found");
     blocksLatest_answer := blocksLatest_answer funded;
     epochsParameters_answer := epochsParameters_answer funded;
     txSubmit_answer := txSubmit_answer funded;
     writeFileSync_answer := writeFileSync_answer funded;
     display_answer := display_answer funded;
     check_answer := check_answer funded |}.

(** The first stored wallet with a phrase bip39 rejects. *)
Definition forged : Wallet :=
  {| name := Some "Wallet 1"; address := "addr_test1[a,b]";
     mnemonic := "abandon ?"; type := "Testnet Address" |}.

(** The second stored wallet, whose address was never used. *)
Definition unused : Wallet :=
  {| name := Some "Wallet 2"; address := "addr_test1[c,d]";
     mnemonic := "zone zoo"; type := "Testnet Address" |}.

(** One UTXO of 9,007,199,254,740,993 lovelace, which is [2 ^ 53 + 1]. *)
Definition whale_utxo : Utxo := utxo_of "a" 0 9007199254740993.

(** The funded network where the first wallet holds that UTXO. *)
Definition whale : Env :=
  {| NETWORK := NETWORK funded;
     BLOCKFROST_API_KEY := BLOCKFROST_API_KEY funded;
     random_mnemonic := random_mnemonic funded;
     addresses_answer := addresses_answer funded;
     addressesUtxos_answer := fun _ a =>
       if (a =? "addr_test1[a,b]")%string
       then inr [whale_utxo]
       else inl (BlockfrostError 404 "Not Found");
     blocksLatest_answer := blocksLatest_answer funded;
     epochsParameters_answer := epochsParameters_answer funded;
     txSubmit_answer := txSubmit_answer funded;
     writeFileSync_answer := writeFileSync_answer funded;
     display_answer := display_answer funded;
     check_answer := check_answer funded |}.

(** The transaction the program builds when [sender] sends 1 ADA to
    [receiver] out of that UTXO. *)
Definition whale_body : @TransactionBody types :=
  {| inputs :=
       [{| transaction_id :=
             (Buffer_from_hex (hash64 "a") : @TransactionHash types);
           input_index := 0 |}];
     outputs :=
       [{| output_address := (receiver : @Address types);
           output_amount := {| coin := 1000000 |} |};
        {| output_address := (address sender : @Address types);
           output_amount := {| coin := 9007199253540992 |} |}];
     fee := 200000;
     ttl := Some 5010000 |}.

Definition whale_transaction : @Transaction types :=
  {| body := whale_body;
     witness_set :=
       {| vkeys :=
            Some [@make_vkey_witness types wasm
                    (@hash_transaction types wasm whale_body)
                    (@to_raw_key types wasm
                       (@derive types wasm
                          (@derive types wasm
                             (@derive types wasm
                                (@derive types wasm
                                   (@derive types wasm
                                      (@from_bip39_entropy types wasm
                                         (Buffer_from_hex
                                            (hex_of_string (mnemonic sender)))
                                         [])
                                      (hardened 1852))
                                   (hardened 1815))
                                (hardened 0))
                             0)
                          0))] |};
     auxiliary_data := None |}.

(** The funded network on a disk that cannot be written: the write fails
    and leaves no file. *)
Definition read_only : Env :=
  {| NETWORK := NETWORK funded;
     BLOCKFROST_API_KEY := BLOCKFROST_API_KEY funded;
     random_mnemonic := random_mnemonic funded;
     addresses_answer := addresses_answer funded;
     addressesUtxos_answer := addressesUtxos_answer funded;
     blocksLatest_answer := blocksLatest_answer funded;
     epochsParameters_answer := epochsParameters_answer funded;
     txSubmit_answer := txSubmit_answer funded;
     writeFileSync_answer := fun _ _ =>
       Some (LibraryError "EACCES: permission denied, open 'wallets.txt'",
             None);
     display_answer := display_answer funded;
     check_answer := check_answer funded |}.

(** A wallet file that holds an object, and one that holds an array with
    [null] in it. *)
Definition object_file : State := initial (Some "{}").

Definition null_array_file : State := initial (Some "[null]").

(** A wallet file that holds the text [null]. *)
Definition null_file : State := initial (Some "null").

End Scenarios.


(** The numbers the input loop meets are integers that JavaScript numbers
    hold exactly: every quantity it reads and every running total is at
    most [2 ^ 53] in absolute value.  Nothing is asked of the UTXOs listed
    after the one at which the loop stops. *)
Fixpoint safe_lovelace (utxos : list Utxo) (totalInputAmount threshold : Z)
  : Prop :=
  match utxos with
  | [] => True
  | utxo :: rest =>
      let lovelace := lovelace_of (utxo_amount utxo) in
      Z.abs lovelace <= 2 ^ 53 /\
      Z.abs (totalInputAmount + lovelace) <= 2 ^ 53 /\
      (totalInputAmount + lovelace < threshold ->
       safe_lovelace rest (totalInputAmount + lovelace) threshold)
  end.


Lemma since_app (s s' : State) (d : list Event) :
  trace s' = d ++ trace s -> since s s' = d.
Proof.
  intros H. unfold since. rewrite H, length_app.
  replace (List.length d + List.length (trace s) - List.length (trace s))%nat
    with (List.length d + 0)%nat by lia.
  rewrite firstn_app_2. simpl. apply app_nil_r.
Qed.

Lemma since_refl (s : State) : since s s = [].
Proof. apply since_app. reflexivity. Qed.

Section Runs.
Context {A B : Type}.
Variable P : Event -> Prop.

Lemma emits_ret (a : A) : emits P (ret a).
Proof.
  intros s. split; [reflexivity|].
  exists []. split; [reflexivity | constructor].
Qed.

Lemma emits_throw (e : JsError) : emits P (@throw A e).
Proof.
  intros s. split; [reflexivity|].
  exists []. split; [reflexivity | constructor].
Qed.

Lemma emits_lift (r : JsError + A) : emits P (lift r).
Proof. destruct r; [apply emits_throw | apply emits_ret]. Qed.

Lemma emits_ask (ev : Event) (answer : list Event -> JsError + A) :
  P ev -> emits P (ask ev answer).
Proof.
  intros Hev s. unfold ask.
  destruct (answer (trace s)); simpl; (split; [reflexivity|]);
    exists [ev]; (split; [reflexivity | repeat constructor; assumption]).
Qed.

Lemma emits_bind (m : M A) (k : A -> M B) :
  emits P m -> (forall a, emits P (k a)) -> emits P (bind m k).
Proof.
  intros Hm Hk s. unfold bind.
  destruct (Hm s) as [Hf [d [Hd HP]]].
  destruct (m s) as [[a | e] s1]; simpl in *.
  - destruct (Hk a s1) as [Hf' [d' [Hd' HP']]].
    split; [congruence|].
    exists (d' ++ d). rewrite Hd', Hd, app_assoc.
    split; [reflexivity | apply Forall_app; split; assumption].
  - split; [assumption|]. exists d. split; assumption.
Qed.

Lemma emits_try_catch (m : M A) (handler : JsError -> M A) :
  emits P m -> (forall e, emits P (handler e)) -> emits P (try_catch m handler).
Proof.
  intros Hm Hh s. unfold try_catch.
  destruct (Hm s) as [Hf [d [Hd HP]]].
  destruct (m s) as [[a | e] s1]; simpl in *.
  - split; [assumption|]. exists d. split; assumption.
  - destruct (Hh e s1) as [Hf' [d' [Hd' HP']]].
    split; [congruence|].
    exists (d' ++ d). rewrite Hd', Hd, app_assoc.
    split; [reflexivity | apply Forall_app; split; assumption].
Qed.

Lemma returns_ret (a : A) : returns (ret a).
Proof. intros s. exists a. reflexivity. Qed.

Lemma returns_bind (m : M A) (k : A -> M B) :
  returns m -> (forall a, returns (k a)) -> returns (bind m k).
Proof.
  intros Hm Hk s. unfold bind.
  destruct (Hm s) as [a Ha].
  destruct (m s) as [[a' | e] s1]; simpl in Ha; [|discriminate].
  apply Hk.
Qed.

Lemma returns_try_catch (m : M A) (handler : JsError -> M A) :
  (forall e, returns (handler e)) -> returns (try_catch m handler).
Proof.
  intros Hh s. unfold try_catch.
  destruct (m s) as [[a | e] s1].
  - exists a. reflexivity.
  - apply Hh.
Qed.

End Runs.

Lemma emits_emit (P : Event -> Prop) (ev : Event) : P ev -> emits P (emit ev).
Proof.
  intros Hev s. split; [reflexivity|].
  exists [ev]. split; [reflexivity | repeat constructor; assumption].
Qed.

Lemma returns_emit (ev : Event) : returns (emit ev).
Proof. intros s. exists tt. reflexivity. Qed.

Lemma emits_for_of {A} (P : Event -> Prop) (xs : list A) (body : A -> M unit) :
  (forall x, emits P (body x)) -> emits P (for_of xs body).
Proof.
  intros Hb. induction xs as [|x rest IH]; simpl.
  - apply emits_ret.
  - apply emits_bind; [apply Hb | intros _; exact IH].
Qed.

Lemma emits_existsSync (P : Event -> Prop) : emits P existsSync.
Proof.
  intros s. unfold existsSync.
  destruct (wallet_file s) eqn:E; simpl; (split; [congruence|]);
    exists []; (split; [reflexivity | constructor]).
Qed.

Lemma emits_readFileSync (P : Event -> Prop) : emits P readFileSync.
Proof.
  intros s. unfold readFileSync.
  destruct (wallet_file s) eqn:E; simpl; (split; [congruence|]);
    exists []; (split; [reflexivity | constructor]).
Qed.

(** Splits a goal [emits P m] along the structure of [m]. *)
Ltac emits_step :=
  match goal with
  | |- emits _ (bind _ _) => apply emits_bind; [|intros ?]
  | |- emits _ (try_catch _ _) => apply emits_try_catch; [|intros ?]
  | |- emits _ (ret _) => apply emits_ret
  | |- emits _ (throw _) => apply emits_throw
  | |- emits _ (lift _) => apply emits_lift
  | |- emits _ (ask _ _) => apply emits_ask
  | |- emits _ (emit _) => apply emits_emit
  | |- emits _ (console_log _) => apply emits_emit
  | |- emits _ (console_error _) => apply emits_emit
  | |- emits _ existsSync => apply emits_existsSync
  | |- emits _ readFileSync => apply emits_readFileSync
  | |- emits _ (for_of _ _) => apply emits_for_of; intros ?
  | |- emits _ (match ?x with _ => _ end) => destruct x
  end.

(** ** Key derivation and addresses *)

Section Derivation.
Context {B39 : Bip39} {CT : CardanoTypes} {CW : CardanoWasm}.

Lemma falsy_valid_mnemonic (m seed : string) :
  mnemonicToEntropy m = inr seed -> falsy (Some m) = false.
Proof.
  intros H. simpl. destruct (String.eqb_spec m EmptyString); [|reflexivity].
  subst. exfalso. exact (mnemonicToEntropy_empty _ H).
Qed.

Lemma createTestnetWallet_given (env : Env) (s : State) (m seed : string) :
  mnemonicToEntropy m = inr seed ->
  let accountKey :=
    derive (derive (derive (from_bip39_entropy (Buffer_from_hex seed) [])
                           (hardened 1852)) (hardened 1815)) (hardened 0) in
  createTestnetWallet env (Some m) s =
  (Return
     {| name := None;
        address :=
          to_bech32
            (to_address
               (BaseAddress_new 0
                  (from_keyhash
                     (hash (public_to_raw_key
                              (to_public (derive (derive accountKey 0) 0)))))
                  (from_keyhash
                     (hash (public_to_raw_key
                              (to_public (derive (derive accountKey 2) 0)))))));
        mnemonic := m;
        type := "Testnet Address" |}, s).
Proof.
  intros Hseed. unfold createTestnetWallet, try_catch, bind.
  pose proof (falsy_valid_mnemonic m seed Hseed) as Hne.
  rewrite Hne. simpl in Hne. unfold ret. simpl. rewrite Hne, Hseed.
  reflexivity.
Qed.

Lemma getPrivateKeyFromMnemonic_valid (s : State) (m seed : string) :
  mnemonicToEntropy m = inr seed ->
  getPrivateKeyFromMnemonic m s =
  (Return
     (derive (derive (derive (from_bip39_entropy (Buffer_from_hex seed) [])
                             (hardened 1852)) (hardened 1815)) (hardened 0)), s).
Proof.
  intros Hseed. unfold getPrivateKeyFromMnemonic, try_catch, bind.
  rewrite Hseed. reflexivity.
Qed.

(** C4. Wallet derivation is deterministic.  For a valid mnemonic [m],
    [createTestnetWallet m] returns the same wallet, hence the same bech32
    address, in every environment and from every state (so also when it is
    called twice in a row); it draws no randomness and leaves the state as
    it was.  The address is the encoding of the keys at roles 0 and 2,
    index 0, under the account key m/1852'/1815'/0', which is also the key
    [getPrivateKeyFromMnemonic m] returns. *)
Theorem createTestnetWallet_deterministic
    (env1 env2 : Env) (s1 s2 : State) (m seed : string) :
  mnemonicToEntropy m = inr seed ->
  exists (w : Wallet) (accountKey : Bip32PrivateKey),
    createTestnetWallet env1 (Some m) s1 = (Return w, s1) /\
    createTestnetWallet env2 (Some m) s2 = (Return w, s2) /\
    mnemonic w = m /\
    getPrivateKeyFromMnemonic m s1 = (Return accountKey, s1) /\
    accountKey =
      derive (derive (derive (from_bip39_entropy (Buffer_from_hex seed) [])
                             (hardened 1852)) (hardened 1815)) (hardened 0) /\
    address w =
      to_bech32
        (to_address
           (BaseAddress_new (network_id NetworkInfo_testnet)
              (from_keyhash
                 (hash (public_to_raw_key
                          (to_public (derive (derive accountKey 0) 0)))))
              (from_keyhash
                 (hash (public_to_raw_key
                          (to_public (derive (derive accountKey 2) 0))))))).
Proof.
  intros Hseed.
  eexists. eexists.
  rewrite (createTestnetWallet_given env1 s1 m seed Hseed).
  rewrite (createTestnetWallet_given env2 s2 m seed Hseed).
  rewrite (getPrivateKeyFromMnemonic_valid s1 m seed Hseed).
  repeat split; reflexivity.
Qed.

Lemma createTestnetWallet_generated (env : Env) (s : State) (seed : string) :
  let m := random_mnemonic env (trace s) 256 in
  mnemonicToEntropy m = inr seed ->
  let accountKey :=
    derive (derive (derive (from_bip39_entropy (Buffer_from_hex seed) [])
                           (hardened 1852)) (hardened 1815)) (hardened 0) in
  createTestnetWallet env None s =
  (Return
     {| name := None;
        address :=
          to_bech32
            (to_address
               (BaseAddress_new 0
                  (from_keyhash
                     (hash (public_to_raw_key
                              (to_public (derive (derive accountKey 0) 0)))))
                  (from_keyhash
                     (hash (public_to_raw_key
                              (to_public (derive (derive accountKey 2) 0)))))));
        mnemonic := m;
        type := "Testnet Address" |},
   drawn s).
Proof.
  intros m Hseed. unfold createTestnetWallet, try_catch, bind. simpl.
  unfold generateMnemonic, ask. fold m. rewrite Hseed. reflexivity.
Qed.

(** C10. Whatever the value of [NETWORK], [createTestnetWallet] builds the
    address with the testnet network id.  The call does not read [NETWORK];
    it returns exactly when the mnemonic it works with is valid, and the
    wallet it returns has type ['Testnet Address'] and, as address, the
    encoding of a base address whose network id is that of
    [NetworkInfo.testnet()], which is 0. *)
Theorem createTestnetWallet_always_testnet
    (env : Env) (n : option string) (mnemonic : option string) (s : State) :
  createTestnetWallet (set_NETWORK env n) mnemonic s =
  createTestnetWallet env mnemonic s /\
  (forall seed,
     mnemonicToEntropy (mnemonic_used env mnemonic s) = inr seed ->
     exists w b,
       fst (createTestnetWallet env mnemonic s) = Return w /\
       type w = "Testnet Address" /\
       address w = to_bech32 (to_address b) /\
       base_network b = network_id NetworkInfo_testnet /\
       base_network b = 0 /\
       base_network b <> network_id NetworkInfo_mainnet) /\
  (forall e,
     mnemonicToEntropy (mnemonic_used env mnemonic s) = inl e ->
     fst (createTestnetWallet env mnemonic s) = Throw e).
Proof.
  split; [reflexivity|]. unfold mnemonic_used. split.
  - intros seed Hseed. destruct (falsy mnemonic) eqn:Hf.
    + assert (Hrun : createTestnetWallet env mnemonic s =
                     createTestnetWallet env None s).
      { unfold createTestnetWallet. rewrite Hf. reflexivity. }
      rewrite Hrun, (createTestnetWallet_generated env s seed Hseed).
      eexists. eexists. simpl.
      split; [reflexivity|]. split; [reflexivity|]. split; [reflexivity|].
      simpl. repeat split; discriminate.
    + destruct mnemonic as [m|]; [|discriminate].
      simpl in Hf, Hseed. rewrite Hf in Hseed.
      rewrite (createTestnetWallet_given env s m seed Hseed).
      eexists. eexists. simpl.
      split; [reflexivity|]. split; [reflexivity|]. split; [reflexivity|].
      simpl. repeat split; discriminate.
  - intros e He. unfold createTestnetWallet, try_catch, bind.
    destruct (falsy mnemonic) eqn:Hf.
    + unfold generateMnemonic, ask. simpl. rewrite He. reflexivity.
    + unfold ret. simpl. rewrite He. reflexivity.
Qed.

End Derivation.

(** ** Balance lookup *)

Section BalanceLookup.
Variable env : Env.

Lemma projectId_absent_iff :
  falsy (Some (projectId env)) || (projectId env =? EmptyString)%string = true
  <-> projectId env = EmptyString.
Proof.
  simpl. rewrite orb_diag. apply String.eqb_eq.
Qed.

Lemma fetchBalance_found (address : string) (s : State) (info : AddressInfo) :
  projectId env <> EmptyString ->
  addresses_answer env (trace s) address = inr info ->
  fetchBalance env address s =
  (Return {| ada := (inject_Z (lovelace_of (info_amount info)) / 1000000)%Q;
             lovelace := lovelace_of (info_amount info) |},
   {| trace := BlockfrostAddresses address :: trace s;
      wallet_file := wallet_file s |}).
Proof.
  intros Hid Hans. unfold fetchBalance, try_catch.
  destruct (falsy (Some (projectId env)) || (projectId env =? EmptyString)%string) eqn:E.
  - apply projectId_absent_iff in E. contradiction.
  - unfold bind, blockfrost_addresses, ask. rewrite Hans. reflexivity.
Qed.

Lemma fetchBalance_failed (address : string) (s : State) (e : JsError) :
  projectId env <> EmptyString ->
  addresses_answer env (trace s) address = inl e ->
  fetchBalance env address s =
  (Return zero_balance,
   {| trace :=
        if has_status_code e 404 then BlockfrostAddresses address :: trace s
        else ConsoleError (ErrorFetchingBalance address e)
               :: BlockfrostAddresses address :: trace s;
      wallet_file := wallet_file s |}).
Proof.
  intros Hid Hans. unfold fetchBalance, try_catch.
  destruct (falsy (Some (projectId env)) || (projectId env =? EmptyString)%string) eqn:E.
  - apply projectId_absent_iff in E. contradiction.
  - unfold bind, blockfrost_addresses, ask. rewrite Hans.
    destruct (has_status_code e 404); reflexivity.
Qed.

Lemma fetchBalance_returns (address : string) :
  returns (fetchBalance env address).
Proof.
  unfold fetchBalance. apply returns_try_catch. intros e.
  apply returns_bind; [apply returns_emit | intros _; apply returns_ret].
Qed.

(** C7, as the program has it.  With an API credential (the client the
    module builds when it is loaded takes none that is empty),
    [fetchBalance] never throws.  It returns the zero balance whenever the
    collaborator's call fails, with status 404 or with any other error:
    after a 404 nothing is printed; any other error is written to the
    error console and is not passed on to the caller.  When the call
    succeeds the balance carries the lovelace quantity reported (0 when
    none is). *)
Theorem fetchBalance_zero_on_any_failure (address : string) (s : State) :
  projectId env <> EmptyString ->
  (exists b, fst (fetchBalance env address s) = Return b) /\
  (forall e,
     addresses_answer env (trace s) address = inl e ->
     fst (fetchBalance env address s) = Return zero_balance /\
     (has_status_code e 404 = true ->
      since s (snd (fetchBalance env address s)) =
      [BlockfrostAddresses address]) /\
     (has_status_code e 404 = false ->
      since s (snd (fetchBalance env address s)) =
      [ConsoleError (ErrorFetchingBalance address e);
       BlockfrostAddresses address])) /\
  (forall info,
     addresses_answer env (trace s) address = inr info ->
     exists b,
       fst (fetchBalance env address s) = Return b /\
       lovelace b = lovelace_of (info_amount info) /\
       since s (snd (fetchBalance env address s)) =
       [BlockfrostAddresses address]).
Proof.
  intros Hid.
  split; [apply fetchBalance_returns|].
  split.
  - intros e Hans. rewrite (fetchBalance_failed address s e Hid Hans).
    split; [reflexivity|].
    split; intros Hcode; apply since_app; simpl; rewrite Hcode; reflexivity.
  - intros info Hans. rewrite (fetchBalance_found address s info Hid Hans).
    eexists. split; [reflexivity|]. split; [reflexivity|].
    apply since_app. reflexivity.
Qed.

End BalanceLookup.

(** ** Input selection *)

Section Selection.
Context {CT : CardanoTypes} {CW : CardanoWasm}.

Arguments sum_lovelace : simpl never.

Lemma sum_lovelace_nil : sum_lovelace [] = 0.
Proof. reflexivity. Qed.

Lemma sum_lovelace_cons (u : Utxo) (us : list Utxo) :
  sum_lovelace (u :: us) = lovelace_of (utxo_amount u) + sum_lovelace us.
Proof. reflexivity. Qed.

(** What the loop returns: the inputs of a prefix of the list, the lovelace
    of that prefix, and no shorter non-empty prefix reaches the threshold;
    the prefix is the whole list when the threshold is not reached. *)
Lemma select_inputs_prefix (utxos : list Utxo) :
  forall (acc : list TransactionInput) (total threshold : Z)
         (txInputs : list TransactionInput) (totalInputAmount : Z),
    select_inputs utxos acc total threshold
      = inr (txInputs, totalInputAmount) ->
    exists (k : nat) (selected : list TransactionInput),
      (k <= List.length utxos)%nat /\
      txInputs = acc ++ selected /\
      Forall2 input_of (firstn k utxos) selected /\
      totalInputAmount = total + sum_lovelace (firstn k utxos) /\
      (forall j, (0 < j < k)%nat ->
                 total + sum_lovelace (firstn j utxos) < threshold) /\
      (utxos <> [] -> (0 < k)%nat) /\
      (totalInputAmount < threshold -> k = List.length utxos).
Proof.
  induction utxos as [|u rest IH]; intros acc total threshold txInputs tot H.
  - simpl in H. inversion H; subst. exists 0%nat, []. simpl.
    split; [lia|]. split; [symmetry; apply app_nil_r|].
    split; [constructor|]. split; [rewrite sum_lovelace_nil; lia|].
    split; [intros j Hj; lia|]. split; [intros Hne; contradiction|].
    reflexivity.
  - simpl in H.
    destruct (TransactionHash_from_bytes (Buffer_from_hex (tx_hash u)))
      as [e | h] eqn:Hh; [discriminate|].
    destruct (total + lovelace_of (utxo_amount u) >=? threshold) eqn:Hge.
    + inversion H; subst. clear H.
      exists 1%nat, [{| transaction_id := h; input_index := output_index u |}].
      simpl. split; [lia|]. split; [reflexivity|].
      split; [constructor; [split; [exact Hh | reflexivity] | constructor]|].
      split; [rewrite sum_lovelace_cons, sum_lovelace_nil; lia|].
      split; [intros j Hj; lia|]. split; [intros _; lia|].
      intros Hlt. apply Z.geb_le in Hge. lia.
    + apply IH in H.
      destruct H as [k [sel [Hk [Hins [Hall [Htot [Hmin [_ Hlast]]]]]]]].
      exists (S k),
        ({| transaction_id := h; input_index := output_index u |} :: sel).
      simpl. split; [lia|].
      split; [rewrite Hins, <- app_assoc; reflexivity|].
      split; [constructor; [split; [exact Hh | reflexivity] | exact Hall]|].
      split; [rewrite Htot, sum_lovelace_cons; lia|].
      split.
      { intros j Hj. destruct j as [|j]; [lia|].
        simpl. rewrite sum_lovelace_cons.
        destruct j as [|j].
        - simpl. rewrite sum_lovelace_nil.
          rewrite Z.geb_leb in Hge. apply Z.leb_gt in Hge. lia.
        - assert (Hj' : (0 < S j < k)%nat) by lia.
          specialize (Hmin (S j) Hj'). lia. }
      split; [intros _; lia|].
      intros Hlt. f_equal. apply Hlast. exact Hlt.
Qed.

(** The loop runs to the end of the list when no non-empty prefix reaches
    the threshold (and every transaction hash is well formed). *)
Lemma select_inputs_exhausted (utxos : list Utxo) :
  forall (acc : list TransactionInput) (total threshold : Z),
    (forall j, (0 < j <= List.length utxos)%nat ->
               total + sum_lovelace (firstn j utxos) < threshold) ->
    (exists e, select_inputs utxos acc total threshold = inl e) \/
    (exists txInputs,
        select_inputs utxos acc total threshold =
        inr (txInputs, total + sum_lovelace utxos)).
Proof.
  induction utxos as [|u rest IH]; intros acc total threshold Hlow.
  - right. exists acc. simpl. rewrite sum_lovelace_nil. f_equal. f_equal. lia.
  - simpl.
    destruct (TransactionHash_from_bytes (Buffer_from_hex (tx_hash u)))
      as [e | h] eqn:Hh; [left; exists e; reflexivity|].
    assert (H1 : total + lovelace_of (utxo_amount u) < threshold).
    { assert (H : (0 < 1 <= List.length (u :: rest))%nat) by (simpl; lia).
      specialize (Hlow 1%nat H). simpl in Hlow.
      rewrite sum_lovelace_cons, sum_lovelace_nil in Hlow. lia. }
    destruct (total + lovelace_of (utxo_amount u) >=? threshold) eqn:Hge.
    + apply Z.geb_le in Hge. lia.
    + destruct (IH (acc ++ [{| transaction_id := h; input_index := output_index u |}])
                  (total + lovelace_of (utxo_amount u)) threshold) as [[e He] | [ins Hins]].
      * intros j Hj.
        assert (Hj' : (0 < S j <= List.length (u :: rest))%nat) by (simpl; lia).
        specialize (Hlow (S j) Hj'). simpl in Hlow.
        rewrite sum_lovelace_cons in Hlow. lia.
      * left. exists e. exact He.
      * right. exists ins. rewrite Hins, sum_lovelace_cons.
        f_equal. f_equal. lia.
Qed.

Lemma select_inputs_total (utxos : list Utxo) :
  Forall well_formed_hash utxos ->
  forall (acc : list TransactionInput) (total threshold : Z),
    exists r, select_inputs utxos acc total threshold = inr r.
Proof.
  induction 1 as [|u rest [h Hh] _ IH]; intros acc total threshold; simpl.
  - eexists. reflexivity.
  - rewrite Hh.
    destruct (total + lovelace_of (utxo_amount u) >=? threshold).
    + eexists. reflexivity.
    + apply IH.
Qed.

End Selection.

(** ** The transfer *)

(** The events that [t] has on top of [base], when [t] is [base] with
    events consed on it. *)
Ltac delta_of t base :=
  lazymatch t with
  | base => constr:(@nil Event)
  | ?e :: ?t' => let d := delta_of t' base in constr:(e :: d)
  end.

(** Computes [since s s'] in hypothesis [H] when the trace of [s'] is a
    list of events consed on the trace of [s]. *)
Ltac eval_since_in H :=
  match type of H with
  | context [since ?s ?s'] =>
      let t := eval simpl in (trace s') in
      let d := delta_of t (trace s) in
      rewrite (since_app s s' d) in H by reflexivity
  end.

Ltac eval_since :=
  match goal with
  | |- context [since ?s ?s'] =>
      let t := eval simpl in (trace s') in
      let d := delta_of t (trace s) in
      rewrite (since_app s s' d) by reflexivity
  end.

(** Closes a goal whose hypothesis [H] finds a submission among events
    that are not submissions. *)
Ltac no_submission H :=
  exfalso; eval_since_in H; simpl in H;
  repeat (destruct H as [H | H]; [discriminate H|]); exact H.

Section Transfer.
Context {B39 : Bip39} {CT : CardanoTypes} {CW : CardanoWasm}.
Variable env : Env.

Arguments sum_lovelace : simpl never.
Arguments sum_coins : simpl never.

Lemma sendAda_submit_inv (w : Wallet) (recv : string) (amt : Q) (s : State)
    (b : Bytes) :
  In (BlockfrostTxSubmit b) (since s (snd (sendAda env w recv amt s))) ->
  exists seed utxos txInputs total recipientAddress change latestBlock,
    let amountLovelace := to_lovelace amt in
    let accountKey :=
      derive (derive (derive (from_bip39_entropy (Buffer_from_hex seed) [])
                             (hardened 1852)) (hardened 1815)) (hardened 0) in
    let asked :=
      BlockfrostAddressesUtxos (address w)
        :: ConsoleLog (AttemptingToSend amt (name w) recv) :: trace s in
    let txBody :=
      {| inputs := txInputs;
         outputs :=
           {| output_address := recipientAddress;
              output_amount := {| coin := amountLovelace |} |} :: change;
         fee := feeBuffer;
         ttl := Some (slot latestBlock + 10000) |} in
    mnemonicToEntropy (mnemonic w) = inr seed /\
    addressesUtxos_answer env
      (ConsoleLog (AttemptingToSend amt (name w) recv) :: trace s) (address w)
      = inr utxos /\
    utxos <> [] /\
    select_inputs utxos [] 0 (amountLovelace + feeBuffer)
      = inr (txInputs, total) /\
    amountLovelace + feeBuffer <= total /\
    0 <= amountLovelace /\
    from_bech32 recv = inr recipientAddress /\
    ((0 < total - amountLovelace - feeBuffer /\
      exists senderAddress,
        from_bech32 (address w) = inr senderAddress /\
        change =
        [{| output_address := senderAddress;
            output_amount :=
              {| coin := total - amountLovelace - feeBuffer |} |}]) \/
     (total - amountLovelace - feeBuffer <= 0 /\ change = [])) /\
    blocksLatest_answer env asked = inr latestBlock /\
    b = to_bytes
          {| body := txBody;
             witness_set :=
               {| vkeys :=
                    Some [make_vkey_witness (hash_transaction txBody)
                            (to_raw_key (derive (derive accountKey 0) 0))] |};
             auxiliary_data := None |}.
Proof.
  unfold sendAda, try_catch, bind, console_log, console_error, emit.
  unfold getPrivateKeyFromMnemonic, try_catch, bind, console_error, emit.
  simpl.
  destruct (mnemonicToEntropy (mnemonic w)) as [e | seed] eqn:Hseed; simpl.
  { intros H. no_submission H. }
  unfold blockfrost_addressesUtxos, ask. simpl.
  destruct (addressesUtxos_answer env _ (address w)) as [e | utxos] eqn:Hutxos.
  { intros H. no_submission H. }
  destruct utxos as [|u rest] eqn:Hlist.
  { intros H. no_submission H. }
  rewrite <- Hlist in *.
  assert (Hne : utxos <> []) by (rewrite Hlist; discriminate).
  clear Hlist u rest.
  destruct (select_inputs utxos [] 0 (to_lovelace amt + feeBuffer))
    as [e | [txInputs total]] eqn:Hsel; simpl.
  { intros H. no_submission H. }
  destruct (total <? to_lovelace amt + feeBuffer) eqn:Hlow; simpl.
  { intros H. no_submission H. }
  apply Z.ltb_ge in Hlow.
  destruct (from_bech32 recv) as [e | recipientAddress] eqn:Hrecv; simpl.
  { intros H. no_submission H. }
  unfold BigNum_from_str at 1.
  destruct ((0 <=? to_lovelace amt) && (to_lovelace amt <? 2 ^ 64)) eqn:Hamt;
    simpl.
  2:{ intros H. no_submission H. }
  apply andb_prop in Hamt. destruct Hamt as [Hamt0 _]. apply Z.leb_le in Hamt0.
  destruct (total - to_lovelace amt - feeBuffer >? 0) eqn:Hchange; simpl.
  - destruct (from_bech32 (address w)) as [e | senderAddress] eqn:Hsender; simpl.
    { intros H. no_submission H. }
    unfold BigNum_from_str.
    destruct ((0 <=? total - to_lovelace amt - feeBuffer) &&
              (total - to_lovelace amt - feeBuffer <? 2 ^ 64)); simpl.
    2:{ intros H. no_submission H. }
    unfold blockfrost_blocksLatest, ask; simpl.
    destruct (blocksLatest_answer env _) as [e | latestBlock] eqn:Hblock; simpl.
    { intros H. no_submission H. }
    unfold blockfrost_epochsParameters, ask; simpl.
    destruct (epochsParameters_answer env _ _) as [e | params]; simpl.
    { intros H. no_submission H. }
    unfold blockfrost_txSubmit, ask; simpl.
    intros H.
    exists seed, utxos, txInputs, total, recipientAddress,
      [{| output_address := senderAddress;
          output_amount := {| coin := total - to_lovelace amt - feeBuffer |} |}],
      latestBlock.
    simpl.
    repeat (split; [first [assumption | reflexivity]|]).
    split.
    { left. split; [apply Z.gtb_lt in Hchange; lia|].
      exists senderAddress. split; reflexivity. }
    split; [first [assumption | reflexivity]|].
    destruct (txSubmit_answer env _ _); simpl in H; eval_since_in H;
      simpl in H;
      repeat (destruct H as [H | H]; [first [discriminate H | injection H as <-; reflexivity]|]);
      contradiction.
  - unfold blockfrost_blocksLatest, ask; simpl.
    destruct (blocksLatest_answer env _) as [e | latestBlock] eqn:Hblock; simpl.
    { intros H. no_submission H. }
    unfold blockfrost_epochsParameters, ask; simpl.
    destruct (epochsParameters_answer env _ _) as [e | params]; simpl.
    { intros H. no_submission H. }
    unfold blockfrost_txSubmit, ask; simpl.
    intros H.
    exists seed, utxos, txInputs, total, recipientAddress, [], latestBlock.
    simpl.
    repeat (split; [first [assumption | reflexivity]|]).
    split.
    { right. split; [|reflexivity].
      rewrite Z.gtb_ltb in Hchange. apply Z.ltb_ge in Hchange. lia. }
    split; [first [assumption | reflexivity]|].
    destruct (txSubmit_answer env _ _); simpl in H; eval_since_in H;
      simpl in H;
      repeat (destruct H as [H | H]; [first [discriminate H | injection H as <-; reflexivity]|]);
      contradiction.
Qed.

(** X22. [sendAda] does build and submit a transaction when the sender's
    mnemonic is valid, the selection reaches the threshold, the addresses
    decode, the amounts fit a [BigNum] and Blockfrost answers the two
    queries; it returns [true] exactly when the submission is accepted. *)
Lemma sendAda_submits (w : Wallet) (recv : string) (amt : Q) (s : State)
    (seed : string) (utxos : list Utxo) (txInputs : list TransactionInput)
    (total : Z) (recipientAddress senderAddress : Address)
    (latestBlock : Block) (params : ProtocolParams) :
  let asked :=
    BlockfrostAddressesUtxos (address w)
      :: ConsoleLog (AttemptingToSend amt (name w) recv) :: trace s in
  mnemonicToEntropy (mnemonic w) = inr seed ->
  addressesUtxos_answer env
    (ConsoleLog (AttemptingToSend amt (name w) recv) :: trace s) (address w)
    = inr utxos ->
  utxos <> [] ->
  select_inputs utxos [] 0 (to_lovelace amt + feeBuffer)
    = inr (txInputs, total) ->
  to_lovelace amt + feeBuffer <= total ->
  0 <= to_lovelace amt ->
  total < 2 ^ 64 ->
  from_bech32 recv = inr recipientAddress ->
  from_bech32 (address w) = inr senderAddress ->
  blocksLatest_answer env asked = inr latestBlock ->
  epochsParameters_answer env (BlockfrostBlocksLatest :: asked)
    (epoch latestBlock) = inr params ->
  exists b,
    In (BlockfrostTxSubmit b) (since s (snd (sendAda env w recv amt s))) /\
    (fst (sendAda env w recv amt s) = Return true <->
     exists h,
       txSubmit_answer env
         (ConsoleLog SubmittingTransaction
            :: BlockfrostEpochsParameters (epoch latestBlock)
            :: BlockfrostBlocksLatest :: asked) b = inr h).
Proof.
  intros asked Hseed Hutxos Hne Hsel Hlow Hamt Hmax Hrecv Hsender Hblock Hparams.
  subst asked.
  unfold sendAda, try_catch, bind, console_log, console_error, emit.
  unfold getPrivateKeyFromMnemonic, try_catch, bind, console_error, emit.
  simpl. rewrite Hseed. simpl.
  unfold blockfrost_addressesUtxos, ask. simpl. rewrite Hutxos.
  destruct utxos as [|u rest] eqn:Hlist; [contradiction|].
  rewrite <- Hlist in *. rewrite Hsel. simpl.
  rewrite (proj2 (Z.ltb_ge _ _) Hlow). simpl.
  rewrite Hrecv. simpl.
  unfold feeBuffer in *.
  assert (Hfit : forall z, 0 <= z -> z <= total ->
                           BigNum_from_str z = inr z).
  { intros z Hz0 Hz. unfold BigNum_from_str.
    rewrite (proj2 (Z.leb_le _ _) Hz0).
    rewrite (proj2 (Z.ltb_lt z (2 ^ 64))) by lia. reflexivity. }
  rewrite (Hfit (to_lovelace amt)) by lia. simpl.
  destruct (total - to_lovelace amt - 200000 >? 0) eqn:Hchange; simpl.
  - apply Z.gtb_lt in Hchange.
    rewrite Hsender. simpl.
    rewrite (Hfit (total - to_lovelace amt - 200000)) by lia. simpl.
    unfold blockfrost_blocksLatest, ask; simpl. rewrite Hblock. simpl.
    unfold blockfrost_epochsParameters, ask; simpl. rewrite Hparams. simpl.
    unfold blockfrost_txSubmit, ask; simpl.
    eexists. split.
    + destruct (txSubmit_answer env _ _); simpl; eval_since; simpl;
        [right; left; reflexivity | right; right; left; reflexivity].
    + destruct (txSubmit_answer env _ _) as [e | h]; simpl.
      * split; [discriminate | intros [h Hh]; discriminate Hh].
      * split; [intros _; exists h; reflexivity | reflexivity].
  - unfold blockfrost_blocksLatest, ask; simpl. rewrite Hblock. simpl.
    unfold blockfrost_epochsParameters, ask; simpl. rewrite Hparams. simpl.
    unfold blockfrost_txSubmit, ask; simpl.
    eexists. split.
    + destruct (txSubmit_answer env _ _); simpl; eval_since; simpl;
        [right; left; reflexivity | right; right; left; reflexivity].
    + destruct (txSubmit_answer env _ _) as [e | h]; simpl.
      * split; [discriminate | intros [h Hh]; discriminate Hh].
      * split; [intros _; exists h; reflexivity | reflexivity].
Qed.

Lemma sum_coins_nil : sum_coins [] = 0.
Proof. reflexivity. Qed.

Lemma sum_coins_cons (o : TransactionOutput) (os : list TransactionOutput) :
  sum_coins (o :: os) = coin (output_amount o) + sum_coins os.
Proof. reflexivity. Qed.



(** C5. Every transaction [sendAda] submits carries exactly one vkey
    witness, made from the hash of the transaction body (a function of the
    body alone) and the raw private key at role 0, index 0 under the
    sender's account key, and no auxiliary data. *)
Theorem sendAda_one_witness_over_body (w : Wallet) (recv : string) (amt : Q)
    (s : State) (b : Bytes) :
  In (BlockfrostTxSubmit b) (since s (snd (sendAda env w recv amt s))) ->
  exists (tx : Transaction) (accountKey : Bip32PrivateKey),
    b = to_bytes tx /\
    fst (getPrivateKeyFromMnemonic (mnemonic w) s) = Return accountKey /\
    vkeys (witness_set tx) =
      Some [make_vkey_witness (hash_transaction (body tx))
              (to_raw_key (derive (derive accountKey 0) 0))] /\
    auxiliary_data tx = None.
Proof.
  intros H. apply sendAda_submit_inv in H.
  destruct H as [seed [utxos [txInputs [total [recipientAddress [change
    [latestBlock H]]]]]]].
  simpl in H.
  destruct H as [Hseed [_ [_ [_ [_ [_ [_ [_ [_ Hb]]]]]]]]].
  eexists. eexists. split; [exact Hb|].
  rewrite (getPrivateKeyFromMnemonic_valid s _ seed Hseed). simpl.
  split; [reflexivity|]. split; reflexivity.
Qed.

(** C6. The upper validity slot of every transaction [sendAda] submits is
    the slot of the latest block, as Blockfrost reported it after the UTXO
    query, plus 10,000. *)
Theorem sendAda_ttl_is_slot_plus_10000 (w : Wallet) (recv : string) (amt : Q)
    (s : State) (b : Bytes) :
  In (BlockfrostTxSubmit b) (since s (snd (sendAda env w recv amt s))) ->
  exists (tx : Transaction) (latestBlock : Block),
    b = to_bytes tx /\
    blocksLatest_answer env
      (BlockfrostAddressesUtxos (address w)
         :: ConsoleLog (AttemptingToSend amt (name w) recv) :: trace s)
      = inr latestBlock /\
    ttl (body tx) = Some (slot latestBlock + 10000).
Proof.
  intros H. apply sendAda_submit_inv in H.
  destruct H as [seed [utxos [txInputs [total [recipientAddress [change
    [latestBlock H]]]]]]].
  simpl in H.
  destruct H as [_ [_ [_ [_ [_ [_ [_ [_ [Hblock Hb]]]]]]]]].
  eexists. exists latestBlock. split; [exact Hb|].
  split; [exact Hblock | reflexivity].
Qed.

Lemma sendAda_returns (w : Wallet) (recv : string) (amt : Q) :
  returns (sendAda env w recv amt).
Proof.
  unfold sendAda. apply returns_try_catch. intros e.
  apply returns_bind; [apply returns_emit | intros _; apply returns_ret].
Qed.

Lemma getPrivateKeyFromMnemonic_emits (P : Event -> Prop) (m : string) :
  (forall msg, P (ConsoleError msg)) ->
  emits P (getPrivateKeyFromMnemonic m).
Proof.
  intros HP. unfold getPrivateKeyFromMnemonic.
  repeat first [emits_step | apply HP].
Qed.

(** [sendAda] prints and calls Blockfrost; it draws no mnemonic and does
    not touch the wallet file. *)
Lemma sendAda_keeps_wallets (w : Wallet) (recv : string) (amt : Q) :
  emits keeps_wallets (sendAda env w recv amt).
Proof.
  unfold sendAda.
  apply emits_try_catch;
    [|intros e; repeat first [emits_step | exact I]].
  apply emits_bind; [apply emits_emit; exact I | intros _].
  apply emits_bind;
    [apply getPrivateKeyFromMnemonic_emits; intros msg; exact I
    | intros accountKey].
  unfold blockfrost_addressesUtxos, blockfrost_blocksLatest,
    blockfrost_epochsParameters, blockfrost_txSubmit.
  repeat first [emits_step | exact I].
Qed.

(** C3. When the UTXOs Blockfrost lists are used up without the running
    total reaching the amount plus the fee buffer, [sendAda] returns
    [false] and goes no further than the selection: it asks neither for
    the latest block nor for the protocol parameters, so it builds no
    transaction body, signs nothing and submits nothing, and the wallet
    file is as before.  With a valid sender mnemonic and well-formed
    transaction hashes, all it does after the UTXO query is print the
    "not enough funds" line with the amount required and the amount
    available ("no UTXOs found" when the list is empty). *)
Theorem sendAda_insufficient_funds (w : Wallet) (recv : string) (amt : Q)
    (s : State) (utxos : list Utxo) :
  addressesUtxos_answer env
    (ConsoleLog (AttemptingToSend amt (name w) recv) :: trace s) (address w)
    = inr utxos ->
  (forall j, (0 < j <= List.length utxos)%nat ->
             sum_lovelace (firstn j utxos) < to_lovelace amt + feeBuffer) ->
  fst (sendAda env w recv amt s) = Return false /\
  wallet_file (snd (sendAda env w recv amt s)) = wallet_file s /\
  Forall before_building (since s (snd (sendAda env w recv amt s))) /\
  (forall seed,
     mnemonicToEntropy (mnemonic w) = inr seed ->
     Forall well_formed_hash utxos ->
     since s (snd (sendAda env w recv amt s)) =
     [ConsoleLog
        (match utxos with
         | [] => NoUtxosFound (address w)
         | _ :: _ =>
             NotEnoughFunds
               (inject_Z (to_lovelace amt + feeBuffer) / 1000000)%Q
               (inject_Z (sum_lovelace utxos) / 1000000)%Q
         end);
      BlockfrostAddressesUtxos (address w);
      ConsoleLog (AttemptingToSend amt (name w) recv)]).
Proof.
  intros Hutxos Hlow.
  unfold sendAda, try_catch, bind, console_log, console_error, emit.
  unfold getPrivateKeyFromMnemonic, try_catch, bind, console_error, emit.
  simpl.
  destruct (mnemonicToEntropy (mnemonic w)) as [e | seed] eqn:Hseed; simpl.
  { split; [reflexivity|]. split; [reflexivity|].
    split; [|intros seed Hs; discriminate].
    eval_since. repeat constructor. }
  unfold blockfrost_addressesUtxos, ask. simpl. rewrite Hutxos.
  destruct utxos as [|u rest] eqn:Hlist.
  { simpl. split; [reflexivity|]. split; [reflexivity|].
    split; [eval_since; repeat constructor|].
    intros seed' _ _. eval_since. reflexivity. }
  rewrite <- Hlist in *.
  destruct (select_inputs_exhausted utxos [] 0 (to_lovelace amt + feeBuffer))
    as [[e He] | [txInputs Hsel]].
  { intros j Hj. specialize (Hlow j Hj). lia. }
  - rewrite He. simpl. split; [reflexivity|]. split; [reflexivity|].
    split; [eval_since; repeat constructor|].
    intros seed' _ Hwf.
    destruct (select_inputs_total utxos Hwf [] 0 (to_lovelace amt + feeBuffer))
      as [r Hr].
    congruence.
  - rewrite Hsel. simpl.
    assert (Hall : sum_lovelace utxos < to_lovelace amt + feeBuffer).
    { assert (Hj : (0 < List.length utxos <= List.length utxos)%nat)
        by (rewrite Hlist; simpl; lia).
      specialize (Hlow _ Hj). rewrite firstn_all in Hlow. exact Hlow. }
    rewrite (proj2 (Z.ltb_lt _ _) Hall). simpl.
    split; [reflexivity|]. split; [reflexivity|].
    split; [eval_since; repeat constructor|].
    intros seed' _ _. eval_since. simpl.
    destruct utxos; [discriminate Hlist | reflexivity].
Qed.

End Transfer.

(** ** Balance check and transfer *)

Section BalanceCheck.
Context {B39 : Bip39} {CT : CardanoTypes} {CW : CardanoWasm}.
Variable env : Env.

Lemma emits_weaken {A} (P Q : Event -> Prop) (m : M A) :
  (forall ev, P ev -> Q ev) -> emits P m -> emits Q m.
Proof.
  intros HPQ Hm s. destruct (Hm s) as [Hf [d [Hd HP]]].
  split; [exact Hf|]. exists d. split; [exact Hd|].
  eapply Forall_impl; [exact HPQ | exact HP].
Qed.

Lemma fetchBalance_emits (a : string) : emits lookup_event (fetchBalance env a).
Proof.
  unfold fetchBalance, blockfrost_addresses.
  repeat first [emits_step | exact I].
Qed.

(** The balance loop returns one entry per wallet, in the order of the
    wallets, and only looks balances up. *)
Lemma fetch_balances_spec (wallets : list Wallet) :
  forall (acc : list WalletWithBalance) (s : State),
  exists (fetched : list WalletWithBalance) (s1 : State) (d : list Event),
    fetch_balances env wallets acc s = (Return (acc ++ fetched), s1) /\
    map wallet fetched = wallets /\
    wallet_file s1 = wallet_file s /\
    trace s1 = d ++ trace s /\
    Forall lookup_event d.
Proof.
  induction wallets as [|w rest IH]; intros acc s; simpl.
  - exists [], s, []. rewrite app_nil_r.
    repeat split; constructor.
  - unfold bind.
    destruct (fetchBalance_returns env (address w) s) as [b Hb].
    destruct (fetchBalance_emits (address w) s) as [Hf [d [Hd HP]]].
    destruct (fetchBalance env (address w) s) as [o s0]. simpl in *. subst o.
    destruct (IH (acc ++ [{| wallet := w;
                             balance := {| ada := ada b; lovelace := lovelace b |} |}])
                 s0) as [fetched [s1 [d' [Hrun [Hmap [Hf' [Hd' HP']]]]]]].
    exists ({| wallet := w;
               balance := {| ada := ada b; lovelace := lovelace b |} |} :: fetched),
      s1, (d' ++ d).
    rewrite Hrun, <- app_assoc. simpl.
    split; [reflexivity|]. split; [f_equal; exact Hmap|].
    split; [congruence|].
    split; [rewrite Hd', Hd, app_assoc; reflexivity|].
    apply Forall_app. split; assumption.
Qed.

Lemma compareFn_le (x y : WalletWithBalance) :
  Qle_bool (compareFn x y) 0 = true <->
  (ada (balance y) <= ada (balance x))%Q.
Proof.
  rewrite Qle_bool_iff. unfold compareFn. split; intros H; lra.
Qed.

Lemma Qgtb_lt (x y : Q) : Qgtb x y = true <-> (y < x)%Q.
Proof.
  unfold Qgtb. rewrite negb_true_iff.
  destruct (Qle_bool x y) eqn:E.
  - apply Qle_bool_iff in E. split; [discriminate | intros H; lra].
  - split; [intros _ | reflexivity].
    apply Qnot_le_lt. intros H. apply Qle_bool_iff in H. congruence.
Qed.

Lemma sort_insert_perm (x : WalletWithBalance) (l : list WalletWithBalance) :
  Permutation (x :: l) (sort_insert x l).
Proof.
  induction l as [|y rest IH]; simpl.
  - apply Permutation_refl.
  - destruct (Qle_bool (compareFn x y) 0).
    + apply Permutation_refl.
    + apply perm_trans with (y :: x :: rest).
      * apply perm_swap.
      * apply perm_skip. exact IH.
Qed.

Lemma sort_perm (l : list WalletWithBalance) : Permutation l (sort l).
Proof.
  induction l as [|x rest IH]; simpl.
  - apply perm_nil.
  - apply perm_trans with (x :: sort rest).
    + apply perm_skip. exact IH.
    + apply sort_insert_perm.
Qed.

Lemma sort_insert_descending (x : WalletWithBalance)
    (l : list WalletWithBalance) :
  descending l -> descending (sort_insert x l).
Proof.
  unfold descending. induction 1 as [|y rest Hrest IH Hy]; simpl.
  - constructor; constructor.
  - destruct (Qle_bool (compareFn x y) 0) eqn:E.
    + apply compareFn_le in E. constructor.
      * constructor; assumption.
      * constructor; [exact E|].
        eapply Forall_impl; [|exact Hy]. simpl. intros z Hz. lra.
    + assert (Hxy : (ada (balance x) <= ada (balance y))%Q).
      { apply Qlt_le_weak. apply Qnot_le_lt. intros H.
        apply compareFn_le in H. congruence. }
      constructor; [exact IH|].
      eapply Permutation_Forall; [apply sort_insert_perm|].
      constructor; assumption.
Qed.

Lemma sort_descending (l : list WalletWithBalance) : descending (sort l).
Proof.
  induction l as [|x rest IH]; simpl.
  - constructor.
  - apply sort_insert_descending. exact IH.
Qed.

Lemma try_catch_emit_bind {A} (ev : Event) (k : unit -> M A)
    (h : JsError -> M A) (s : State) :
  try_catch (bind (emit ev) k) h s =
  try_catch (k tt) h {| trace := ev :: trace s; wallet_file := wallet_file s |}.
Proof. reflexivity. Qed.

(** The first thing [sendAda] does is print the "attempting to send" line,
    and it prints it once. *)
Lemma sendAda_attempt_first (w : Wallet) (recv : string) (amt : Q) (s : State) :
  exists d,
    trace (snd (sendAda env w recv amt s)) =
    d ++ ConsoleLog (AttemptingToSend amt (name w) recv) :: trace s /\
    Forall not_attempt d.
Proof.
  unfold sendAda, console_log at 1. rewrite try_catch_emit_bind.
  match goal with
  | |- context [try_catch ?m ?h ?s0] =>
      assert (H : emits not_attempt (try_catch m h))
  end.
  { apply emits_try_catch;
      [|intros e; repeat first [emits_step | exact I]].
    apply emits_bind;
      [apply getPrivateKeyFromMnemonic_emits; intros msg; exact I
      | intros accountKey].
    unfold blockfrost_addressesUtxos, blockfrost_blocksLatest,
      blockfrost_epochsParameters, blockfrost_txSubmit.
    repeat first [emits_step | exact I]. }
  match goal with
  | |- context [try_catch ?m ?h ?s0] => destruct (H s0) as [_ [d [Hd HP]]]
  end.
  exists d. split; [exact Hd | exact HP].
Qed.

Lemma lookup_not_attempt (ev : Event) : lookup_event ev -> not_attempt ev.
Proof. destruct ev as [[]| | | | | | | |]; simpl; tauto. Qed.

Lemma In_not_attempt (d : list Event) (a : Q) (n : option string) (r : string) :
  Forall not_attempt d -> ~ In (ConsoleLog (AttemptingToSend a n r)) d.
Proof.
  intros H Hin. rewrite Forall_forall in H. exact (H _ Hin).
Qed.

Lemma descending_head (x : WalletWithBalance) (l : list WalletWithBalance) :
  descending (x :: l) ->
  forall y, In y (x :: l) -> (ada (balance y) <= ada (balance x))%Q.
Proof.
  intros H y [<- | Hin].
  - apply Qle_refl.
  - inversion H as [|? ? _ Hall]; subst.
    rewrite Forall_forall in Hall. exact (Hall y Hin).
Qed.

(** C8. With at least two wallets, [balanceCheckAndTransfer] fetches one
    balance per wallet and orders the wallets by descending balance: the
    first has the highest balance, the second the highest among the others.
    If the first balance is strictly above the second, it calls [sendAda]
    once, from the first wallet to the address of the second, for 1 ADA,
    which is 1,000,000 lovelace, and returns what [sendAda] returns.
    Otherwise (equal balances included) it returns [false] and [sendAda] is
    not called.  The "attempting to send" line, which [sendAda] prints
    first, appears exactly in the first case, with that amount, sender and
    receiver. *)
Theorem balanceCheckAndTransfer_sends_one_ada_down
    (wallets : list Wallet) (s : State) :
  (2 <= List.length wallets)%nat ->
  exists (fetched : list WalletWithBalance) (s1 : State)
         (first second : WalletWithBalance) (rest : list WalletWithBalance),
    fetch_balances env wallets [] s = (Return fetched, s1) /\
    map wallet fetched = wallets /\
    sort fetched = first :: second :: rest /\
    Permutation fetched (first :: second :: rest) /\
    (forall x, In x fetched ->
               (ada (balance x) <= ada (balance first))%Q) /\
    (forall x, In x (second :: rest) ->
               (ada (balance x) <= ada (balance second))%Q) /\
    to_lovelace 1 = 1000000 /\
    ((ada (balance second) < ada (balance first))%Q ->
     exists (success : bool) (s3 : State),
       sendAda env (wallet first) (address (wallet second)) 1
         {| trace :=
              ConsoleLog
                (HasMoreAda (name (wallet first)) (ada (balance first))
                   (name (wallet second)) (ada (balance second)))
                :: trace s1;
            wallet_file := wallet_file s1 |}
       = (Return success, s3) /\
       balanceCheckAndTransfer env wallets s =
       (Return success,
        {| trace :=
             ConsoleLog
               (if success
                then SuccessfullySent (name (wallet first))
                       (name (wallet second))
                else FailedToSend (name (wallet first))
                       (name (wallet second)))
               :: trace s3;
           wallet_file := wallet_file s3 |})) /\
    (~ (ada (balance second) < ada (balance first))%Q ->
     balanceCheckAndTransfer env wallets s =
     (Return false,
      {| trace :=
           ConsoleLog
             (NoTransferNeeded (name (wallet first)) (ada (balance first))
                (name (wallet second)) (ada (balance second)))
             :: trace s1;
         wallet_file := wallet_file s1 |})) /\
    (forall (a : Q) (n : option string) (r : string),
       In (ConsoleLog (AttemptingToSend a n r))
          (since s (snd (balanceCheckAndTransfer env wallets s))) <->
       (ada (balance second) < ada (balance first))%Q /\
       a = 1%Q /\ n = name (wallet first) /\ r = address (wallet second)).
Proof.
  intros Hlen.
  destruct (fetch_balances_spec wallets [] s)
    as [fetched [s1 [d [Hrun [Hmap [Hfile [Hd HP]]]]]]].
  simpl in Hrun.
  assert (Hflen : List.length (sort fetched) = List.length wallets).
  { rewrite <- (Permutation_length (sort_perm fetched)), <- Hmap.
    symmetry. apply length_map. }
  destruct (sort fetched) as [|first [|second rest]] eqn:Hsort;
    simpl in Hflen; try lia.
  pose proof (sort_perm fetched) as Hperm. rewrite Hsort in Hperm.
  pose proof (sort_descending fetched) as Hdesc. rewrite Hsort in Hdesc.
  exists fetched, s1, first, second, rest.
  split; [exact Hrun|]. split; [exact Hmap|]. split; [exact Hsort|].
  split; [exact Hperm|].
  split.
  { intros x Hx. apply (descending_head first (second :: rest) Hdesc).
    eapply Permutation_in; [exact Hperm | exact Hx]. }
  split.
  { apply descending_head. inversion Hdesc; assumption. }
  split; [reflexivity|].
  assert (Hbody : balanceCheckAndTransfer env wallets s =
    try_catch
      (if Qgtb (ada (balance first)) (ada (balance second)) then
         bind (console_log
                 (HasMoreAda (name (wallet first)) (ada (balance first))
                    (name (wallet second)) (ada (balance second))))
           (fun _ =>
              bind (sendAda env (wallet first) (address (wallet second)) 1)
                (fun success =>
                   bind (if success : bool then
                           console_log
                             (SuccessfullySent (name (wallet first))
                                (name (wallet second)))
                         else
                           console_log
                             (FailedToSend (name (wallet first))
                                (name (wallet second))))
                     (fun _ => ret success)))
       else
         bind (console_log
                 (NoTransferNeeded (name (wallet first)) (ada (balance first))
                    (name (wallet second)) (ada (balance second))))
           (fun _ => ret false))
      (fun error => bind (console_error (ErrorCheckingBalances error))
                      (fun _ => ret false))
      s1).
  { unfold balanceCheckAndTransfer.
    destruct (Z.of_nat (List.length wallets) <? 2) eqn:E;
      [apply Z.ltb_lt in E; lia|].
    unfold try_catch at 1, bind at 1. rewrite Hrun, Hsort.
    reflexivity. }
  destruct (Qgtb (ada (balance first)) (ada (balance second))) eqn:Hgt.
  - apply Qgtb_lt in Hgt.
    unfold try_catch, bind at 1, console_log at 1, emit in Hbody.
    destruct (sendAda_returns env (wallet first) (address (wallet second)) 1
                {| trace :=
                     ConsoleLog
                       (HasMoreAda (name (wallet first)) (ada (balance first))
                          (name (wallet second)) (ada (balance second)))
                       :: trace s1;
                   wallet_file := wallet_file s1 |}) as [success Hsuccess].
    destruct (sendAda_attempt_first (wallet first) (address (wallet second)) 1
                {| trace :=
                     ConsoleLog
                       (HasMoreAda (name (wallet first)) (ada (balance first))
                          (name (wallet second)) (ada (balance second)))
                       :: trace s1;
                   wallet_file := wallet_file s1 |}) as [d3 [Hd3 HP3]].
    unfold bind at 1 in Hbody.
    destruct (sendAda env (wallet first) (address (wallet second)) 1 _)
      as [o s3] eqn:Hsend.
    simpl in Hsuccess, Hd3. subst o.
    assert (Hfinal : balanceCheckAndTransfer env wallets s =
      (Return success,
       {| trace :=
            ConsoleLog
              (if success
               then SuccessfullySent (name (wallet first)) (name (wallet second))
               else FailedToSend (name (wallet first)) (name (wallet second)))
              :: trace s3;
          wallet_file := wallet_file s3 |})).
    { rewrite Hbody. destruct success; reflexivity. }
    split.
    { intros _. exists success, s3. split; [reflexivity | exact Hfinal]. }
    split; [intros Hnot; contradiction|].
    intros a n r. rewrite Hfinal. simpl.
    rewrite (since_app s _
               ((ConsoleLog
                   (if success
                    then SuccessfullySent (name (wallet first)) (name (wallet second))
                    else FailedToSend (name (wallet first)) (name (wallet second)))
                   :: d3) ++
                ConsoleLog
                  (AttemptingToSend 1 (name (wallet first))
                     (address (wallet second)))
                :: ConsoleLog
                     (HasMoreAda (name (wallet first)) (ada (balance first))
                        (name (wallet second)) (ada (balance second)))
                :: d)).
    2:{ simpl. rewrite Hd3. simpl. rewrite Hd.
        rewrite <- !app_assoc. reflexivity. }
    rewrite in_app_iff. simpl. split.
    + intros [[Hin | Hin] | [Hin | [Hin | Hin]]].
      * destruct success; discriminate Hin.
      * exfalso. exact (In_not_attempt d3 a n r HP3 Hin).
      * injection Hin as <- <- <-. repeat split; [exact Hgt].
      * discriminate Hin.
      * exfalso. apply (In_not_attempt d a n r); [|exact Hin].
        eapply Forall_impl; [exact lookup_not_attempt | exact HP].
    + intros [_ [-> [-> ->]]]. right. left. reflexivity.
  - assert (Hnot : ~ (ada (balance second) < ada (balance first))%Q).
    { intros H. apply Qgtb_lt in H. congruence. }
    split; [intros H; contradiction|].
    split; [intros _; rewrite Hbody; reflexivity|].
    intros a n r. rewrite Hbody. simpl.
    rewrite (since_app s _
               (ConsoleLog
                  (NoTransferNeeded (name (wallet first)) (ada (balance first))
                     (name (wallet second)) (ada (balance second))) :: d)).
    2:{ simpl. rewrite Hd. reflexivity. }
    simpl. split.
    + intros [Hin | Hin]; [discriminate Hin|].
      exfalso. apply (In_not_attempt d a n r); [|exact Hin].
      eapply Forall_impl; [exact lookup_not_attempt | exact HP].
    + intros [H _]. contradiction.
Qed.

End BalanceCheck.

(** ** The wallet file *)

Section WalletFile.
Context {B39 : Bip39} {CT : CardanoTypes} {CW : CardanoWasm} {J : Json}.
Variable env : Env.

Lemma loadWalletsFromFile_absent (s : State) :
  wallet_file s = None -> loadWalletsFromFile s = (Return JsFalsy, s).
Proof.
  intros H. unfold loadWalletsFromFile, try_catch, bind, existsSync.
  rewrite H. reflexivity.
Qed.

Lemma loadWalletsFromFile_parsed (s : State) (data : string) (v : JsValue) :
  wallet_file s = Some data -> JSON_parse data = inr v ->
  loadWalletsFromFile s = (Return v, s).
Proof.
  intros H Hp.
  unfold loadWalletsFromFile, try_catch, bind, existsSync, readFileSync.
  rewrite !H. simpl. rewrite Hp. simpl. rewrite ?H. reflexivity.
Qed.

Lemma loadWalletsFromFile_unreadable (s : State) (data : string) (e : JsError) :
  wallet_file s = Some data -> JSON_parse data = inl e ->
  loadWalletsFromFile s =
  (Return JsFalsy,
   {| trace := ConsoleError (ErrorLoadingWallets e) :: trace s;
      wallet_file := wallet_file s |}).
Proof.
  intros H Hp.
  unfold loadWalletsFromFile, try_catch, bind, existsSync, readFileSync.
  rewrite !H. simpl. rewrite Hp. simpl. rewrite ?H. reflexivity.
Qed.

Lemma walletsData_same (wallets : list Wallet) :
  map (fun w => {| name := name w; address := address w;
                   mnemonic := mnemonic w; type := type w |}) wallets
  = wallets.
Proof.
  induction wallets as [|[n a m t] rest IH]; simpl; [reflexivity|].
  rewrite IH. reflexivity.
Qed.

Lemma saveWalletsToFile_run (wallets : list Wallet) (s : State) :
  saveWalletsToFile env wallets s =
  (Return tt,
   {| trace := save_lines env (trace s) wallets ++ trace s;
      wallet_file := saved_file env (trace s) wallets |}).
Proof.
  unfold saveWalletsToFile, save_lines, saved_file.
  rewrite walletsData_same.
  unfold try_catch, bind, writeFileSync, console_log, console_error, emit.
  destruct (writeFileSync_answer env (trace s) (JSON_stringify wallets))
    as [[error remains]|]; reflexivity.
Qed.

Lemma fetch_balances_keeps_wallets (wallets : list Wallet) :
  forall acc, emits keeps_wallets (fetch_balances env wallets acc).
Proof.
  induction wallets as [|w rest IH]; intros acc; simpl.
  - apply emits_ret.
  - apply emits_bind; [|intros b; apply IH].
    apply (emits_weaken lookup_event); [|apply fetchBalance_emits].
    intros [[]| | | | | | | |]; simpl; tauto.
Qed.

Lemma balanceCheckAndTransfer_keeps_wallets (wallets : list Wallet) :
  emits keeps_wallets (balanceCheckAndTransfer env wallets).
Proof.
  unfold balanceCheckAndTransfer.
  repeat first
    [ apply fetch_balances_keeps_wallets
    | apply sendAda_keeps_wallets
    | emits_step
    | exact I ].
Qed.

End WalletFile.

(** ** More on the transfer: outcomes and failures *)

(** Closes the case of a run that fails before any submission. *)
Ltac fails_before_submission :=
  right; right; split; [reflexivity | eval_since; repeat constructor].

(** Closes the case of a run that gets to submit, accepted or refused. *)
Ltac ends_with_submission latestBlock :=
  let e := fresh "e" in
  let h := fresh "h" in
  let Hans := fresh "Hans" in
  destruct (txSubmit_answer _ _ _) as [e | h] eqn:Hans; simpl;
  [ right; left; eexists; exists e, latestBlock;
    split; [reflexivity|]; split; [eval_since; reflexivity | exact Hans]
  | left; eexists; exists h, latestBlock;
    split; [reflexivity|]; split; [eval_since; reflexivity | exact Hans] ].

Section TransferOutcomes.
Context {B39 : Bip39} {CT : CardanoTypes} {CW : CardanoWasm}.
Variable env : Env.

(** The three ways a call of [sendAda] ends: an accepted submission, a
    refused submission, or a failure before anything is submitted. *)
Lemma sendAda_outcome (w : Wallet) (recv : string) (amt : Q) (s : State) :
  (exists b h latestBlock,
      fst (sendAda env w recv amt s) = Return true /\
      since s (snd (sendAda env w recv amt s)) =
      ConsoleLog (TransactionHashLine h) :: ConsoleLog TransactionSubmitted
        :: BlockfrostTxSubmit b :: before_submission w recv amt latestBlock /\
      txSubmit_answer env (before_submission w recv amt latestBlock ++ trace s) b
        = inr h) \/
  (exists b e latestBlock,
      fst (sendAda env w recv amt s) = Return false /\
      since s (snd (sendAda env w recv amt s)) =
      ConsoleError (ErrorSendingAda e)
        :: BlockfrostTxSubmit b :: before_submission w recv amt latestBlock /\
      txSubmit_answer env (before_submission w recv amt latestBlock ++ trace s) b
        = inl e) \/
  (fst (sendAda env w recv amt s) = Return false /\
   Forall before_submitting (since s (snd (sendAda env w recv amt s)))).
Proof.
  remember (sendAda env w recv amt s) as r eqn:Hr. revert Hr.
  unfold sendAda, try_catch, bind, console_log, console_error, emit.
  unfold getPrivateKeyFromMnemonic, try_catch, bind, console_error, emit.
  simpl.
  destruct (mnemonicToEntropy (mnemonic w)) as [e | seed]; simpl.
  { intros ->. fails_before_submission. }
  unfold blockfrost_addressesUtxos, ask. simpl.
  destruct (addressesUtxos_answer env _ (address w)) as [e | utxos].
  { intros ->. fails_before_submission. }
  destruct utxos as [|u rest] eqn:Hlist.
  { intros ->. fails_before_submission. }
  rewrite <- Hlist. clear Hlist u rest.
  destruct (select_inputs utxos [] 0 (to_lovelace amt + feeBuffer))
    as [e | [txInputs total]]; simpl.
  { intros ->. fails_before_submission. }
  destruct (total <? to_lovelace amt + feeBuffer); simpl.
  { intros ->. fails_before_submission. }
  destruct (from_bech32 recv) as [e | recipientAddress]; simpl.
  { intros ->. fails_before_submission. }
  unfold BigNum_from_str at 1.
  destruct ((0 <=? to_lovelace amt) && (to_lovelace amt <? 2 ^ 64)); simpl.
  2:{ intros ->. fails_before_submission. }
  destruct (total - to_lovelace amt - feeBuffer >? 0); simpl.
  - destruct (from_bech32 (address w)) as [e | senderAddress]; simpl.
    { intros ->. fails_before_submission. }
    unfold BigNum_from_str.
    destruct ((0 <=? total - to_lovelace amt - feeBuffer) &&
              (total - to_lovelace amt - feeBuffer <? 2 ^ 64)); simpl.
    2:{ intros ->. fails_before_submission. }
    unfold blockfrost_blocksLatest, ask; simpl.
    destruct (blocksLatest_answer env _) as [e | latestBlock]; simpl.
    { intros ->. fails_before_submission. }
    unfold blockfrost_epochsParameters, ask; simpl.
    destruct (epochsParameters_answer env _ _) as [e | params]; simpl.
    { intros ->. fails_before_submission. }
    unfold blockfrost_txSubmit, ask; simpl.
    intros ->. ends_with_submission latestBlock.
  - unfold blockfrost_blocksLatest, ask; simpl.
    destruct (blocksLatest_answer env _) as [e | latestBlock]; simpl.
    { intros ->. fails_before_submission. }
    unfold blockfrost_epochsParameters, ask; simpl.
    destruct (epochsParameters_answer env _ _) as [e | params]; simpl.
    { intros ->. fails_before_submission. }
    unfold blockfrost_txSubmit, ask; simpl.
    intros ->. ends_with_submission latestBlock.
Qed.

(** X1. [sendAda] never throws: every failure is caught and turned into
    the result [false].  It does not write the wallet file and draws no
    mnemonic. *)
Theorem sendAda_never_throws_keeps_wallets (w : Wallet) (recv : string)
    (amt : Q) (s : State) :
  (exists r : bool, fst (sendAda env w recv amt s) = Return r) /\
  wallet_file (snd (sendAda env w recv amt s)) = wallet_file s /\
  Forall keeps_wallets (since s (snd (sendAda env w recv amt s))).
Proof.
  split; [apply sendAda_returns|].
  destruct (sendAda_keeps_wallets env w recv amt s) as [Hf [d [Hd HP]]].
  split; [exact Hf|].
  rewrite (since_app _ _ d Hd). exact HP.
Qed.

(** X2. [sendAda] returns [true] only when Blockfrost has accepted the
    transaction it submitted, and the line with the transaction hash is
    printed exactly in that case. *)
Theorem sendAda_true_iff_accepted (w : Wallet) (recv : string) (amt : Q)
    (s : State) :
  (fst (sendAda env w recv amt s) = Return true <->
   exists h, In (ConsoleLog (TransactionHashLine h))
                (since s (snd (sendAda env w recv amt s)))) /\
  (fst (sendAda env w recv amt s) = Return true ->
   exists b h latestBlock,
     In (BlockfrostTxSubmit b) (since s (snd (sendAda env w recv amt s))) /\
     txSubmit_answer env (before_submission w recv amt latestBlock ++ trace s) b
       = inr h).
Proof.
  destruct (sendAda_outcome w recv amt s)
    as [[b [h [lb [Hr [Hs Hans]]]]] | [[b [e [lb [Hr [Hs Hans]]]]] | [Hr Hs]]].
  - split.
    + split; [intros _ | intros _; exact Hr].
      exists h. rewrite Hs. left. reflexivity.
    + intros _. exists b, h, lb. split; [|exact Hans].
      rewrite Hs. right. right. left. reflexivity.
  - split; [|intros H; congruence].
    split; [intros H; congruence|].
    intros [h Hin]. rewrite Hs in Hin. simpl in Hin.
    repeat (destruct Hin as [Hin | Hin]; [discriminate Hin|]).
    contradiction.
  - split; [|intros H; congruence].
    split; [intros H; congruence|].
    intros [h Hin]. rewrite Forall_forall in Hs.
    destruct (Hs _ Hin).
Qed.

Lemma no_submission_before_submitting (l : list Event) :
  Forall before_submitting l -> filter is_submission l = [].
Proof.
  induction 1 as [|ev l Hev _ IH]; simpl; [reflexivity|].
  destruct ev; simpl in *; try exact IH. contradiction.
Qed.

(** X3. A call of [sendAda] submits at most one transaction: a refused
    submission is not tried again. *)
Theorem sendAda_submits_at_most_once (w : Wallet) (recv : string) (amt : Q)
    (s : State) :
  (List.length
     (filter is_submission (since s (snd (sendAda env w recv amt s)))) <= 1)%nat.
Proof.
  destruct (sendAda_outcome w recv amt s)
    as [[b [h [lb [_ [Hs _]]]]] | [[b [e [lb [_ [Hs _]]]]] | [_ Hs]]].
  - rewrite Hs. simpl. apply le_n.
  - rewrite Hs. simpl. apply le_n.
  - rewrite (no_submission_before_submitting _ Hs). simpl. apply Nat.le_0_1.
Qed.

(** X4. With a sender mnemonic that bip39 rejects, [sendAda] returns
    [false] without calling Blockfrost at all; the error is written to the
    error console twice, by [getPrivateKeyFromMnemonic] and by [sendAda]. *)
Theorem sendAda_invalid_mnemonic (w : Wallet) (recv : string) (amt : Q)
    (s : State) (e : JsError) :
  mnemonicToEntropy (mnemonic w) = inl e ->
  fst (sendAda env w recv amt s) = Return false /\
  since s (snd (sendAda env w recv amt s)) =
  [ConsoleError (ErrorSendingAda e);
   ConsoleError (ErrorGettingPrivateKey e);
   ConsoleLog (AttemptingToSend amt (name w) recv)].
Proof.
  intros He.
  unfold sendAda, try_catch, bind, console_log, console_error, emit.
  unfold getPrivateKeyFromMnemonic, try_catch, bind, console_error, emit.
  simpl. rewrite He. simpl.
  split; [reflexivity|]. eval_since. reflexivity.
Qed.

(** X5. When the UTXO query fails, also with status 404 for an address
    that was never used, [sendAda] returns [false], writes the error to the
    error console and makes no further call. *)
Theorem sendAda_utxo_query_failure (w : Wallet) (recv : string) (amt : Q)
    (s : State) (seed : string) (e : JsError) :
  mnemonicToEntropy (mnemonic w) = inr seed ->
  addressesUtxos_answer env
    (ConsoleLog (AttemptingToSend amt (name w) recv) :: trace s) (address w)
    = inl e ->
  fst (sendAda env w recv amt s) = Return false /\
  since s (snd (sendAda env w recv amt s)) =
  [ConsoleError (ErrorSendingAda e);
   BlockfrostAddressesUtxos (address w);
   ConsoleLog (AttemptingToSend amt (name w) recv)].
Proof.
  intros Hseed He.
  unfold sendAda, try_catch, bind, console_log, console_error, emit.
  unfold getPrivateKeyFromMnemonic, try_catch, bind, console_error, emit.
  simpl. rewrite Hseed. simpl.
  unfold blockfrost_addressesUtxos, ask. simpl. rewrite He. simpl.
  split; [reflexivity|]. eval_since. reflexivity.
Qed.

(** X6. A receiver address that does not decode is found out only after
    the inputs have been selected: [sendAda] then returns [false] and
    asks neither for the latest block nor for the parameters. *)
Theorem sendAda_bad_receiver (w : Wallet) (recv : string) (amt : Q)
    (s : State) (seed : string) (utxos : list Utxo)
    (txInputs : list TransactionInput) (total : Z) (e : JsError) :
  mnemonicToEntropy (mnemonic w) = inr seed ->
  addressesUtxos_answer env
    (ConsoleLog (AttemptingToSend amt (name w) recv) :: trace s) (address w)
    = inr utxos ->
  utxos <> [] ->
  select_inputs utxos [] 0 (to_lovelace amt + feeBuffer)
    = inr (txInputs, total) ->
  to_lovelace amt + feeBuffer <= total ->
  from_bech32 recv = inl e ->
  fst (sendAda env w recv amt s) = Return false /\
  since s (snd (sendAda env w recv amt s)) =
  [ConsoleError (ErrorSendingAda e);
   BlockfrostAddressesUtxos (address w);
   ConsoleLog (AttemptingToSend amt (name w) recv)].
Proof.
  intros Hseed Hutxos Hne Hsel Hlow He.
  unfold sendAda, try_catch, bind, console_log, console_error, emit.
  unfold getPrivateKeyFromMnemonic, try_catch, bind, console_error, emit.
  simpl. rewrite Hseed. simpl.
  unfold blockfrost_addressesUtxos, ask. simpl. rewrite Hutxos.
  destruct utxos as [|u rest] eqn:Hlist; [contradiction|].
  rewrite <- Hlist in *. rewrite Hsel. simpl.
  rewrite (proj2 (Z.ltb_ge _ _) Hlow). simpl.
  rewrite He. simpl.
  split; [reflexivity|]. eval_since. reflexivity.
Qed.

(** X7. The protocol parameters are asked for although nothing is made
    of them, and the transfer depends on the answer: when that query
    fails, [sendAda] returns [false] and submits nothing. *)
Theorem sendAda_parameter_failure (w : Wallet) (recv : string) (amt : Q)
    (s : State) (seed : string) (utxos : list Utxo)
    (txInputs : list TransactionInput) (total : Z)
    (recipientAddress senderAddress : Address) (latestBlock : Block)
    (e : JsError) :
  let asked :=
    BlockfrostAddressesUtxos (address w)
      :: ConsoleLog (AttemptingToSend amt (name w) recv) :: trace s in
  mnemonicToEntropy (mnemonic w) = inr seed ->
  addressesUtxos_answer env
    (ConsoleLog (AttemptingToSend amt (name w) recv) :: trace s) (address w)
    = inr utxos ->
  utxos <> [] ->
  select_inputs utxos [] 0 (to_lovelace amt + feeBuffer)
    = inr (txInputs, total) ->
  to_lovelace amt + feeBuffer <= total ->
  0 <= to_lovelace amt ->
  total < 2 ^ 64 ->
  from_bech32 recv = inr recipientAddress ->
  from_bech32 (address w) = inr senderAddress ->
  blocksLatest_answer env asked = inr latestBlock ->
  epochsParameters_answer env (BlockfrostBlocksLatest :: asked)
    (epoch latestBlock) = inl e ->
  fst (sendAda env w recv amt s) = Return false /\
  since s (snd (sendAda env w recv amt s)) =
  [ConsoleError (ErrorSendingAda e);
   BlockfrostEpochsParameters (epoch latestBlock);
   BlockfrostBlocksLatest;
   BlockfrostAddressesUtxos (address w);
   ConsoleLog (AttemptingToSend amt (name w) recv)].
Proof.
  intros asked Hseed Hutxos Hne Hsel Hlow Hamt Hmax Hrecv Hsender Hblock He.
  subst asked.
  unfold sendAda, try_catch, bind, console_log, console_error, emit.
  unfold getPrivateKeyFromMnemonic, try_catch, bind, console_error, emit.
  simpl. rewrite Hseed. simpl.
  unfold blockfrost_addressesUtxos, ask. simpl. rewrite Hutxos.
  destruct utxos as [|u rest] eqn:Hlist; [contradiction|].
  rewrite <- Hlist in *. rewrite Hsel. simpl.
  rewrite (proj2 (Z.ltb_ge _ _) Hlow). simpl.
  rewrite Hrecv. simpl.
  unfold feeBuffer in *.
  assert (Hfit : forall z, 0 <= z -> z <= total ->
                           BigNum_from_str z = inr z).
  { intros z Hz0 Hz. unfold BigNum_from_str.
    rewrite (proj2 (Z.leb_le _ _) Hz0).
    rewrite (proj2 (Z.ltb_lt z (2 ^ 64))) by lia. reflexivity. }
  rewrite (Hfit (to_lovelace amt)) by lia. simpl.
  destruct (total - to_lovelace amt - 200000 >? 0) eqn:Hchange; simpl.
  - apply Z.gtb_lt in Hchange.
    rewrite Hsender. simpl.
    rewrite (Hfit (total - to_lovelace amt - 200000)) by lia. simpl.
    unfold blockfrost_blocksLatest, ask; simpl. rewrite Hblock. simpl.
    unfold blockfrost_epochsParameters, ask; simpl. rewrite He. simpl.
    split; [reflexivity|]. eval_since. reflexivity.
  - unfold blockfrost_blocksLatest, ask; simpl. rewrite Hblock. simpl.
    unfold blockfrost_epochsParameters, ask; simpl. rewrite He. simpl.
    split; [reflexivity|]. eval_since. reflexivity.
Qed.

(** X8. The UTXOs listed after the selected ones are not looked at: once
    a non-empty prefix of the list reaches the threshold, the loop returns
    the same inputs and total whatever follows the prefix, a malformed
    transaction hash included. *)
Theorem select_inputs_ignores_rest (pre suf : list Utxo) :
  forall (acc : list TransactionInput) (total threshold : Z)
         (txInputs : list TransactionInput) (totalInputAmount : Z),
    pre <> [] ->
    select_inputs pre acc total threshold = inr (txInputs, totalInputAmount) ->
    threshold <= totalInputAmount ->
    select_inputs (pre ++ suf) acc total threshold
      = inr (txInputs, totalInputAmount).
Proof.
  induction pre as [|u rest IH]; intros acc total threshold ins tot Hne Hsel Hge;
    [contradiction|].
  simpl in *.
  destruct (TransactionHash_from_bytes (Buffer_from_hex (tx_hash u)))
    as [e | h]; [discriminate|].
  destruct (total + lovelace_of (utxo_amount u) >=? threshold) eqn:Hreach.
  - exact Hsel.
  - destruct rest as [|v rest'].
    + simpl in Hsel. injection Hsel as _ Htot.
      rewrite Z.geb_leb in Hreach. apply Z.leb_gt in Hreach. lia.
    + apply IH; [discriminate | exact Hsel | exact Hge].
Qed.

(** X9. A malformed transaction hash on a UTXO the loop gets to stops the
    transfer: the loop throws, and [sendAda] returns [false] having asked
    for nothing but the UTXOs. *)
Theorem sendAda_malformed_hash (w : Wallet) (recv : string) (amt : Q)
    (s : State) (seed : string) (pre suf : list Utxo) (u : Utxo)
    (txInputs : list TransactionInput) (total : Z) (e : JsError) :
  mnemonicToEntropy (mnemonic w) = inr seed ->
  addressesUtxos_answer env
    (ConsoleLog (AttemptingToSend amt (name w) recv) :: trace s) (address w)
    = inr (pre ++ u :: suf) ->
  select_inputs pre [] 0 (to_lovelace amt + feeBuffer) = inr (txInputs, total) ->
  total < to_lovelace amt + feeBuffer ->
  TransactionHash_from_bytes (Buffer_from_hex (tx_hash u)) = inl e ->
  select_inputs (pre ++ u :: suf) [] 0 (to_lovelace amt + feeBuffer) = inl e /\
  fst (sendAda env w recv amt s) = Return false /\
  since s (snd (sendAda env w recv amt s)) =
  [ConsoleError (ErrorSendingAda e);
   BlockfrostAddressesUtxos (address w);
   ConsoleLog (AttemptingToSend amt (name w) recv)].
Proof.
  intros Hseed Hutxos Hsel Hlow He.
  assert (Hloop : forall pre acc t ins tot,
            select_inputs pre acc t (to_lovelace amt + feeBuffer)
              = inr (ins, tot) ->
            tot < to_lovelace amt + feeBuffer ->
            select_inputs (pre ++ u :: suf) acc t (to_lovelace amt + feeBuffer)
              = inl e).
  { clear Hutxos Hsel Hlow pre txInputs total.
    induction pre as [|v rest IH]; intros acc t ins tot Hsel Hlow; simpl in *.
    - rewrite He. reflexivity.
    - destruct (TransactionHash_from_bytes (Buffer_from_hex (tx_hash v)))
        as [e' | h]; [discriminate|].
      destruct (t + lovelace_of (utxo_amount v) >=? to_lovelace amt + feeBuffer)
        eqn:Hreach.
      + injection Hsel as _ Htot. apply Z.geb_le in Hreach. lia.
      + eapply IH; [exact Hsel | exact Hlow]. }
  specialize (Hloop pre [] 0 txInputs total Hsel Hlow).
  split; [exact Hloop|].
  unfold sendAda, try_catch, bind, console_log, console_error, emit.
  unfold getPrivateKeyFromMnemonic, try_catch, bind, console_error, emit.
  simpl. rewrite Hseed. simpl.
  unfold blockfrost_addressesUtxos, ask. simpl. rewrite Hutxos.
  destruct (pre ++ u :: suf) as [|x rest] eqn:Hlist.
  { destruct pre; discriminate Hlist. }
  rewrite Hloop. simpl.
  split; [reflexivity|]. eval_since. reflexivity.
Qed.

(** X10. The transaction is signed with the key of the address the wallet
    was created with: the private key at role 0, index 0 that makes the
    witness of a submitted transaction is the one whose public key hash
    is the payment credential of the address [createTestnetWallet] derives
    from the sender's mnemonic. *)
Theorem sendAda_signs_with_wallet_key (w : Wallet) (recv : string) (amt : Q)
    (s : State) (b : Bytes) :
  In (BlockfrostTxSubmit b) (since s (snd (sendAda env w recv amt s))) ->
  exists (tx : Transaction) (k : Bip32PrivateKey),
    b = to_bytes tx /\
    vkeys (witness_set tx) =
      Some [make_vkey_witness (hash_transaction (body tx)) (to_raw_key k)] /\
    forall (env' : Env) (s' : State),
    exists (created : Wallet) (stake : StakeCredential),
      createTestnetWallet env' (Some (mnemonic w)) s' = (Return created, s') /\
      address created =
        to_bech32
          (to_address
             (BaseAddress_new (network_id NetworkInfo_testnet)
                (from_keyhash (hash (public_to_raw_key (to_public k))))
                stake)).
Proof.
  intros H. apply sendAda_submit_inv in H.
  destruct H as [seed [utxos [txInputs [total [recipientAddress [change
    [latestBlock H]]]]]]].
  simpl in H.
  destruct H as [Hseed [_ [_ [_ [_ [_ [_ [_ [_ Hb]]]]]]]]].
  eexists. eexists. split; [exact Hb|]. simpl.
  split; [reflexivity|].
  intros env' s'.
  rewrite (createTestnetWallet_given env' s' (mnemonic w) seed Hseed).
  eexists. eexists. split; reflexivity.
Qed.

End TransferOutcomes.

(** ** More on the balance check: outcomes and what it never does *)

Section BalanceCheckOutcomes.
Context {B39 : Bip39} {CT : CardanoTypes} {CW : CardanoWasm}.
Variable env : Env.

Lemma address_queries_app (a b : list Event) :
  address_queries (a ++ b) = address_queries a ++ address_queries b.
Proof. apply flat_map_app. Qed.

Lemma sendAda_transfer_events (w : Wallet) (recv : string) (amt : Q) :
  emits transfer_event (sendAda env w recv amt).
Proof.
  unfold sendAda, getPrivateKeyFromMnemonic.
  unfold blockfrost_addressesUtxos, blockfrost_blocksLatest,
    blockfrost_epochsParameters, blockfrost_txSubmit.
  repeat first [emits_step | exact I].
Qed.

Lemma transfer_no_address_query (d : list Event) :
  Forall transfer_event d -> address_queries d = [].
Proof.
  induction 1 as [|ev l Hev _ IH]; simpl; [reflexivity|].
  destruct ev as [[]|[]| | | | | | |]; simpl in *; try exact IH; contradiction.
Qed.

Lemma lookup_no_submission (d : list Event) :
  Forall lookup_event d -> filter is_submission d = [].
Proof.
  induction 1 as [|ev l Hev _ IH]; simpl; [reflexivity|].
  destruct ev as [[]|[]| | | | | | |]; simpl in *; try exact IH; contradiction.
Qed.

(** With an API key a balance lookup is one query, for the address
    given. *)
Lemma fetchBalance_one_query (a : string) (s : State) :
  projectId env <> EmptyString ->
  exists (b : Balance) (d0 : list Event),
    fetchBalance env a s =
    (Return b, {| trace := d0 ++ trace s; wallet_file := wallet_file s |}) /\
    address_queries d0 = [a].
Proof.
  intros Hid.
  destruct (addresses_answer env (trace s) a) as [e | info] eqn:Hans.
  - rewrite (fetchBalance_failed env a s e Hid Hans).
    destruct (has_status_code e 404).
    + exists zero_balance, [BlockfrostAddresses a]. split; reflexivity.
    + exists zero_balance,
        [ConsoleError (ErrorFetchingBalance a e); BlockfrostAddresses a].
      split; reflexivity.
  - rewrite (fetchBalance_found env a s info Hid Hans).
    eexists. exists [BlockfrostAddresses a]. split; reflexivity.
Qed.

Lemma fetch_balances_queries (wallets : list Wallet) :
  projectId env <> EmptyString ->
  forall (acc : list WalletWithBalance) (s : State),
  exists (d : list Event),
    trace (snd (fetch_balances env wallets acc s)) = d ++ trace s /\
    address_queries d = rev (map address wallets).
Proof.
  intros Hid.
  induction wallets as [|w rest IH]; intros acc s; simpl.
  - exists []. split; reflexivity.
  - unfold bind.
    destruct (fetchBalance_one_query (address w) s Hid)
      as [b [d0 [Hrun Hq]]].
    rewrite Hrun.
    match goal with
    | |- context [fetch_balances env rest ?acc' ?s0] =>
        destruct (IH acc' s0) as [d [Hd Hqs]]
    end.
    exists (d ++ d0). rewrite Hd. simpl.
    split; [apply app_assoc|].
    rewrite address_queries_app, Hq, Hqs. reflexivity.
Qed.

(** The two ways a balance check of two wallets or more ends. *)
Lemma balanceCheckAndTransfer_outcome (wallets : list Wallet) (s : State)
    (fetched : list WalletWithBalance) (s1 : State) (d : list Event) :
  (2 <= List.length wallets)%nat ->
  fetch_balances env wallets [] s = (Return fetched, s1) ->
  trace s1 = d ++ trace s ->
  exists (first second : WalletWithBalance) (rest : list WalletWithBalance),
    sort fetched = first :: second :: rest /\
    ((Qgtb (ada (balance first)) (ada (balance second)) = false /\
      fst (balanceCheckAndTransfer env wallets s) = Return false /\
      since s (snd (balanceCheckAndTransfer env wallets s)) =
      ConsoleLog
        (NoTransferNeeded (name (wallet first)) (ada (balance first))
           (name (wallet second)) (ada (balance second))) :: d)
     \/
     (Qgtb (ada (balance first)) (ada (balance second)) = true /\
      exists (success : bool) (s3 : State) (d3 : list Event),
        sendAda env (wallet first) (address (wallet second)) 1
          {| trace :=
               ConsoleLog
                 (HasMoreAda (name (wallet first)) (ada (balance first))
                    (name (wallet second)) (ada (balance second)))
                 :: trace s1;
             wallet_file := wallet_file s1 |}
        = (Return success, s3) /\
        trace s3 =
          d3 ++ ConsoleLog
                  (HasMoreAda (name (wallet first)) (ada (balance first))
                     (name (wallet second)) (ada (balance second)))
             :: trace s1 /\
        Forall transfer_event d3 /\
        fst (balanceCheckAndTransfer env wallets s) = Return success /\
        since s (snd (balanceCheckAndTransfer env wallets s)) =
        ConsoleLog
          (if success
           then SuccessfullySent (name (wallet first)) (name (wallet second))
           else FailedToSend (name (wallet first)) (name (wallet second)))
          :: d3 ++
             ConsoleLog
               (HasMoreAda (name (wallet first)) (ada (balance first))
                  (name (wallet second)) (ada (balance second)))
             :: d)).
Proof.
  intros Hlen Hrun Hd.
  assert (Hflen : List.length (sort fetched) = List.length wallets).
  { destruct (fetch_balances_spec env wallets [] s)
      as [fetched' [s1' [d' [Hrun' [Hmap _]]]]].
    simpl in Hrun'. rewrite Hrun in Hrun'. injection Hrun' as <- _.
    rewrite <- (Permutation_length (sort_perm fetched)), <- Hmap.
    symmetry. apply length_map. }
  destruct (sort fetched) as [|first [|second rest]] eqn:Hsort;
    simpl in Hflen; try lia.
  exists first, second, rest. split; [reflexivity|].
  assert (Hbody : balanceCheckAndTransfer env wallets s =
    try_catch
      (if Qgtb (ada (balance first)) (ada (balance second)) then
         bind (console_log
                 (HasMoreAda (name (wallet first)) (ada (balance first))
                    (name (wallet second)) (ada (balance second))))
           (fun _ =>
              bind (sendAda env (wallet first) (address (wallet second)) 1)
                (fun success =>
                   bind (if success : bool then
                           console_log
                             (SuccessfullySent (name (wallet first))
                                (name (wallet second)))
                         else
                           console_log
                             (FailedToSend (name (wallet first))
                                (name (wallet second))))
                     (fun _ => ret success)))
       else
         bind (console_log
                 (NoTransferNeeded (name (wallet first)) (ada (balance first))
                    (name (wallet second)) (ada (balance second))))
           (fun _ => ret false))
      (fun error => bind (console_error (ErrorCheckingBalances error))
                      (fun _ => ret false))
      s1).
  { unfold balanceCheckAndTransfer.
    destruct (Z.of_nat (List.length wallets) <? 2) eqn:E;
      [apply Z.ltb_lt in E; lia|].
    unfold try_catch at 1, bind at 1. rewrite Hrun, Hsort.
    reflexivity. }
  destruct (Qgtb (ada (balance first)) (ada (balance second))) eqn:Hgt.
  - right. split; [reflexivity|].
    unfold try_catch, bind at 1, console_log at 1, emit in Hbody.
    destruct (sendAda_returns env (wallet first) (address (wallet second)) 1
                {| trace :=
                     ConsoleLog
                       (HasMoreAda (name (wallet first)) (ada (balance first))
                          (name (wallet second)) (ada (balance second)))
                       :: trace s1;
                   wallet_file := wallet_file s1 |}) as [success Hsuccess].
    destruct (sendAda_transfer_events (wallet first) (address (wallet second)) 1
                {| trace :=
                     ConsoleLog
                       (HasMoreAda (name (wallet first)) (ada (balance first))
                          (name (wallet second)) (ada (balance second)))
                       :: trace s1;
                   wallet_file := wallet_file s1 |}) as [_ [d3 [Hd3 HP3]]].
    unfold bind at 1 in Hbody.
    destruct (sendAda env (wallet first) (address (wallet second)) 1 _)
      as [o s3] eqn:Hsend.
    simpl in Hsuccess, Hd3. subst o.
    exists success, s3, d3.
    split; [reflexivity|]. split; [exact Hd3|]. split; [exact HP3|].
    assert (Hfinal : balanceCheckAndTransfer env wallets s =
      (Return success,
       {| trace :=
            ConsoleLog
              (if success
               then SuccessfullySent (name (wallet first)) (name (wallet second))
               else FailedToSend (name (wallet first)) (name (wallet second)))
              :: trace s3;
          wallet_file := wallet_file s3 |})).
    { rewrite Hbody. destruct success; reflexivity. }
    rewrite Hfinal. split; [reflexivity|].
    apply since_app. simpl. rewrite Hd3. simpl. rewrite Hd.
    rewrite <- app_assoc. reflexivity.
  - left. split; [reflexivity|].
    rewrite Hbody. split; [reflexivity|].
    apply since_app. simpl. rewrite Hd. reflexivity.
Qed.

(** What the events of one run of [sendAda] say about its result. *)
Lemma sendAda_delta (w : Wallet) (recv : string) (amt : Q) (s s3 : State)
    (success : bool) (d3 : list Event) :
  sendAda env w recv amt s = (Return success, s3) ->
  trace s3 = d3 ++ trace s ->
  (List.length (filter is_submission d3) <= 1)%nat /\
  (success = true <->
   exists h, In (ConsoleLog (TransactionHashLine h)) d3).
Proof.
  intros Hsend Hd.
  pose proof (sendAda_outcome env w recv amt s) as H.
  rewrite Hsend in H. simpl fst in H. simpl snd in H.
  rewrite (since_app s s3 d3 Hd) in H.
  destruct H as [[b [h [lb [Hr [Hs _]]]]] | [[b [e [lb [Hr [Hs _]]]]] | [Hr Hs]]].
  - injection Hr as ->. subst d3. split; [simpl; apply le_n|].
    split; [intros _; exists h; left; reflexivity | reflexivity].
  - injection Hr as ->. subst d3. split; [simpl; apply le_n|].
    split; [discriminate|]. intros [h Hin]. simpl in Hin.
    repeat (destruct Hin as [Hin | Hin]; [discriminate Hin|]).
    contradiction.
  - injection Hr as ->.
    rewrite (no_submission_before_submitting _ Hs).
    split; [apply Nat.le_0_1|].
    split; [discriminate|]. intros [h Hin].
    rewrite Forall_forall in Hs. destruct (Hs _ Hin).
Qed.

Lemma filter_submission_app (a b : list Event) :
  filter is_submission (a ++ b) = filter is_submission a ++ filter is_submission b.
Proof. apply filter_app. Qed.

(** X11. [balanceCheckAndTransfer] never throws: it always returns a
    boolean.  It leaves the wallet file as it is, and one call submits at
    most one transaction. *)
Theorem balanceCheckAndTransfer_never_fails (wallets : list Wallet)
    (s : State) :
  (exists success : bool,
     fst (balanceCheckAndTransfer env wallets s) = Return success) /\
  wallet_file (snd (balanceCheckAndTransfer env wallets s)) = wallet_file s /\
  (List.length
     (filter is_submission
        (since s (snd (balanceCheckAndTransfer env wallets s)))) <= 1)%nat.
Proof.
  split.
  { unfold balanceCheckAndTransfer.
    apply returns_try_catch. intros e.
    apply returns_bind; [apply returns_emit | intros _; apply returns_ret]. }
  split; [apply (balanceCheckAndTransfer_keeps_wallets env wallets s)|].
  destruct (le_lt_dec 2 (List.length wallets)) as [Hlen | Hlen].
  - destruct (fetch_balances_spec env wallets [] s)
      as [fetched [s1 [d [Hrun [_ [_ [Hd HP]]]]]]].
    simpl in Hrun.
    destruct (balanceCheckAndTransfer_outcome wallets s fetched s1 d
                Hlen Hrun Hd)
      as [first [second [rest [_ [[_ [_ Hs]] |
           [_ [success [s3 [d3 [Hsend [Hd3 [HP3 [_ Hs]]]]]]]]]]]]].
    + rewrite Hs. simpl. rewrite (lookup_no_submission d HP).
      apply Nat.le_0_1.
    + rewrite Hs.
      destruct (sendAda_delta _ _ _ _ _ _ d3 Hsend Hd3) as [Hcount _].
      replace (filter is_submission _)
        with (filter is_submission d3); [exact Hcount|].
      destruct success; simpl;
        rewrite filter_submission_app; simpl;
        rewrite (lookup_no_submission d HP), app_nil_r; reflexivity.
  - assert (Hrun : balanceCheckAndTransfer env wallets s =
                   (Return false,
                    {| trace := ConsoleLog NeedAtLeastTwoWallets :: trace s;
                       wallet_file := wallet_file s |})).
    { unfold balanceCheckAndTransfer.
      destruct (Z.of_nat (List.length wallets) <? 2) eqn:E;
        [reflexivity | apply Z.ltb_ge in E; lia]. }
    rewrite Hrun. eval_since. simpl. apply Nat.le_0_1.
Qed.

(** X12. [balanceCheckAndTransfer] returns [true] exactly when Blockfrost
    has accepted the transaction of the transfer (the line with the hash of
    the submitted transaction is printed), and that is exactly when it
    prints the "successfully sent" line. *)
Theorem balanceCheckAndTransfer_true_iff_accepted (wallets : list Wallet)
    (s : State) :
  (fst (balanceCheckAndTransfer env wallets s) = Return true <->
   exists h,
     In (ConsoleLog (TransactionHashLine h))
        (since s (snd (balanceCheckAndTransfer env wallets s)))) /\
  (fst (balanceCheckAndTransfer env wallets s) = Return true <->
   exists a b,
     In (ConsoleLog (SuccessfullySent a b))
        (since s (snd (balanceCheckAndTransfer env wallets s)))).
Proof.
  destruct (le_lt_dec 2 (List.length wallets)) as [Hlen | Hlen].
  - destruct (fetch_balances_spec env wallets [] s)
      as [fetched [s1 [d [Hrun [_ [_ [Hd HP]]]]]]].
    simpl in Hrun. rewrite Forall_forall in HP.
    destruct (balanceCheckAndTransfer_outcome wallets s fetched s1 d
                Hlen Hrun Hd)
      as [first [second [rest [_ [[_ [Hr Hs]] |
           [_ [success [s3 [d3 [Hsend [Hd3 [HP3 [Hr Hs]]]]]]]]]]]]].
    + rewrite Hr, Hs. split; (split; [discriminate|]).
      * intros [h [Hin | Hin]]; [discriminate Hin | destruct (HP _ Hin)].
      * intros [a [b [Hin | Hin]]]; [discriminate Hin | destruct (HP _ Hin)].
    + rewrite Hr, Hs. rewrite Forall_forall in HP3.
      destruct (sendAda_delta _ _ _ _ _ _ d3 Hsend Hd3) as [_ Hhash].
      split; split.
      * intros Ht. injection Ht as Ht. apply Hhash in Ht.
        destruct Ht as [h Hin]. exists h. right.
        apply in_or_app. left. exact Hin.
      * intros [h Hin]. f_equal. apply Hhash. exists h.
        destruct Hin as [Hin | Hin]; [destruct success; discriminate Hin|].
        apply in_app_or in Hin.
        destruct Hin as [Hin | [Hin | Hin]];
          [exact Hin | discriminate Hin | destruct (HP _ Hin)].
      * intros Ht. injection Ht as ->.
        exists (name (wallet first)), (name (wallet second)).
        left. reflexivity.
      * intros [a [b [Hin | Hin]]].
        -- destruct success; [reflexivity | discriminate Hin].
        -- apply in_app_or in Hin.
           destruct Hin as [Hin | [Hin | Hin]];
             [destruct (HP3 _ Hin) | discriminate Hin | destruct (HP _ Hin)].
  - assert (Hrun : balanceCheckAndTransfer env wallets s =
                   (Return false,
                    {| trace := ConsoleLog NeedAtLeastTwoWallets :: trace s;
                       wallet_file := wallet_file s |})).
    { unfold balanceCheckAndTransfer.
      destruct (Z.of_nat (List.length wallets) <? 2) eqn:E;
        [reflexivity | apply Z.ltb_ge in E; lia]. }
    rewrite Hrun. eval_since. simpl.
    split; (split; [discriminate|]).
    + intros [h [Hin | []]]. discriminate Hin.
    + intros [a [b [Hin | []]]]. discriminate Hin.
Qed.

Lemma balanceCheckAndTransfer_queries (wallets : list Wallet) (s : State) :
  projectId env <> EmptyString ->
  (2 <= List.length wallets)%nat ->
  exists (d : list Event),
    trace (snd (balanceCheckAndTransfer env wallets s)) = d ++ trace s /\
    address_queries d = rev (map address wallets).
Proof.
  intros Hid Hlen.
  destruct (balanceCheckAndTransfer_keeps_wallets env wallets s)
    as [_ [dB [HdB _]]].
  exists dB. split; [exact HdB|].
  rewrite <- (since_app s _ dB HdB).
  destruct (fetch_balances_spec env wallets [] s)
    as [fetched [s1 [d [Hrun [_ [_ [Hd _]]]]]]].
  simpl in Hrun.
  assert (Hq : address_queries d = rev (map address wallets)).
  { destruct (fetch_balances_queries wallets Hid [] s) as [d' [Hd' Hq]].
    rewrite Hrun in Hd'. simpl in Hd'. rewrite Hd in Hd'.
    apply app_inv_tail in Hd'. subst d'. exact Hq. }
  destruct (balanceCheckAndTransfer_outcome wallets s fetched s1 d
              Hlen Hrun Hd)
    as [first [second [rest [_ [[_ [_ Hs]] |
         [_ [success [s3 [d3 [_ [_ [HP3 [_ Hs]]]]]]]]]]]]].
  - rewrite Hs. exact Hq.
  - rewrite Hs.
    change (address_queries (?x :: ?l)) with (address_queries ([x] ++ l)).
    rewrite !address_queries_app, (transfer_no_address_query d3 HP3).
    destruct success; exact Hq.
Qed.

(** X14. With an API key and two wallets or more, [balanceCheckAndTransfer]
    asks Blockfrost for the balance of every wallet exactly once, in the
    order of the list; the transfer that may follow asks for no balance
    again. *)
Theorem balanceCheckAndTransfer_one_query_per_wallet (wallets : list Wallet)
    (s : State) :
  projectId env <> EmptyString ->
  (2 <= List.length wallets)%nat ->
  address_queries (since s (snd (balanceCheckAndTransfer env wallets s)))
  = rev (map address wallets).
Proof.
  intros Hid Hlen.
  destruct (balanceCheckAndTransfer_queries wallets s Hid Hlen)
    as [d [Hd Hq]].
  rewrite (since_app s _ d Hd). exact Hq.
Qed.

End BalanceCheckOutcomes.


(** ** More on the manager: the wallet file, the two versions, the entry
    point *)

(** Two spellings of one trace, up to the bracketing of [++]. *)
Ltac same_trace :=
  simpl; repeat (rewrite <- app_assoc; simpl); reflexivity.

Section ManagerOutcomes.
Context {B39 : Bip39} {CT : CardanoTypes} {CW : CardanoWasm} {J : Json}.
Variable env : Env.

Lemma loadWalletsFromFile_run (s : State) :
  loadWalletsFromFile s =
  (Return (file_value (wallet_file s)),
   {| trace := load_lines (wallet_file s) ++ trace s;
      wallet_file := wallet_file s |}).
Proof.
  unfold file_value, load_lines.
  destruct (wallet_file s) as [data|] eqn:Hfile.
  - destruct (JSON_parse data) as [e | v] eqn:Hp.
    + rewrite (loadWalletsFromFile_unreadable s data e Hfile Hp).
      rewrite Hfile. reflexivity.
    + rewrite (loadWalletsFromFile_parsed s data v Hfile Hp).
      destruct s; simpl in *; subst; reflexivity.
  - rewrite (loadWalletsFromFile_absent s Hfile).
    destruct s; simpl in *; subst; reflexivity.
Qed.

(** Both managers start the same way: a line, then the file. *)
Lemma manager_start (k : JsValue -> M unit) (s : State) :
  bind (console_log CheckingWalletFile)
    (fun _ => bind loadWalletsFromFile k) s
  = k (file_value (wallet_file s)) (loaded s).
Proof.
  unfold bind, console_log, emit. rewrite loadWalletsFromFile_run.
  reflexivity.
Qed.

Lemma manager_start_bind (k : JsValue -> M unit) (h : unit -> M unit)
    (s : State) :
  bind (bind (console_log CheckingWalletFile)
          (fun _ => bind loadWalletsFromFile k)) h s
  = bind (k (file_value (wallet_file s))) h (loaded s).
Proof.
  unfold bind, console_log, emit. rewrite loadWalletsFromFile_run.
  reflexivity.
Qed.

Lemma returns_for_of {A} (xs : list A) (body : A -> M unit) :
  (forall x, returns (body x)) -> returns (for_of xs body).
Proof.
  intros Hb. induction xs as [|x rest IH]; simpl.
  - apply returns_ret.
  - apply returns_bind; [apply Hb | intros _; exact IH].
Qed.

Lemma show_wallet_returns (w : Wallet) : returns (show_wallet env w).
Proof.
  unfold show_wallet.
  repeat first
    [ apply fetchBalance_returns
    | apply returns_emit
    | apply returns_ret
    | apply returns_bind; [|intros ?] ].
Qed.

Lemma createTestnetWallet_generated_invalid (s : State) (e : JsError) :
  mnemonicToEntropy (random_mnemonic env (trace s) 256) = inl e ->
  createTestnetWallet env None s =
  (Throw e,
   {| trace := ConsoleError (ErrorCreatingTestnetWallet e)
                 :: GenerateMnemonic 256 :: trace s;
      wallet_file := wallet_file s |}).
Proof.
  intros He. unfold createTestnetWallet, try_catch, bind. simpl.
  unfold generateMnemonic, ask. rewrite He. reflexivity.
Qed.

Lemma bind_assoc {A B C} (m : M A) (k : A -> M B) (h : B -> M C) (s : State) :
  bind (bind m k) h s = bind m (fun x => bind (k x) h) s.
Proof. unfold bind. destruct (m s) as [[a | e] s1]; reflexivity. Qed.

Lemma bind_ext {A B} (m : M A) (k k' : A -> M B) (s : State) :
  (forall a s1, k a s1 = k' a s1) -> bind m k s = bind m k' s.
Proof.
  intros H. unfold bind. destruct (m s) as [[a | e] s1]; [apply H | reflexivity].
Qed.

Lemma display_event_quiet (ev : Event) :
  display_event ev -> no_transfer ev /\ keeps_wallets ev.
Proof. destruct ev as [[]|[]| | | | | | |]; simpl; tauto. Qed.

Lemma show_other_emits (text : string) :
  emits (fun ev => no_transfer ev /\ keeps_wallets ev) (show_other env text).
Proof.
  intros s. unfold show_other.
  destruct (display_answer env (trace s) text) as [events error].
  assert (HP : Forall (fun ev => no_transfer ev /\ keeps_wallets ev)
                 (map (@proj1_sig Event display_event) events)).
  { apply Forall_forall. intros ev Hin. apply in_map_iff in Hin.
    destruct Hin as [[ev' Hev'] [<- _]]. apply display_event_quiet.
    exact Hev'. }
  destruct error; simpl; (split; [reflexivity|]); eexists;
    (split; [reflexivity | exact HP]).
Qed.

Lemma check_other_emits (text : string) :
  emits keeps_wallets (check_other env text).
Proof.
  intros s. unfold check_other.
  destruct (check_answer env (trace s) text) as [events success]. simpl.
  split; [reflexivity|]. eexists. split; [reflexivity|].
  apply Forall_forall. intros ev Hin. apply in_map_iff in Hin.
  destruct Hin as [[ev' Hev'] [<- _]]. exact Hev'.
Qed.

(** The manager of [part_000] is the manager of [wallet_manager.js]
    followed by the transfer step. *)
Lemma manageWallets_then_transfer_step (s : State) :
  manageWallets env s =
  bind (wallet_manager_manageWallets env)
    (fun _ => transfer_step env (file_value (wallet_file s))) s.
Proof.
  unfold manageWallets, wallet_manager_manageWallets.
  rewrite manager_start, manager_start_bind.
  destruct (file_value (wallet_file s)) as [|ws| |text]; unfold transfer_step;
    symmetry; cbv zeta.
  - rewrite bind_assoc. apply bind_ext. intros _ s1.
    rewrite bind_assoc. apply bind_ext. intros w1 s2.
    rewrite bind_assoc. apply bind_ext. intros w2 s3.
    rewrite bind_assoc. reflexivity.
  - rewrite bind_assoc. reflexivity.
  - rewrite bind_assoc. reflexivity.
  - rewrite bind_assoc. reflexivity.
Qed.

(** What the manager of [wallet_manager.js] does when no wallets can be
    read from the file: it stops at the first mnemonic bip39 rejects, or
    it creates two wallets, saves them and shows them. *)
Lemma wallet_manager_fresh (s : State) :
  file_value (wallet_file s) = JsFalsy ->
  let s0 := {| trace := ConsoleLog NoExistingWallets :: trace (loaded s);
               wallet_file := wallet_file s |} in
  (exists (e : JsError) (d : list Event),
     wallet_manager_manageWallets env s =
     (Throw e,
      {| trace := ConsoleError (ErrorCreatingTestnetWallet e)
                    :: GenerateMnemonic 256 :: d ++ trace s0;
         wallet_file := wallet_file s |}) /\
     (d = [] \/ d = [GenerateMnemonic 256]) /\
     mnemonicToEntropy (random_mnemonic env (d ++ trace s0) 256) = inl e)
  \/
  (exists (c1 c2 : Wallet),
     let wallets := [with_name c1 "Wallet 1"; with_name c2 "Wallet 2"] in
     let history := GenerateMnemonic 256 :: GenerateMnemonic 256 :: trace s0 in
     createTestnetWallet env None s0 = (Return c1, drawn s0) /\
     createTestnetWallet env None (drawn s0) = (Return c2, drawn (drawn s0)) /\
     mnemonic c1 = random_mnemonic env (trace s0) 256 /\
     mnemonic c2 = random_mnemonic env (GenerateMnemonic 256 :: trace s0) 256 /\
     type c1 = "Testnet Address" /\ type c2 = "Testnet Address" /\
     wallet_manager_manageWallets env s =
     (Return tt,
      {| trace :=
           created_lines (with_name c2 "Wallet 2") ++
           created_lines (with_name c1 "Wallet 1") ++
           save_lines env history wallets ++ history;
         wallet_file := saved_file env history wallets |})).
Proof.
  intros Hfv s0.
  unfold wallet_manager_manageWallets. rewrite manager_start, Hfv.
  unfold bind at 1, console_log at 1, emit.
  change (wallet_file (loaded s)) with (wallet_file s). fold s0.
  destruct (mnemonicToEntropy (random_mnemonic env (trace s0) 256))
    as [e | seed1] eqn:H1.
  { left. exists e, []. unfold bind at 1.
    rewrite (createTestnetWallet_generated_invalid s0 e H1).
    split; [reflexivity|]. split; [left; reflexivity | exact H1]. }
  pose proof (createTestnetWallet_generated env s0 seed1 H1) as Hc1.
  cbv zeta in Hc1.
  destruct (mnemonicToEntropy
              (random_mnemonic env (GenerateMnemonic 256 :: trace s0) 256))
    as [e | seed2] eqn:H2.
  { left. exists e, [GenerateMnemonic 256]. unfold bind at 1. rewrite Hc1.
    unfold bind at 1.
    rewrite (createTestnetWallet_generated_invalid (drawn s0) e H2).
    split; [reflexivity|]. split; [right; reflexivity | exact H2]. }
  pose proof (createTestnetWallet_generated env (drawn s0) seed2 H2) as Hc2.
  cbv zeta in Hc2.
  right. eexists. eexists. cbv zeta.
  split; [exact Hc1|]. split; [exact Hc2|].
  split; [reflexivity|]. split; [reflexivity|].
  split; [reflexivity|]. split; [reflexivity|].
  unfold bind at 1, console_log at 1, emit.
  change (wallet_file (loaded s)) with (wallet_file s). fold s0.
  unfold bind at 1. rewrite Hc1.
  unfold bind at 1. rewrite Hc2.
  unfold bind at 1. rewrite saveWalletsToFile_run.
  reflexivity.
Qed.

(** What the manager of [wallet_manager.js] does with the wallets it has
    read from the file. *)
Lemma wallet_manager_found (s : State) (ws : list Wallet) :
  file_value (wallet_file s) = JsWallets ws ->
  exists (d : list Event),
    wallet_manager_manageWallets env s =
    (Return tt,
     {| trace := d ++ ConsoleLog FoundExistingWallets :: trace (loaded s);
        wallet_file := wallet_file s |}) /\
    Forall (fun ev => no_transfer ev /\ keeps_wallets ev) d.
Proof.
  intros Hfv.
  unfold wallet_manager_manageWallets. rewrite manager_start, Hfv.
  unfold bind at 1, console_log at 1, emit.
  match goal with
  | |- context [for_of ws (show_wallet env) ?s0] => set (s1 := s0)
  end.
  destruct (returns_for_of ws (show_wallet env) show_wallet_returns s1)
    as [[] Hret].
  assert (Hev : emits (fun ev => no_transfer ev /\ keeps_wallets ev)
                  (for_of ws (show_wallet env))).
  { apply emits_for_of. intros w. unfold show_wallet.
    repeat first
      [ apply (emits_weaken lookup_event);
        [intros [[]|[]| | | | | | |]; simpl; tauto | apply fetchBalance_emits]
      | emits_step
      | split; exact I ]. }
  destruct (Hev s1) as [Hf [d [Hd HP]]].
  destruct (for_of ws (show_wallet env) s1) as [o s2].
  simpl in Hret, Hf, Hd. subst o.
  exists d. split; [|exact HP].
  destruct s2 as [t2 f2]. simpl in *. subst. reflexivity.
Qed.

(** On a value that cannot be iterated the manager throws as soon as it
    has printed that it found wallets. *)
Lemma wallet_manager_not_iterable (s : State) :
  file_value (wallet_file s) = JsNotIterable ->
  wallet_manager_manageWallets env s =
  (Throw not_iterable,
   {| trace := ConsoleLog FoundExistingWallets :: trace (loaded s);
      wallet_file := wallet_file s |}).
Proof.
  intros Hfv.
  unfold wallet_manager_manageWallets. rewrite manager_start, Hfv.
  reflexivity.
Qed.

Lemma wallet_manager_other (s : State) (text : string) :
  file_value (wallet_file s) = JsOther text ->
  wallet_manager_manageWallets env s =
  show_other env text
    {| trace := ConsoleLog FoundExistingWallets :: trace (loaded s);
       wallet_file := wallet_file s |}.
Proof.
  intros Hfv.
  unfold wallet_manager_manageWallets. rewrite manager_start, Hfv.
  reflexivity.
Qed.

Lemma load_lines_quiet (file : option string) :
  Forall (fun ev => no_transfer ev /\ keeps_wallets ev) (load_lines file).
Proof.
  unfold load_lines. destruct file as [data|]; [|constructor].
  destruct (JSON_parse data); repeat constructor.
Qed.

Lemma save_lines_no_transfer (history : list Event) (wallets : list Wallet) :
  Forall no_transfer (save_lines env history wallets).
Proof.
  unfold save_lines.
  destruct (writeFileSync_answer env history (JSON_stringify wallets))
    as [[error remains]|]; repeat constructor.
Qed.

(** When the file holds a truthy value the manager of [wallet_manager.js]
    prints and looks balances up, and that is all. *)
Lemma wallet_manager_truthy (s : State) :
  file_value (wallet_file s) <> JsFalsy ->
  wallet_file (snd (wallet_manager_manageWallets env s)) = wallet_file s /\
  exists (d : list Event),
    trace (snd (wallet_manager_manageWallets env s)) = d ++ trace s /\
    Forall (fun ev => no_transfer ev /\ keeps_wallets ev) d.
Proof.
  intros Hfv.
  pose proof (load_lines_quiet (wallet_file s)) as Hl.
  assert (Hstart : Forall (fun ev => no_transfer ev /\ keeps_wallets ev)
                     (ConsoleLog FoundExistingWallets
                        :: load_lines (wallet_file s)
                        ++ [ConsoleLog CheckingWalletFile])).
  { constructor; [split; exact I|].
    apply Forall_app. split; [exact Hl | repeat constructor]. }
  destruct (file_value (wallet_file s)) as [|ws| |text] eqn:Hv;
    [contradiction | | |].
  - destruct (wallet_manager_found s ws Hv) as [d [Hrun HP]].
    rewrite Hrun. split; [reflexivity|].
    exists (d ++ ConsoleLog FoundExistingWallets
              :: load_lines (wallet_file s)
              ++ [ConsoleLog CheckingWalletFile]).
    split; [same_trace|]. apply Forall_app. split; assumption.
  - rewrite (wallet_manager_not_iterable s Hv). split; [reflexivity|].
    exists (ConsoleLog FoundExistingWallets
              :: load_lines (wallet_file s)
              ++ [ConsoleLog CheckingWalletFile]).
    split; [same_trace | exact Hstart].
  - rewrite (wallet_manager_other s text Hv).
    match goal with
    | |- context [show_other env text ?s1] =>
        destruct (show_other_emits text s1) as [Hf [d [Hd HP]]]
    end.
    split; [exact Hf|].
    exists (d ++ ConsoleLog FoundExistingWallets
              :: load_lines (wallet_file s)
              ++ [ConsoleLog CheckingWalletFile]).
    split; [rewrite Hd; same_trace|]. apply Forall_app. split; assumption.
Qed.

Lemma balanceCheckAndTransfer_returns (wallets : list Wallet) :
  returns (balanceCheckAndTransfer env wallets).
Proof.
  unfold balanceCheckAndTransfer. apply returns_try_catch. intros e.
  apply returns_bind; [apply returns_emit | intros _; apply returns_ret].
Qed.

Lemma transfer_step_returns (v : JsValue) (s : State) :
  fst (transfer_step env v s) = Return tt.
Proof.
  destruct v as [|ws| |text]; simpl; [reflexivity| |reflexivity|].
  - unfold bind.
    destruct (balanceCheckAndTransfer_returns ws s) as [b Hb].
    destruct (balanceCheckAndTransfer env ws s) as [o s1].
    simpl in Hb. subst o. reflexivity.
  - unfold bind, check_other.
    destruct (check_answer env (trace s) text). reflexivity.
Qed.

Lemma transfer_step_keeps_wallets (v : JsValue) :
  emits keeps_wallets (transfer_step env v).
Proof.
  destruct v as [|ws| |text]; unfold transfer_step.
  - apply emits_emit. exact I.
  - apply emits_bind; [apply balanceCheckAndTransfer_keeps_wallets|].
    intros b. apply emits_ret.
  - apply emits_bind; [apply emits_emit; exact I | intros _; apply emits_ret].
  - apply emits_bind; [apply check_other_emits | intros b; apply emits_ret].
Qed.

(** When the file holds a truthy value neither manager draws a mnemonic
    or writes the file. *)
Lemma manageWallets_truthy (s : State) :
  file_value (wallet_file s) <> JsFalsy ->
  wallet_file (snd (manageWallets env s)) = wallet_file s /\
  Forall keeps_wallets (since s (snd (manageWallets env s))) /\
  wallet_file (snd (wallet_manager_manageWallets env s)) = wallet_file s /\
  Forall keeps_wallets (since s (snd (wallet_manager_manageWallets env s))).
Proof.
  intros Hfv.
  destruct (wallet_manager_truthy s Hfv) as [Hf [d [Hd HP]]].
  assert (HP' : Forall keeps_wallets d).
  { eapply Forall_impl; [|exact HP]. intros ev [_ H]. exact H. }
  rewrite manageWallets_then_transfer_step. unfold bind.
  destruct (wallet_manager_manageWallets env s) as [[[] | e] s1];
    simpl in Hf, Hd |- *.
  - destruct (transfer_step_keeps_wallets (file_value (wallet_file s)) s1)
      as [Hf2 [d2 [Hd2 HP2]]].
    split; [congruence|]. split.
    + rewrite (since_app s _ (d2 ++ d)).
      * apply Forall_app. split; assumption.
      * rewrite Hd2, Hd. apply app_assoc.
    + split; [exact Hf|]. rewrite (since_app s s1 d Hd). exact HP'.
  - split; [exact Hf|].
    rewrite (since_app s s1 d Hd).
    split; [exact HP'|]. split; [exact Hf | exact HP'].
Qed.


(** X16. The manager of [part_000] is the manager of [wallet_manager.js]
    followed by the transfer step: the balance check and transfer over the
    wallets read from the file, or the last line after new wallets were
    created.  The manager of [wallet_manager.js] itself never transfers: it
    asks for no UTXOs, block or parameters and submits nothing.  The one
    throws exactly when the other does. *)
Theorem manageWallets_extends_wallet_manager (s : State) :
  manageWallets env s =
    bind (wallet_manager_manageWallets env)
      (fun _ => transfer_step env (file_value (wallet_file s))) s /\
  Forall no_transfer (since s (snd (wallet_manager_manageWallets env s))) /\
  (forall e,
     fst (manageWallets env s) = Throw e <->
     fst (wallet_manager_manageWallets env s) = Throw e).
Proof.
  split; [apply manageWallets_then_transfer_step|].
  split.
  - pose proof (load_lines_quiet (wallet_file s)) as Hl.
    assert (Hl' : Forall no_transfer (load_lines (wallet_file s))).
    { eapply Forall_impl; [|exact Hl]. intros ev [H _]. exact H. }
    destruct (file_value (wallet_file s)) as [|ws| |text] eqn:Hfv.
    + destruct (wallet_manager_fresh s Hfv)
        as [[e [d [Hrun [Hd _]]]] | [c1 [c2 H]]].
      * rewrite Hrun. simpl snd.
        rewrite (since_app s _
                   (ConsoleError (ErrorCreatingTestnetWallet e)
                      :: GenerateMnemonic 256 :: d
                      ++ ConsoleLog NoExistingWallets
                      :: load_lines (wallet_file s)
                      ++ [ConsoleLog CheckingWalletFile])).
        2:{ same_trace. }
        constructor; [exact I|]. constructor; [exact I|].
        apply Forall_app. split; [destruct Hd as [-> | ->]; repeat constructor|].
        constructor; [exact I|].
        apply Forall_app. split; [exact Hl' | repeat constructor].
      * cbv zeta in H. destruct H as [_ [_ [_ [_ [_ [_ Hrun]]]]]].
        rewrite Hrun. simpl snd.
        match goal with
        | |- context [save_lines env ?h ?ws] =>
            pose proof (save_lines_no_transfer h ws) as Hsave;
            rewrite (since_app s _
                       (created_lines (with_name c2 "Wallet 2") ++
                        created_lines (with_name c1 "Wallet 1") ++
                        save_lines env h ws ++
                        [GenerateMnemonic 256; GenerateMnemonic 256;
                         ConsoleLog NoExistingWallets]
                        ++ load_lines (wallet_file s)
                        ++ [ConsoleLog CheckingWalletFile]))
        end.
        2:{ same_trace. }
        repeat (apply Forall_app; split);
          [repeat constructor | repeat constructor | exact Hsave
          | repeat constructor | exact Hl' | repeat constructor].
    + destruct (wallet_manager_truthy s) as [_ [d [Hd HP]]];
        [rewrite Hfv; discriminate|].
      rewrite (since_app s _ d Hd).
      eapply Forall_impl; [|exact HP]. intros ev [H _]. exact H.
    + destruct (wallet_manager_truthy s) as [_ [d [Hd HP]]];
        [rewrite Hfv; discriminate|].
      rewrite (since_app s _ d Hd).
      eapply Forall_impl; [|exact HP]. intros ev [H _]. exact H.
    + destruct (wallet_manager_truthy s) as [_ [d [Hd HP]]];
        [rewrite Hfv; discriminate|].
      rewrite (since_app s _ d Hd).
      eapply Forall_impl; [|exact HP]. intros ev [H _]. exact H.
  - intros e. rewrite manageWallets_then_transfer_step. unfold bind.
    destruct (wallet_manager_manageWallets env s) as [[[] | e'] s1]; simpl.
    + rewrite transfer_step_returns. split; discriminate.
    + reflexivity.
Qed.

(** The run of either manager when no wallets can be read from the file and
    both mnemonics drawn are valid. *)
Lemma managers_create (s : State) :
  file_value (wallet_file s) = JsFalsy ->
  valid_generator env ->
  exists (c1 c2 : Wallet),
    let s0 :=
      {| trace := ConsoleLog NoExistingWallets :: trace (loaded s);
         wallet_file := wallet_file s |} in
    let wallets := [with_name c1 "Wallet 1"; with_name c2 "Wallet 2"] in
    let history := GenerateMnemonic 256 :: GenerateMnemonic 256 :: trace s0 in
    let done :=
      created_lines (with_name c2 "Wallet 2") ++
      created_lines (with_name c1 "Wallet 1") ++
      save_lines env history wallets ++
      [GenerateMnemonic 256; GenerateMnemonic 256;
       ConsoleLog NoExistingWallets] ++
      load_lines (wallet_file s) ++ [ConsoleLog CheckingWalletFile] in
    createTestnetWallet env None s0 = (Return c1, drawn s0) /\
    createTestnetWallet env None (drawn s0) = (Return c2, drawn (drawn s0)) /\
    mnemonic c1 = random_mnemonic env (trace s0) 256 /\
    mnemonic c2 = random_mnemonic env (GenerateMnemonic 256 :: trace s0) 256 /\
    type c1 = "Testnet Address" /\ type c2 = "Testnet Address" /\
    fst (wallet_manager_manageWallets env s) = Return tt /\
    wallet_file (snd (wallet_manager_manageWallets env s))
      = saved_file env history wallets /\
    since s (snd (wallet_manager_manageWallets env s)) = done /\
    fst (manageWallets env s) = Return tt /\
    wallet_file (snd (manageWallets env s)) = saved_file env history wallets /\
    since s (snd (manageWallets env s)) = ConsoleLog FundThemFirst :: done.
Proof.
  intros Hfv Hgen.
  destruct (wallet_manager_fresh s Hfv)
    as [[e [d [_ [Hd He]]]] | [c1 [c2 H]]].
  { exfalso.
    match type of He with
    | mnemonicToEntropy (random_mnemonic env ?h 256) = _ =>
        destruct (Hgen h) as [seed Hseed]
    end.
    congruence. }
  cbv zeta in H. destruct H as [H1 [H2 [Hm1 [Hm2 [Ht1 [Ht2 Hrun]]]]]].
  exists c1, c2. cbv zeta.
  split; [exact H1|]. split; [exact H2|].
  split; [exact Hm1|]. split; [exact Hm2|].
  split; [exact Ht1|]. split; [exact Ht2|].
  rewrite manageWallets_then_transfer_step, Hfv. unfold bind.
  rewrite Hrun. cbn [fst snd transfer_step console_log emit wallet_file].
  split; [reflexivity|]. split; [reflexivity|].
  split; [apply since_app; same_trace|].
  split; [reflexivity|]. split; [reflexivity|].
  apply since_app. same_trace.
Qed.


(** X17. Whenever no wallets can be read from the file, because it is
    absent, because its text does not parse, or because it parses to a
    falsy value such as [null], the manager (either version) with a valid
    random source creates two wallets from freshly drawn mnemonics and
    writes them to the file; when the write succeeds, what a present file
    held before is replaced by the two wallets. *)
Theorem manageWallets_replaces_unusable_file (s : State) :
  file_value (wallet_file s) = JsFalsy ->
  valid_generator env ->
  exists (c1 c2 : Wallet),
    let s0 :=
      {| trace := ConsoleLog NoExistingWallets :: trace (loaded s);
         wallet_file := wallet_file s |} in
    let wallets := [with_name c1 "Wallet 1"; with_name c2 "Wallet 2"] in
    let history := GenerateMnemonic 256 :: GenerateMnemonic 256 :: trace s0 in
    createTestnetWallet env None s0 = (Return c1, drawn s0) /\
    createTestnetWallet env None (drawn s0) = (Return c2, drawn (drawn s0)) /\
    mnemonic c1 = random_mnemonic env (trace s0) 256 /\
    mnemonic c2 = random_mnemonic env (GenerateMnemonic 256 :: trace s0) 256 /\
    fst (wallet_manager_manageWallets env s) = Return tt /\
    fst (manageWallets env s) = Return tt /\
    In (WriteFile (JSON_stringify wallets))
       (since s (snd (wallet_manager_manageWallets env s))) /\
    In (WriteFile (JSON_stringify wallets))
       (since s (snd (manageWallets env s))) /\
    (writeFileSync_answer env history (JSON_stringify wallets) = None ->
     wallet_file (snd (wallet_manager_manageWallets env s))
       = Some (JSON_stringify wallets) /\
     wallet_file (snd (manageWallets env s)) = Some (JSON_stringify wallets)).
Proof.
  intros Hfv Hgen.
  destruct (managers_create s Hfv Hgen) as [c1 [c2 H]].
  cbv zeta in H.
  destruct H as [H1 [H2 [Hm1 [Hm2 [_ [_ [Hwr [Hwf [Hws [Hmr [Hmf Hms]]]]]]]]]]].
  exists c1, c2. cbv zeta.
  split; [exact H1|]. split; [exact H2|].
  split; [exact Hm1|]. split; [exact Hm2|].
  split; [exact Hwr|]. split; [exact Hmr|].
  assert (Hin : forall h ws, In (WriteFile (JSON_stringify ws))
                               (save_lines env h ws)).
  { intros h ws. unfold save_lines.
    destruct (writeFileSync_answer env h (JSON_stringify ws))
      as [[error remains]|]; right; left; reflexivity. }
  split.
  { rewrite Hws. apply in_or_app. right. apply in_or_app. right.
    apply in_or_app. left. apply Hin. }
  split.
  { rewrite Hms. right. apply in_or_app. right. apply in_or_app. right.
    apply in_or_app. left. apply Hin. }
  intros Hok. rewrite Hwf, Hmf. unfold saved_file. rewrite Hok.
  split; reflexivity.
Qed.

(** X18. With a random source that hands out valid mnemonics, and a wallet
    file that is absent, does not parse, or parses to a falsy value or to
    an array of wallet objects, the manager (either version) ends without
    an exception, whatever Blockfrost answers and whether or not the
    wallets can be saved, and [main.js] prints the completion line. *)
Theorem manageWallets_completes (s : State) :
  valid_generator env ->
  (file_value (wallet_file s) = JsFalsy \/
   exists ws, file_value (wallet_file s) = JsWallets ws) ->
  fst (manageWallets env s) = Return tt /\
  fst (wallet_manager_manageWallets env s) = Return tt /\
  snd (main env s) = WalletManagementCompleted.
Proof.
  intros Hgen Hfile.
  assert (Hwm : fst (wallet_manager_manageWallets env s) = Return tt).
  { destruct Hfile as [Hfv | [ws Hfv]].
    - destruct (managers_create s Hfv Hgen) as [c1 [c2 H]].
      cbv zeta in H. destruct H as [_ [_ [_ [_ [_ [_ [Hwr _]]]]]]].
      exact Hwr.
    - destruct (wallet_manager_found s ws Hfv) as [d [Hrun _]].
      rewrite Hrun. reflexivity. }
  split.
  - rewrite manageWallets_then_transfer_step. unfold bind.
    destruct (wallet_manager_manageWallets env s) as [[[] | e'] s1];
      simpl in Hwm; [|discriminate].
    apply transfer_step_returns.
  - split; [exact Hwm|].
    unfold main.
    destruct (wallet_manager_manageWallets env s) as [[[] | e'] s1];
      simpl in Hwm; [reflexivity | discriminate].
Qed.

(** X19. When [main.js] reports an error the wallet file was not written,
    and the error has one of three causes.  No wallets could be read from
    the file and bip39 rejected a mnemonic the random source handed out:
    the error is the one bip39 gave, and the last thing printed is the
    "error creating testnet wallet" line with it.  Or the file holds a
    truthy value that cannot be iterated: the error is the [TypeError] of
    the loop, thrown right after the "found existing wallets" line.  Or
    the file holds a value that can be iterated and is not an array of
    wallet objects, and the error was thrown while showing it. *)
Theorem main_error_causes (s : State) (e : JsError) :
  snd (main env s) = ErrorRunningWalletManager e ->
  wallet_file (fst (main env s)) = wallet_file s /\
  (forall data, ~ In (WriteFile data) (since s (fst (main env s)))) /\
  ((file_value (wallet_file s) = JsFalsy /\
    (exists history,
       mnemonicToEntropy (random_mnemonic env history 256) = inl e) /\
    hd_error (since s (fst (main env s)))
      = Some (ConsoleError (ErrorCreatingTestnetWallet e))) \/
   (file_value (wallet_file s) = JsNotIterable /\
    e = not_iterable /\
    hd_error (since s (fst (main env s)))
      = Some (ConsoleLog FoundExistingWallets)) \/
   (exists text,
      file_value (wallet_file s) = JsOther text /\
      snd (display_answer env
             (ConsoleLog FoundExistingWallets :: trace (loaded s)) text)
        = Some e)).
Proof.
  unfold main. intros Herr.
  destruct (file_value (wallet_file s)) as [|ws| |text] eqn:Hfv.
  - destruct (wallet_manager_fresh s Hfv)
      as [[e' [d [Hrun [Hd He]]]] | [c1 [c2 H]]].
    2:{ cbv zeta in H. destruct H as [_ [_ [_ [_ [_ [_ Hrun]]]]]].
        rewrite Hrun in Herr. discriminate Herr. }
    rewrite Hrun in Herr |- *. simpl in Herr.
    injection Herr as ->. simpl fst.
    rewrite (since_app s _
               (ConsoleError (ErrorCreatingTestnetWallet e)
                  :: GenerateMnemonic 256 :: d
                  ++ ConsoleLog NoExistingWallets
                  :: load_lines (wallet_file s)
                  ++ [ConsoleLog CheckingWalletFile])).
    2:{ same_trace. }
    split; [reflexivity|]. split.
    + intros data Hin.
      pose proof (load_lines_quiet (wallet_file s)) as Hl.
      rewrite Forall_forall in Hl.
      destruct Hin as [Hin | [Hin | Hin]]; try discriminate Hin.
      apply in_app_or in Hin. destruct Hin as [Hin | [Hin | Hin]].
      * destruct Hd as [-> | ->]; simpl in Hin;
          repeat (destruct Hin as [Hin | Hin]; [discriminate Hin|]);
          exact Hin.
      * discriminate Hin.
      * apply in_app_or in Hin. destruct Hin as [Hin | [Hin | []]].
        -- destruct (Hl _ Hin) as [_ Hk]. exact Hk.
        -- discriminate Hin.
    + left. split; [reflexivity|]. split; [eexists; exact He | reflexivity].
  - destruct (wallet_manager_found s ws Hfv) as [d [Hrun _]].
    rewrite Hrun in Herr. simpl in Herr. discriminate.
  - rewrite (wallet_manager_not_iterable s Hfv) in Herr |- *.
    simpl in Herr. injection Herr as <-. simpl fst.
    rewrite (since_app s _
               (ConsoleLog FoundExistingWallets
                  :: load_lines (wallet_file s)
                  ++ [ConsoleLog CheckingWalletFile])).
    2:{ same_trace. }
    split; [reflexivity|]. split.
    + intros data Hin.
      pose proof (load_lines_quiet (wallet_file s)) as Hl.
      rewrite Forall_forall in Hl.
      destruct Hin as [Hin | Hin]; [discriminate Hin|].
      apply in_app_or in Hin. destruct Hin as [Hin | [Hin | []]].
      * destruct (Hl _ Hin) as [_ Hk]. exact Hk.
      * discriminate Hin.
    + right. left. split; [reflexivity|]. split; reflexivity.
  - destruct (wallet_manager_truthy s) as [Hf [d [Hd HP]]];
      [rewrite Hfv; discriminate|].
    rewrite (wallet_manager_other s text Hfv) in Herr, Hf, Hd |- *.
    unfold show_other in Herr, Hf, Hd |- *.
    destruct (display_answer env
                (trace {| trace := ConsoleLog FoundExistingWallets
                                     :: trace (loaded s);
                          wallet_file := wallet_file s |}) text)
      as [events error] eqn:Hans.
    destruct error as [e'|]; simpl in Herr; [|discriminate].
    injection Herr as ->. simpl fst. simpl in Hf, Hd.
    split; [reflexivity|]. split.
    + intros data Hin.
      match type of Hin with
      | In _ (since s ?s1) => rewrite (since_app s s1 d) in Hin by exact Hd
      end.
      rewrite Forall_forall in HP. destruct (HP _ Hin) as [_ Hk]. exact Hk.
    + right. right. exists text. split; [reflexivity|].
      cbn [trace] in Hans. rewrite Hans. reflexivity.
Qed.

(** X23. When the wallet file holds a truthy value that cannot be iterated,
    such as the object [{}], the manager (either version) prints that it
    found wallets and throws the [TypeError] of its loop: it looks no
    balance up, creates no wallet, leaves the file as it is, and [main.js]
    prints its error line. *)
Theorem manageWallets_not_iterable (s : State) :
  file_value (wallet_file s) = JsNotIterable ->
  manageWallets env s = wallet_manager_manageWallets env s /\
  fst (manageWallets env s) = Throw not_iterable /\
  wallet_file (snd (manageWallets env s)) = wallet_file s /\
  since s (snd (manageWallets env s)) =
    ConsoleLog FoundExistingWallets
      :: load_lines (wallet_file s) ++ [ConsoleLog CheckingWalletFile] /\
  snd (main env s) = ErrorRunningWalletManager not_iterable.
Proof.
  intros Hfv.
  assert (Hsame : manageWallets env s = wallet_manager_manageWallets env s).
  { rewrite manageWallets_then_transfer_step. unfold bind.
    rewrite (wallet_manager_not_iterable s Hfv). reflexivity. }
  split; [exact Hsame|]. rewrite Hsame. unfold main.
  rewrite (wallet_manager_not_iterable s Hfv). cbn [fst snd wallet_file].
  split; [reflexivity|]. split; [reflexivity|].
  split; [apply since_app; same_trace | reflexivity].
Qed.

(** With an API key the loop over the wallets found asks for every balance
    once, in the order of the list. *)
Lemma show_wallet_query (w : Wallet) (s : State) :
  projectId env <> EmptyString ->
  exists (d : list Event),
    show_wallet env w s =
    (Return tt, {| trace := d ++ trace s; wallet_file := wallet_file s |}) /\
    address_queries d = [address w].
Proof.
  intros Hid. unfold show_wallet, bind, console_log, emit.
  match goal with
  | |- context [fetchBalance env (address w) ?s0] =>
      destruct (fetchBalance_one_query env (address w) s0 Hid)
        as [b [d0 [Hrun Hq]]]
  end.
  rewrite Hrun.
  exists (ConsoleLog (BalanceLine b) :: d0 ++
            [ConsoleLog (AddressLine (address w));
             ConsoleLog (WalletLine (or_default (name w) "Unnamed wallet"))]).
  split.
  - f_equal. f_equal. same_trace.
  - change (address_queries (?x :: ?l)) with (address_queries ([x] ++ l)).
    rewrite !address_queries_app, Hq. reflexivity.
Qed.

Lemma show_wallets_queries (ws : list Wallet) :
  projectId env <> EmptyString ->
  forall (s : State),
  exists (d : list Event),
    for_of ws (show_wallet env) s =
    (Return tt, {| trace := d ++ trace s; wallet_file := wallet_file s |}) /\
    address_queries d = rev (map address ws).
Proof.
  intros Hid.
  induction ws as [|w rest IH]; intros s; simpl.
  - exists []. split; [destruct s; reflexivity | reflexivity].
  - unfold bind at 1.
    destruct (show_wallet_query w s Hid) as [d0 [Hrun Hq]]. rewrite Hrun.
    match goal with
    | |- context [for_of rest (show_wallet env) ?s1] =>
        destruct (IH s1) as [d [Hd Hqs]]
    end.
    rewrite Hd. exists (d ++ d0). split.
    + f_equal. f_equal. same_trace.
    + rewrite address_queries_app, Hq, Hqs. reflexivity.
Qed.

Lemma load_lines_no_query (file : option string) :
  address_queries (load_lines file) = [].
Proof.
  unfold load_lines. destruct file as [data|]; [|reflexivity].
  destruct (JSON_parse data); reflexivity.
Qed.

(** X20. With an API key and two wallets or more in the file, one run of
    the manager of [part_000] asks Blockfrost for the balance of every
    wallet twice, once to show it and once more for the balance check, each
    time in the order of the file; the manager of [wallet_manager.js] asks
    once. *)
Theorem manageWallets_asks_balances_twice (s : State) (ws : list Wallet) :
  projectId env <> EmptyString ->
  file_value (wallet_file s) = JsWallets ws ->
  (2 <= List.length ws)%nat ->
  address_queries (since s (snd (wallet_manager_manageWallets env s)))
    = rev (map address ws) /\
  address_queries (since s (snd (manageWallets env s)))
    = rev (map address ws) ++ rev (map address ws).
Proof.
  intros Hid Hfv Hlen.
  assert (Hwm : exists d,
             wallet_manager_manageWallets env s =
             (Return tt,
              {| trace := d ++ ConsoleLog FoundExistingWallets
                            :: trace (loaded s);
                 wallet_file := wallet_file s |}) /\
             address_queries d = rev (map address ws)).
  { unfold wallet_manager_manageWallets. rewrite manager_start, Hfv.
    unfold bind at 1, console_log at 1, emit.
    match goal with
    | |- context [for_of ws (show_wallet env) ?s1] =>
        destruct (show_wallets_queries ws Hid s1) as [d [Hd Hq]]
    end.
    exists d. split; [exact Hd | exact Hq]. }
  destruct Hwm as [d [Hrun Hq]].
  assert (Hsince : address_queries
                     (d ++ ConsoleLog FoundExistingWallets
                        :: load_lines (wallet_file s)
                        ++ [ConsoleLog CheckingWalletFile])
                   = rev (map address ws)).
  { rewrite address_queries_app.
    change (address_queries (?x :: ?l)) with (address_queries ([x] ++ l)).
    rewrite !address_queries_app, load_lines_no_query, Hq. simpl.
    apply app_nil_r. }
  split.
  - rewrite Hrun. simpl snd.
    rewrite (since_app s _
               (d ++ ConsoleLog FoundExistingWallets
                  :: load_lines (wallet_file s)
                  ++ [ConsoleLog CheckingWalletFile])).
    2:{ same_trace. }
    exact Hsince.
  - rewrite manageWallets_then_transfer_step, Hfv. unfold bind at 1.
    rewrite Hrun. unfold transfer_step, bind.
    match goal with
    | |- context [balanceCheckAndTransfer env ws ?s1] =>
        destruct (balanceCheckAndTransfer_queries env ws s1 Hid Hlen)
          as [dB [HdB HqB]];
        destruct (balanceCheckAndTransfer env ws s1) as [[b | e] s2]
    end; simpl in HdB |- *.
    + rewrite (since_app s _
                 (dB ++ d ++ ConsoleLog FoundExistingWallets
                     :: load_lines (wallet_file s)
                     ++ [ConsoleLog CheckingWalletFile])).
      2:{ rewrite HdB. same_trace. }
      rewrite address_queries_app, HqB, Hsince. reflexivity.
    + rewrite (since_app s _
                 (dB ++ d ++ ConsoleLog FoundExistingWallets
                     :: load_lines (wallet_file s)
                     ++ [ConsoleLog CheckingWalletFile])).
      2:{ rewrite HdB. same_trace. }
      rewrite address_queries_app, HqB, Hsince. reflexivity.
Qed.

(** X21. [createTestnetWallet] throws exactly when bip39 rejects the
    mnemonic it works with, and what it throws is the error bip39 gave,
    after printing it; the wallet file is not touched.  An empty string
    passed as mnemonic counts as none: a fresh mnemonic is drawn. *)
Theorem createTestnetWallet_throws_bip39_error (m : option string)
    (s : State) :
  createTestnetWallet env (Some EmptyString) s
    = createTestnetWallet env None s /\
  (forall e,
     fst (createTestnetWallet env m s) = Throw e <->
     mnemonicToEntropy (mnemonic_used env m s) = inl e) /\
  (forall e,
     fst (createTestnetWallet env m s) = Throw e ->
     hd_error (since s (snd (createTestnetWallet env m s)))
       = Some (ConsoleError (ErrorCreatingTestnetWallet e)) /\
     wallet_file (snd (createTestnetWallet env m s)) = wallet_file s).
Proof.
  split; [reflexivity|].
  unfold mnemonic_used.
  destruct (falsy m) eqn:Hm.
  - assert (Hnone : createTestnetWallet env m s
                    = createTestnetWallet env None s).
    { destruct m as [str|]; [|reflexivity].
      simpl in Hm. apply String.eqb_eq in Hm. subst str. reflexivity. }
    rewrite Hnone.
    destruct (mnemonicToEntropy (random_mnemonic env (trace s) 256))
      as [e' | seed] eqn:He.
    + rewrite (createTestnetWallet_generated_invalid s e' He). simpl.
      split.
      * intros e. split; intros H; injection H as ->; reflexivity.
      * intros e H. injection H as ->.
        split; [eval_since; reflexivity | reflexivity].
    + rewrite (createTestnetWallet_generated env s seed He). simpl.
      split; [intros e; split; discriminate | intros e; discriminate].
  - destruct m as [str|]; [|discriminate Hm].
    simpl in Hm. simpl or_default. rewrite Hm.
    unfold createTestnetWallet, try_catch, bind, console_error, emit.
    unfold falsy, or_default. rewrite !Hm. unfold ret, lift. simpl.
    destruct (mnemonicToEntropy str) as [e' | seed]; simpl.
    + split.
      * intros e. split; intros H; injection H as ->; reflexivity.
      * intros e H. injection H as ->.
        split; [eval_since; reflexivity | reflexivity].
    + split; [intros e; split; discriminate | intros e; discriminate].
Qed.

End ManagerOutcomes.


(** ** The transfer in numbers *)

Section TransferNumbers.
Context {B39 : Bip39} {CT : CardanoTypes} {CW : CardanoWasm}.
Variable env : Env.

Arguments sum_lovelace : simpl never.
Arguments sum_coins : simpl never.

Lemma Number_of_Z_safe (z : Z) :
  - 2 ^ 53 <= z <= 2 ^ 53 -> Number_of_Z z = z.
Proof.
  intros H. unfold Number_of_Z.
  destruct (Z.abs z <=? 2 ^ 53) eqn:E; [reflexivity|].
  apply Z.leb_gt in E. lia.
Qed.

(** The total of a prefix the loop gets to the end of is a safe
    integer. *)
Lemma safe_lovelace_prefix (utxos : list Utxo) :
  forall (total threshold : Z) (k : nat),
    safe_lovelace utxos total threshold ->
    (0 < k <= List.length utxos)%nat ->
    (forall j, (0 < j < k)%nat ->
               total + sum_lovelace (firstn j utxos) < threshold) ->
    Z.abs (total + sum_lovelace (firstn k utxos)) <= 2 ^ 53.
Proof.
  induction utxos as [|u rest IH]; intros total threshold k Hsafe Hk Hmin;
    [simpl in Hk; lia|].
  destruct Hsafe as [_ [Htotal Hrest]].
  destruct k as [|k]; [lia|].
  destruct k as [|k].
  - simpl. rewrite sum_lovelace_cons, sum_lovelace_nil, Z.add_0_r.
    exact Htotal.
  - assert (Hlow : total + lovelace_of (utxo_amount u) < threshold).
    { specialize (Hmin 1%nat ltac:(lia)). simpl in Hmin.
      rewrite sum_lovelace_cons, sum_lovelace_nil, Z.add_0_r in Hmin.
      exact Hmin. }
    change (firstn (S (S k)) (u :: rest)) with (u :: firstn (S k) rest).
    rewrite sum_lovelace_cons, Z.add_assoc.
    apply (IH _ threshold); [exact (Hrest Hlow) | simpl in Hk; lia|].
    intros j Hj. specialize (Hmin (S j) ltac:(lia)).
    change (firstn (S j) (u :: rest)) with (u :: firstn j rest) in Hmin.
    rewrite sum_lovelace_cons, Z.add_assoc in Hmin. exact Hmin.
Qed.

(** Within the safe integers the loop in numbers is the loop in
    integers. *)
Lemma select_inputs_js_safe (utxos : list Utxo) :
  forall (acc : list TransactionInput) (total threshold : Z),
    safe_lovelace utxos total threshold ->
    select_inputs_js utxos acc total threshold
    = select_inputs utxos acc total threshold.
Proof.
  induction utxos as [|u rest IH]; intros acc total threshold Hsafe;
    simpl; [reflexivity|].
  destruct (TransactionHash_from_bytes (Buffer_from_hex (tx_hash u)));
    [reflexivity|].
  destruct Hsafe as [Hu [Htotal Hrest]].
  unfold Number_add, parseInt.
  rewrite (Number_of_Z_safe (lovelace_of (utxo_amount u))) by lia.
  rewrite Number_of_Z_safe by lia.
  destruct (total + lovelace_of (utxo_amount u) >=? threshold) eqn:Hge;
    [reflexivity|].
  apply IH. apply Hrest.
  rewrite Z.geb_leb in Hge. apply Z.leb_gt in Hge. exact Hge.
Qed.

Lemma BigNum_from_Number_safe (x : Z) (c : BigNum) :
  x <= 2 ^ 53 -> BigNum_from_Number x = inr c -> c = x /\ 0 <= x.
Proof.
  intros Hmax. unfold BigNum_from_Number, Number_digits.
  destruct (x <? 0) eqn:Hneg; [discriminate|].
  apply Z.ltb_ge in Hneg.
  destruct (10 ^ 21 <=? x); [discriminate|].
  destruct (x <=? 2 ^ 53) eqn:Hsafe; [|apply Z.leb_gt in Hsafe; lia].
  unfold BigNum_from_str.
  destruct ((0 <=? x) && (x <? 2 ^ 64)); [|discriminate].
  intros H. injection H as <-. split; [reflexivity | exact Hneg].
Qed.

Lemma BigNum_from_Number_nonneg (x : Z) (c : BigNum) :
  BigNum_from_Number x = inr c -> 0 <= x.
Proof.
  unfold BigNum_from_Number, Number_digits.
  destruct (x <? 0) eqn:Hneg; [discriminate|].
  apply Z.ltb_ge in Hneg. intros _. exact Hneg.
Qed.

Lemma BigNum_from_Number_feeBuffer :
  BigNum_from_Number feeBuffer = inr feeBuffer.
Proof. reflexivity. Qed.

(** A transaction is submitted only at the end of the one path through
    [sendAda_js] on which everything before succeeded. *)
Lemma sendAda_js_submit_inv (w : Wallet) (recv : string) (amt : Q)
    (s : State) (b : Bytes) :
  In (BlockfrostTxSubmit b) (since s (snd (sendAda_js env w recv amt s))) ->
  exists seed utxos txInputs total recipientAddress recipientCoin change
         latestBlock,
    let amountLovelace := to_lovelace_js amt in
    let threshold := Number_add amountLovelace feeBuffer in
    let changeAmount :=
      Number_sub (Number_sub total amountLovelace) feeBuffer in
    let accountKey :=
      derive (derive (derive (from_bip39_entropy (Buffer_from_hex seed) [])
                             (hardened 1852)) (hardened 1815)) (hardened 0) in
    let asked :=
      BlockfrostAddressesUtxos (address w)
        :: ConsoleLog (AttemptingToSend amt (name w) recv) :: trace s in
    let txBody :=
      {| inputs := txInputs;
         outputs :=
           {| output_address := recipientAddress;
              output_amount := {| coin := recipientCoin |} |} :: change;
         fee := feeBuffer;
         ttl := Some (Number_add (slot latestBlock) 10000) |} in
    mnemonicToEntropy (mnemonic w) = inr seed /\
    addressesUtxos_answer env
      (ConsoleLog (AttemptingToSend amt (name w) recv) :: trace s) (address w)
      = inr utxos /\
    utxos <> [] /\
    select_inputs_js utxos [] 0 threshold = inr (txInputs, total) /\
    threshold <= total /\
    BigNum_from_Number amountLovelace = inr recipientCoin /\
    from_bech32 recv = inr recipientAddress /\
    ((0 < changeAmount /\
      exists senderAddress changeCoin,
        from_bech32 (address w) = inr senderAddress /\
        BigNum_from_Number changeAmount = inr changeCoin /\
        change =
        [{| output_address := senderAddress;
            output_amount := {| coin := changeCoin |} |}]) \/
     (changeAmount <= 0 /\ change = [])) /\
    blocksLatest_answer env asked = inr latestBlock /\
    b = to_bytes
          {| body := txBody;
             witness_set :=
               {| vkeys :=
                    Some [make_vkey_witness (hash_transaction txBody)
                            (to_raw_key (derive (derive accountKey 0) 0))] |};
             auxiliary_data := None |}.
Proof.
  unfold sendAda_js, try_catch, bind, console_log, console_error, emit.
  unfold getPrivateKeyFromMnemonic, try_catch, bind, console_error, emit.
  cbn [fst snd trace wallet_file].
  destruct (mnemonicToEntropy (mnemonic w)) as [e | seed] eqn:Hseed;
    cbn [lift fst snd trace wallet_file ret].
  { intros H. no_submission H. }
  unfold blockfrost_addressesUtxos, ask. cbn [fst snd trace wallet_file].
  destruct (addressesUtxos_answer env _ (address w)) as [e | utxos] eqn:Hutxos.
  { intros H. no_submission H. }
  destruct utxos as [|u rest] eqn:Hlist.
  { intros H. no_submission H. }
  rewrite <- Hlist in *.
  assert (Hne : utxos <> []) by (rewrite Hlist; discriminate).
  clear Hlist u rest.
  destruct (select_inputs_js utxos [] 0
              (Number_add (to_lovelace_js amt) feeBuffer))
    as [e | [txInputs total]] eqn:Hsel;
    cbn [lift fst snd trace wallet_file ret].
  { intros H. no_submission H. }
  destruct (total <? Number_add (to_lovelace_js amt) feeBuffer) eqn:Hlow;
    cbn [lift fst snd trace wallet_file ret].
  { intros H. no_submission H. }
  apply Z.ltb_ge in Hlow.
  destruct (from_bech32 recv) as [e | recipientAddress] eqn:Hrecv;
    cbn [lift fst snd trace wallet_file ret].
  { intros H. no_submission H. }
  destruct (BigNum_from_Number (to_lovelace_js amt))
    as [e | recipientCoin] eqn:Hamt;
    cbn [lift fst snd trace wallet_file ret].
  { intros H. no_submission H. }
  rewrite BigNum_from_Number_feeBuffer.
  destruct (Number_sub (Number_sub total (to_lovelace_js amt)) feeBuffer >? 0)
    eqn:Hchange; cbn [lift fst snd trace wallet_file ret].
  - destruct (from_bech32 (address w)) as [e | senderAddress] eqn:Hsender;
      cbn [lift fst snd trace wallet_file ret].
    { intros H. no_submission H. }
    destruct (BigNum_from_Number
                (Number_sub (Number_sub total (to_lovelace_js amt)) feeBuffer))
      as [e | changeCoin] eqn:Hcoin;
      cbn [lift fst snd trace wallet_file ret].
    { intros H. no_submission H. }
    unfold blockfrost_blocksLatest, ask; cbn [fst snd trace wallet_file].
    destruct (blocksLatest_answer env _) as [e | latestBlock] eqn:Hblock;
      cbn [lift fst snd trace wallet_file ret].
    { intros H. no_submission H. }
    unfold blockfrost_epochsParameters, ask; cbn [fst snd trace wallet_file].
    destruct (epochsParameters_answer env _ _) as [e | params];
      cbn [lift fst snd trace wallet_file ret].
    { intros H. no_submission H. }
    unfold blockfrost_txSubmit, ask; cbn [fst snd trace wallet_file app].
    intros H.
    exists seed, utxos, txInputs, total, recipientAddress, recipientCoin,
      [{| output_address := senderAddress;
          output_amount := {| coin := changeCoin |} |}],
      latestBlock.
    cbv zeta.
    repeat (split; [first [assumption | reflexivity]|]).
    split.
    { left. split; [apply Z.gtb_lt in Hchange; lia|].
      exists senderAddress, changeCoin.
      repeat split; first [assumption | reflexivity]. }
    split; [first [assumption | reflexivity]|].
    destruct (txSubmit_answer env _ _); cbn [fst snd trace wallet_file] in H;
      eval_since_in H; simpl in H;
      repeat (destruct H as [H | H];
              [first [discriminate H | injection H as <-; reflexivity]|]);
      contradiction.
  - unfold blockfrost_blocksLatest, ask; cbn [fst snd trace wallet_file].
    destruct (blocksLatest_answer env _) as [e | latestBlock] eqn:Hblock;
      cbn [lift fst snd trace wallet_file ret].
    { intros H. no_submission H. }
    unfold blockfrost_epochsParameters, ask; cbn [fst snd trace wallet_file].
    destruct (epochsParameters_answer env _ _) as [e | params];
      cbn [lift fst snd trace wallet_file ret].
    { intros H. no_submission H. }
    unfold blockfrost_txSubmit, ask; cbn [fst snd trace wallet_file app].
    intros H.
    exists seed, utxos, txInputs, total, recipientAddress, recipientCoin,
      [], latestBlock.
    cbv zeta.
    repeat (split; [first [assumption | reflexivity]|]).
    split.
    { right. split; [|reflexivity].
      rewrite Z.gtb_ltb in Hchange. apply Z.ltb_ge in Hchange. lia. }
    split; [first [assumption | reflexivity]|].
    destruct (txSubmit_answer env _ _); cbn [fst snd trace wallet_file] in H;
      eval_since_in H; simpl in H;
      repeat (destruct H as [H | H];
              [first [discriminate H | injection H as <-; reflexivity]|]);
      contradiction.
Qed.

(** What a submitted transaction holds when the numbers the program met
    are safe integers: its arithmetic was exact. *)
Lemma sendAda_js_submit_safe (w : Wallet) (recv : string) (amt : Q)
    (s : State) (b : Bytes) (utxos : list Utxo) :
  addressesUtxos_answer env
    (ConsoleLog (AttemptingToSend amt (name w) recv) :: trace s) (address w)
    = inr utxos ->
  safe_lovelace utxos 0 (to_lovelace_js amt + feeBuffer) ->
  to_lovelace_js amt + feeBuffer <= 2 ^ 53 ->
  In (BlockfrostTxSubmit b) (since s (snd (sendAda_js env w recv amt s))) ->
  exists (k : nat) (txInputs : list TransactionInput)
         (recipientAddress : Address) (change : list TransactionOutput)
         (ttl : option Z) (witnesses : TransactionWitnessSet),
    let amountLovelace := to_lovelace_js amt in
    let total := sum_lovelace (firstn k utxos) in
    (0 < k <= List.length utxos)%nat /\
    Forall2 input_of (firstn k utxos) txInputs /\
    amountLovelace + feeBuffer <= total /\
    (forall j, (0 < j < k)%nat ->
               sum_lovelace (firstn j utxos) < amountLovelace + feeBuffer) /\
    0 <= amountLovelace /\
    from_bech32 recv = inr recipientAddress /\
    ((0 < total - amountLovelace - feeBuffer /\
      exists senderAddress,
        from_bech32 (address w) = inr senderAddress /\
        change =
        [{| output_address := senderAddress;
            output_amount :=
              {| coin := total - amountLovelace - feeBuffer |} |}]) \/
     (total - amountLovelace - feeBuffer <= 0 /\ change = [])) /\
    b = to_bytes
          {| body :=
               {| inputs := txInputs;
                  outputs :=
                    {| output_address := recipientAddress;
                       output_amount := {| coin := amountLovelace |} |}
                    :: change;
                  fee := feeBuffer;
                  ttl := ttl |};
             witness_set := witnesses;
             auxiliary_data := None |}.
Proof.
  intros Hutxos Hsafe Hthr H.
  apply sendAda_js_submit_inv in H.
  destruct H as [seed [utxos' [txInputs [total [recipientAddress
    [recipientCoin [change [latestBlock H]]]]]]]].
  cbv zeta in H.
  destruct H as [Hseed [Hutxos' [Hne [Hsel [Hlow [Hamt [Hrecv [Hchange
    [Hblock Hb]]]]]]]]].
  rewrite Hutxos in Hutxos'. injection Hutxos' as <-.
  assert (Hp : 0 < 2 ^ 53) by reflexivity.
  unfold feeBuffer in *.
  pose proof (BigNum_from_Number_nonneg _ _ Hamt) as Hamt0.
  apply BigNum_from_Number_safe in Hamt; [|lia].
  destruct Hamt as [-> _].
  unfold Number_add in Hsel, Hlow.
  rewrite Number_of_Z_safe in Hsel, Hlow by lia.
  rewrite select_inputs_js_safe in Hsel by exact Hsafe.
  apply select_inputs_prefix in Hsel.
  destruct Hsel as [k [sel [Hk [Hins [Hall [Htot [Hmin [Hpos _]]]]]]]].
  simpl in Hins. subst txInputs. rewrite Z.add_0_l in Htot. subst total.
  specialize (Hpos Hne).
  pose proof (safe_lovelace_prefix utxos 0 _ k Hsafe
                (conj Hpos Hk) Hmin) as Hbound.
  rewrite Z.add_0_l in Hbound.
  unfold Number_sub in Hchange.
  rewrite (Number_of_Z_safe
             (sum_lovelace (firstn k utxos) - to_lovelace_js amt))
    in Hchange by lia.
  rewrite Number_of_Z_safe in Hchange by lia.
  exists k, sel, recipientAddress, change. eexists. eexists. cbv zeta.
  split; [lia|].
  split; [exact Hall|]. split; [exact Hlow|].
  split; [intros j Hj; specialize (Hmin j Hj); lia|].
  split; [exact Hamt0|]. split; [exact Hrecv|].
  split; [|exact Hb].
  destruct Hchange as [[Hc [senderAddress [changeCoin [Hs [Hcoin ->]]]]]
                      | [Hc ->]].
  - left. split; [exact Hc|].
    apply BigNum_from_Number_safe in Hcoin; [|lia].
    destruct Hcoin as [-> _].
    exists senderAddress. split; [exact Hs | reflexivity].
  - right. split; [exact Hc | reflexivity].
Qed.



End TransferNumbers.


(** ** The theorems at work on the reference instance *)

Section Runs_on_reference.
Import Reference Scenarios.
#[local] Existing Instance bip39.
#[local] Existing Instance types.
#[local] Existing Instance wasm.
#[local] Existing Instance json.

Lemma reference_valid_generator : valid_generator funded.
Proof.
  intros history. unfold funded, random_mnemonic.
  destruct (count_generated history =? 0)%nat; eexists; reflexivity.
Defined.

Lemma reference_submission :
  In (BlockfrostTxSubmit submitted_bytes)
     (since no_file (snd (sendAda funded sender receiver 1 no_file))).
Proof. vm_compute. tauto. Defined.





(** C3 on the underfunded network: 500,000 lovelace cannot pay 1 ADA plus
    the fee buffer, and [sendAda] returns [false] before building
    anything. *)
Lemma sendAda_insufficient_funds_witness :
  addressesUtxos_answer underfunded
    (ConsoleLog (AttemptingToSend 1 (name sender) receiver) :: trace no_file)
    (address sender) = inr small_utxos /\
  (forall j, (0 < j <= List.length small_utxos)%nat ->
             sum_lovelace (firstn j small_utxos) < to_lovelace 1 + feeBuffer) /\
  fst (sendAda underfunded sender receiver 1 no_file) = Return false /\
  Forall before_building
    (since no_file (snd (sendAda underfunded sender receiver 1 no_file))).
Proof.
  assert (H1 : addressesUtxos_answer underfunded
                 (ConsoleLog (AttemptingToSend 1 (name sender) receiver)
                    :: trace no_file)
                 (address sender) = inr small_utxos) by reflexivity.
  assert (H2 : forall j, (0 < j <= List.length small_utxos)%nat ->
                 sum_lovelace (firstn j small_utxos)
                 < to_lovelace 1 + feeBuffer).
  { intros j Hj. destruct j as [|[|[|j]]]; simpl in Hj; try lia;
      vm_compute; reflexivity. }
  split; [exact H1|]. split; [exact H2|].
  destruct (sendAda_insufficient_funds underfunded sender receiver 1 no_file
              small_utxos H1 H2) as [Hfalse [_ [Hquiet _]]].
  split; [exact Hfalse | exact Hquiet].
Defined.

(** C4 on the reference instance: one mnemonic, two networks, two states,
    one wallet. *)
Lemma createTestnetWallet_deterministic_witness :
  mnemonicToEntropy "abandon ability" = inr (hex_of_string "abandon ability") /\
  exists w : Wallet,
    createTestnetWallet funded (Some "abandon ability") no_file
      = (Return w, no_file) /\
    createTestnetWallet underfunded (Some "abandon ability") empty_file
      = (Return w, empty_file).
Proof.
  assert (H : mnemonicToEntropy "abandon ability"
              = inr (hex_of_string "abandon ability")) by reflexivity.
  split; [exact H|].
  destruct (createTestnetWallet_deterministic funded underfunded no_file
              empty_file "abandon ability" (hex_of_string "abandon ability")
              H)
    as [w [accountKey [H1 [H2 _]]]].
  exists w. split; [exact H1 | exact H2].
Defined.

(** C5 on the funded network: one witness, over the hash of the body. *)
Lemma sendAda_one_witness_over_body_witness :
  In (BlockfrostTxSubmit submitted_bytes)
     (since no_file (snd (sendAda funded sender receiver 1 no_file))) /\
  exists (tx : Transaction) (accountKey : Bip32PrivateKey),
    submitted_bytes = to_bytes tx /\
    vkeys (witness_set tx) =
      Some [make_vkey_witness (hash_transaction (body tx))
              (to_raw_key (derive (derive accountKey 0) 0))] /\
    auxiliary_data tx = None.
Proof.
  split; [exact reference_submission|].
  destruct (sendAda_one_witness_over_body funded sender receiver 1 no_file
              submitted_bytes reference_submission)
    as [tx [accountKey [Hb [_ [Hw Haux]]]]].
  exists tx, accountKey.
  split; [exact Hb|]. split; [exact Hw | exact Haux].
Defined.

(** C6 on the funded network: the latest block is at slot 5,000,000 and
    the upper validity slot is 5,010,000. *)
Lemma sendAda_ttl_is_slot_plus_10000_witness :
  In (BlockfrostTxSubmit submitted_bytes)
     (since no_file (snd (sendAda funded sender receiver 1 no_file))) /\
  exists tx : Transaction,
    submitted_bytes = to_bytes tx /\ ttl (body tx) = Some 5010000.
Proof.
  split; [exact reference_submission|].
  destruct (sendAda_ttl_is_slot_plus_10000 funded sender receiver 1 no_file
              submitted_bytes reference_submission)
    as [tx [latestBlock [Hb [Hblock Httl]]]].
  exists tx. split; [exact Hb|].
  injection Hblock as <-. exact Httl.
Defined.

(** C7 on the funded network: a server error on the balance query gives
    the zero balance and a line on the error console. *)
Lemma fetchBalance_zero_on_any_failure_witness :
  projectId funded <> EmptyString /\
  addresses_answer funded (trace no_file) "addr_test1[x]"
    = inl (BlockfrostError 500 "Internal Server Error") /\
  fst (fetchBalance funded "addr_test1[x]" no_file) = Return zero_balance /\
  since no_file (snd (fetchBalance funded "addr_test1[x]" no_file)) =
  [ConsoleError
     (ErrorFetchingBalance "addr_test1[x]"
        (BlockfrostError 500 "Internal Server Error"));
   BlockfrostAddresses "addr_test1[x]"].
Proof.
  assert (H : projectId funded <> EmptyString) by discriminate.
  assert (H500 : addresses_answer funded (trace no_file) "addr_test1[x]"
                 = inl (BlockfrostError 500 "Internal Server Error"))
    by reflexivity.
  split; [exact H|]. split; [exact H500|].
  destruct (proj1 (proj2 (fetchBalance_zero_on_any_failure funded
                            "addr_test1[x]" no_file H))
              (BlockfrostError 500 "Internal Server Error") H500)
    as [Hzero [_ Hlog]].
  split; [exact Hzero | apply Hlog; reflexivity].
Defined.

(** C8 on the funded network: 5 ADA against 0 ADA; 1 ADA is sent from the
    first stored wallet to the address of the second. *)
Lemma balanceCheckAndTransfer_sends_one_ada_down_witness :
  (2 <= List.length stored_wallets)%nat /\
  exists first second : WalletWithBalance,
    (ada (balance second) < ada (balance first))%Q /\
    In (ConsoleLog
          (AttemptingToSend 1 (name (wallet first)) (address (wallet second))))
       (since no_file
          (snd (balanceCheckAndTransfer funded stored_wallets no_file))).
Proof.
  assert (H : (2 <= List.length stored_wallets)%nat) by (simpl; lia).
  split; [exact H|].
  destruct (balanceCheckAndTransfer_sends_one_ada_down funded stored_wallets
              no_file H)
    as [fetched [s1 [first [second [rest
         [Hrun [_ [Hsort [_ [_ [_ [_ [_ [_ Hiff]]]]]]]]]]]]]].
  exists first, second.
  assert (Hlt : (ada (balance second) < ada (balance first))%Q).
  { injection Hrun as <- _. injection Hsort as <- <- _. reflexivity. }
  split; [exact Hlt|].
  apply Hiff. repeat split. exact Hlt.
Defined.


(** C10 on the reference instance: [NETWORK] is [mainnet] and the address
    is a testnet address all the same. *)
Lemma createTestnetWallet_always_testnet_witness :
  NETWORK funded = Some "mainnet" /\
  mnemonicToEntropy (mnemonic_used funded (Some "abandon ability") no_file)
    = inr (hex_of_string "abandon ability") /\
  exists w b,
    fst (createTestnetWallet funded (Some "abandon ability") no_file)
      = Return w /\
    type w = "Testnet Address" /\
    address w = to_bech32 (to_address b) /\
    base_network b = 0.
Proof.
  assert (H : mnemonicToEntropy
                (mnemonic_used funded (Some "abandon ability") no_file)
              = inr (hex_of_string "abandon ability")) by reflexivity.
  split; [reflexivity|]. split; [exact H|].
  destruct (proj1 (proj2 (createTestnetWallet_always_testnet funded
                            (Some "preview") (Some "abandon ability") no_file))
              (hex_of_string "abandon ability") H)
    as [w [b [Hrun [Htype [Haddr [_ [Hnet _]]]]]]].
  exists w, b.
  split; [exact Hrun|]. split; [exact Htype|].
  split; [exact Haddr | exact Hnet].
Defined.

(** C7 as stated fails: the credential is present, the collaborator fails
    with status 500, which is not "not found", and [fetchBalance] returns
    the zero balance instead of passing the error on. *)
Lemma fetchBalance_swallows_server_error :
  projectId funded = "preprodKey" /\
  addresses_answer funded (trace no_file) "addr_test1[x]"
    = inl (BlockfrostError 500 "Internal Server Error") /\
  has_status_code (BlockfrostError 500 "Internal Server Error") 404 = false /\
  fst (fetchBalance funded "addr_test1[x]" no_file) = Return zero_balance /\
  fst (fetchBalance funded "addr_test1[x]" no_file)
    <> Throw (BlockfrostError 500 "Internal Server Error").
Proof.
  repeat split; try reflexivity. discriminate.
Qed.


End Runs_on_reference.

(** ** The further theorems at work on the reference instance *)

Section Further_runs_on_reference.
Import Reference Scenarios.

#[local] Existing Instance bip39.
#[local] Existing Instance types.
#[local] Existing Instance wasm.
#[local] Existing Instance json.

(** X4 on the funded network: the first wallet with a phrase bip39
    rejects sends nothing and asks Blockfrost nothing. *)
Lemma sendAda_invalid_mnemonic_witness :
  mnemonicToEntropy (mnemonic forged) = inl (LibraryError "Invalid mnemonic") /\
  fst (sendAda funded forged receiver 1 no_file) = Return false /\
  since no_file (snd (sendAda funded forged receiver 1 no_file)) =
  [ConsoleError (ErrorSendingAda (LibraryError "Invalid mnemonic"));
   ConsoleError (ErrorGettingPrivateKey (LibraryError "Invalid mnemonic"));
   ConsoleLog (AttemptingToSend 1 (name forged) receiver)].
Proof.
  assert (H : mnemonicToEntropy (mnemonic forged)
              = inl (LibraryError "Invalid mnemonic")) by reflexivity.
  split; [exact H|].
  exact (sendAda_invalid_mnemonic funded forged receiver 1 no_file _ H).
Defined.

(** X5 on the funded network: the address of the second wallet was never
    used, the UTXO query fails with status 404, nothing is sent. *)
Lemma sendAda_utxo_query_failure_witness :
  mnemonicToEntropy (mnemonic unused) = inr (hex_of_string "zone zoo") /\
  addressesUtxos_answer funded
    (ConsoleLog (AttemptingToSend 1 (name unused) (address sender))
       :: trace no_file)
    (address unused) = inl (BlockfrostError 404 "Not Found") /\
  fst (sendAda funded unused (address sender) 1 no_file) = Return false /\
  since no_file (snd (sendAda funded unused (address sender) 1 no_file)) =
  [ConsoleError (ErrorSendingAda (BlockfrostError 404 "Not Found"));
   BlockfrostAddressesUtxos (address unused);
   ConsoleLog (AttemptingToSend 1 (name unused) (address sender))].
Proof.
  assert (H1 : mnemonicToEntropy (mnemonic unused)
               = inr (hex_of_string "zone zoo")) by reflexivity.
  assert (H2 : addressesUtxos_answer funded
                 (ConsoleLog (AttemptingToSend 1 (name unused) (address sender))
                    :: trace no_file)
                 (address unused) = inl (BlockfrostError 404 "Not Found"))
    by reflexivity.
  split; [exact H1|]. split; [exact H2|].
  exact (sendAda_utxo_query_failure funded unused (address sender) 1 no_file
           _ _ H1 H2).
Defined.

(** X6 on the funded network: the funds are there, the receiver is not an
    address, nothing is sent. *)
Lemma sendAda_bad_receiver_witness :
  from_bech32 "Wallet 2" = inl (LibraryError "Invalid bech32 address") /\
  fst (sendAda funded sender "Wallet 2" 1 no_file) = Return false /\
  since no_file (snd (sendAda funded sender "Wallet 2" 1 no_file)) =
  [ConsoleError (ErrorSendingAda (LibraryError "Invalid bech32 address"));
   BlockfrostAddressesUtxos (address sender);
   ConsoleLog (AttemptingToSend 1 (name sender) "Wallet 2")].
Proof.
  split; [reflexivity|].
  eapply (sendAda_bad_receiver funded sender "Wallet 2" 1 no_file).
  - reflexivity.
  - reflexivity.
  - discriminate.
  - reflexivity.
  - vm_compute. discriminate.
  - reflexivity.
Defined.

(** X7 when the protocol parameters cannot be had: the transfer stops
    after the two network queries and submits nothing. *)
Lemma sendAda_parameter_failure_witness :
  epochsParameters_answer no_parameters [] 120
    = inl (BlockfrostError 500 "Internal Server Error") /\
  fst (sendAda no_parameters sender receiver 1 no_file) = Return false /\
  since no_file (snd (sendAda no_parameters sender receiver 1 no_file)) =
  [ConsoleError (ErrorSendingAda (BlockfrostError 500 "Internal Server Error"));
   BlockfrostEpochsParameters 120;
   BlockfrostBlocksLatest;
   BlockfrostAddressesUtxos (address sender);
   ConsoleLog (AttemptingToSend 1 (name sender) receiver)].
Proof.
  split; [reflexivity|].
  eapply (sendAda_parameter_failure no_parameters sender receiver 1 no_file
            _ _ _ _ _ _ {| slot := 5000000; epoch := 120 |}).
  - reflexivity.
  - reflexivity.
  - discriminate.
  - reflexivity.
  - vm_compute. discriminate.
  - vm_compute. discriminate.
  - vm_compute. reflexivity.
  - reflexivity.
  - reflexivity.
  - reflexivity.
  - reflexivity.
Defined.

(** X8 on two UTXOs that reach 1,200,000 lovelace: a third UTXO with a
    malformed hash after them changes nothing. *)
Lemma select_inputs_ignores_rest_witness :
  exists (txInputs : list TransactionInput),
    select_inputs
      ([utxo_of "a" 0 700000; utxo_of "b" 1 800000] ++ [malformed_utxo])
      [] 0 1200000
    = inr (txInputs, 1500000).
Proof.
  eexists.
  eapply (select_inputs_ignores_rest
            [utxo_of "a" 0 700000; utxo_of "b" 1 800000] [malformed_utxo]).
  - discriminate.
  - reflexivity.
  - vm_compute. discriminate.
Defined.

(** X9 where the second UTXO has a malformed hash and the first does not
    reach the threshold: the transfer stops at the selection. *)
Lemma sendAda_malformed_hash_witness :
  TransactionHash_from_bytes (Buffer_from_hex (tx_hash malformed_utxo))
    = inl (LibraryError "Invalid hash length") /\
  fst (sendAda malformed sender receiver 1 no_file) = Return false /\
  since no_file (snd (sendAda malformed sender receiver 1 no_file)) =
  [ConsoleError (ErrorSendingAda (LibraryError "Invalid hash length"));
   BlockfrostAddressesUtxos (address sender);
   ConsoleLog (AttemptingToSend 1 (name sender) receiver)].
Proof.
  split; [reflexivity|].
  eapply (sendAda_malformed_hash malformed sender receiver 1 no_file _
            [utxo_of "a" 0 700000] [utxo_of "c" 0 3500000] malformed_utxo).
  - reflexivity.
  - reflexivity.
  - reflexivity.
  - vm_compute. reflexivity.
  - reflexivity.
Defined.

(** X10 on the funded network: the key that signs the submitted
    transaction is the key of the address made from the sender's
    mnemonic. *)
Lemma sendAda_signs_with_wallet_key_witness :
  In (BlockfrostTxSubmit submitted_bytes)
     (since no_file (snd (sendAda funded sender receiver 1 no_file))) /\
  exists (tx : Transaction) (k : Bip32PrivateKey)
         (created : Wallet) (stake : StakeCredential),
    submitted_bytes = to_bytes tx /\
    vkeys (witness_set tx) =
      Some [make_vkey_witness (hash_transaction (body tx)) (to_raw_key k)] /\
    createTestnetWallet funded (Some (mnemonic sender)) no_file
      = (Return created, no_file) /\
    address created =
      to_bech32
        (to_address
           (BaseAddress_new 0
              (from_keyhash (hash (public_to_raw_key (to_public k))))
              stake)).
Proof.
  split; [exact reference_submission|].
  destruct (sendAda_signs_with_wallet_key funded sender receiver 1 no_file
              submitted_bytes reference_submission)
    as [tx [k [Hb [Hw Hcreated]]]].
  destruct (Hcreated funded no_file) as [created [stake [Hrun Haddr]]].
  exists tx, k, created, stake.
  split; [exact Hb|]. split; [exact Hw|]. split; [exact Hrun | exact Haddr].
Defined.


(** X14 on the funded network: one balance query for each of the two
    stored wallets, the first wallet first. *)
Lemma balanceCheckAndTransfer_one_query_per_wallet_witness :
  projectId funded <> EmptyString /\
  address_queries
    (since no_file (snd (balanceCheckAndTransfer funded stored_wallets no_file)))
  = ["addr_test1[c,d]"; "addr_test1[a,b]"].
Proof.
  assert (H : projectId funded <> EmptyString) by discriminate.
  split; [exact H|].
  apply (balanceCheckAndTransfer_one_query_per_wallet funded stored_wallets
           no_file H).
  simpl. lia.
Defined.


(** X17 on a file that holds [null]: two wallets are created and the file
    is replaced. *)
Lemma manageWallets_replaces_unusable_file_witness :
  wallet_file null_file = Some "null" /\
  file_value (wallet_file null_file) = JsFalsy /\
  exists (c1 c2 : Wallet),
    wallet_file (snd (manageWallets funded null_file)) =
    Some (JSON_stringify [with_name c1 "Wallet 1"; with_name c2 "Wallet 2"]) /\
    wallet_file (snd (wallet_manager_manageWallets funded null_file)) =
    Some (JSON_stringify [with_name c1 "Wallet 1"; with_name c2 "Wallet 2"]).
Proof.
  assert (H : file_value (wallet_file null_file) = JsFalsy) by reflexivity.
  split; [reflexivity|]. split; [exact H|].
  destruct (manageWallets_replaces_unusable_file funded null_file H
              reference_valid_generator)
    as [c1 [c2 [_ [_ [_ [_ [_ [_ [_ [_ Hsaved]]]]]]]]]].
  exists c1, c2.
  destruct (Hsaved eq_refl) as [Hwm Hmw].
  split; [exact Hmw | exact Hwm].
Defined.

(** X18 on the funded network with the stored file: the manager ends
    normally and the completion line is printed. *)
Lemma manageWallets_completes_witness :
  valid_generator funded /\
  file_value (wallet_file stored_file) = JsWallets stored_wallets /\
  fst (manageWallets funded stored_file) = Return tt /\
  snd (main funded stored_file) = WalletManagementCompleted.
Proof.
  assert (H : file_value (wallet_file stored_file) = JsWallets stored_wallets)
    by reflexivity.
  split; [exact reference_valid_generator|]. split; [exact H|].
  destruct (manageWallets_completes funded stored_file
              reference_valid_generator
              (or_intror (ex_intro _ stored_wallets H)))
    as [Hmw [_ Hmain]].
  split; [exact Hmw | exact Hmain].
Defined.

(** X19 with a random source whose phrases bip39 rejects: the error line
    of [main.js] carries the bip39 error, and no file is written; and with
    a file that holds an array with [null] in it: the error is the one
    thrown while showing it. *)
Lemma main_error_causes_witness :
  snd (main broken_generator no_file)
    = ErrorRunningWalletManager (LibraryError "Invalid mnemonic") /\
  wallet_file (fst (main broken_generator no_file)) = None /\
  snd (main funded null_array_file) = ErrorRunningWalletManager null_element /\
  wallet_file (fst (main funded null_array_file)) = Some "[null]".
Proof.
  assert (H : snd (main broken_generator no_file)
              = ErrorRunningWalletManager (LibraryError "Invalid mnemonic"))
    by reflexivity.
  assert (H' : snd (main funded null_array_file)
               = ErrorRunningWalletManager null_element) by reflexivity.
  split; [exact H|].
  split; [exact (proj1 (main_error_causes broken_generator no_file _ H))|].
  split; [exact H'|].
  exact (proj1 (main_error_causes funded null_array_file _ H')).
Defined.

(** X23 on a file that holds [{}]: the manager throws, [main.js] prints
    the error line, and the file is as it was. *)
Lemma manageWallets_not_iterable_witness :
  file_value (wallet_file object_file) = JsNotIterable /\
  fst (manageWallets funded object_file) = Throw not_iterable /\
  wallet_file (snd (manageWallets funded object_file)) = Some "{}" /\
  snd (main funded object_file) = ErrorRunningWalletManager not_iterable.
Proof.
  assert (H : file_value (wallet_file object_file) = JsNotIterable)
    by reflexivity.
  split; [exact H|].
  destruct (manageWallets_not_iterable funded object_file H)
    as [_ [Hthrow [Hfile [_ Hmain]]]].
  split; [exact Hthrow|]. split; [exact Hfile | exact Hmain].
Defined.

(** X20 on the funded network with the stored file: four balance queries
    by the manager of [part_000], two by the one of [wallet_manager.js]. *)
Lemma manageWallets_asks_balances_twice_witness :
  file_value (wallet_file stored_file) = JsWallets stored_wallets /\
  address_queries
    (since stored_file (snd (wallet_manager_manageWallets funded stored_file)))
  = ["addr_test1[c,d]"; "addr_test1[a,b]"] /\
  address_queries
    (since stored_file (snd (manageWallets funded stored_file)))
  = ["addr_test1[c,d]"; "addr_test1[a,b]";
     "addr_test1[c,d]"; "addr_test1[a,b]"].
Proof.
  assert (Hid : projectId funded <> EmptyString) by discriminate.
  assert (H : file_value (wallet_file stored_file) = JsWallets stored_wallets)
    by reflexivity.
  assert (Hlen : (2 <= List.length stored_wallets)%nat) by (simpl; lia).
  split; [exact H|].
  exact (manageWallets_asks_balances_twice funded stored_file stored_wallets
           Hid H Hlen).
Defined.

(** X22 on the funded network: the transfer of 1 ADA gets to submit, and
    it is accepted. *)
Lemma sendAda_submits_witness :
  exists b,
    In (BlockfrostTxSubmit b)
       (since no_file (snd (sendAda funded sender receiver 1 no_file))) /\
    fst (sendAda funded sender receiver 1 no_file) = Return true.
Proof.
  edestruct (sendAda_submits funded sender receiver 1 no_file)
    as [b [Hin Hiff]].
  - reflexivity.
  - reflexivity.
  - discriminate.
  - reflexivity.
  - vm_compute. discriminate.
  - vm_compute. discriminate.
  - vm_compute. reflexivity.
  - reflexivity.
  - reflexivity.
  - reflexivity.
  - reflexivity.
  - exists b. split; [exact Hin|].
    apply Hiff. exists "txhash". reflexivity.
Defined.

End Further_runs_on_reference.
